(** * Order-invoice settlement engine: a shallow embedding

    The definitions below follow the order routes, the invoice payment route
    and the Mongoose models of the repository (models/Product.js with the
    Order model, models/Invoice.js, routes/invoices.js and the order router).

    Conventions.
    - A JavaScript [Number] is modelled by an exact rational ([Q]); the
      rounding of IEEE doubles is outside the model.  Every equation proved
      with Leibniz equality below is an equation between the very
      expressions the code evaluates.
    - [new Date()] is a parameter [now] of the operation that reads the clock.
    - A collection of the document store is threaded explicitly; a write that
      happened before a failure stays in the returned store, as it does in
      the database. *)

From Stdlib Require Import ZArith QArith Qround Lqa String Ascii List Lia Bool.
From Stdlib Require Import DecimalString.
From Stdlib Require DecimalPos DecimalN DecimalFacts.
From stdpp Require Import gmap strings list.

Local Open Scope string_scope.
Local Open Scope Z_scope.

(** ** JavaScript values used by the routes *)

Module Js.

(** Truthiness of a number: [0] is falsy. *)
Definition truthy (x : Q) : bool := negb (Qeq_bool x 0).

(** [a || d] where [a] may be [undefined]. *)
Definition or_default (a : option Q) (d : Q) : Q :=
  match a with
  | Some x => if truthy x then x else d
  | None => d
  end.

(** [n.toString()] for a non-negative integer. *)
Definition toString (n : N) : string :=
  NilEmpty.string_of_uint (N.to_uint n).

Fixpoint repeat_char (c : ascii) (n : nat) : string :=
  match n with
  | O => EmptyString
  | S k => String c (repeat_char c k)
  end.

(** [s.padStart(len, '0')]. *)
Definition padStart (len : nat) (c : ascii) (s : string) : string :=
  repeat_char c (len - String.length s) +:+ s.

(** [s.slice(-k)]: the last [k] characters, the whole string when shorter. *)
Definition slice_last (k : nat) (s : string) : string :=
  String.substring (String.length s - k) k s.

(** [Math.floor] and [Math.round] (halves go up). *)
Definition floor (x : Q) : Z := Qfloor x.
Definition round (x : Q) : Z := Qfloor (x + (1 # 2))%Q.

(** The parts of a [Date] the code reads: [getFullYear()], [getMonth()]
    (0 to 11) and [getDate()]. *)
Record Date := mkDate { getFullYear : N; getMonth : N; getDate : N }.

End Js.

(** ** models/Invoice.js: amount in words *)

Module Words.

Definition ones : list string :=
  [ ""; "One"; "Two"; "Three"; "Four"; "Five"; "Six"; "Seven"; "Eight"; "Nine";
    "Ten"; "Eleven"; "Twelve"; "Thirteen"; "Fourteen"; "Fifteen"; "Sixteen";
    "Seventeen"; "Eighteen"; "Nineteen" ].

Definition tens : list string :=
  [ ""; ""; "Twenty"; "Thirty"; "Forty"; "Fifty"; "Sixty"; "Seventy"; "Eighty";
    "Ninety" ].

(** [arr[i]] placed in a string concatenation: an index outside the array
    reads [undefined], which concatenates as the text "undefined". *)
Definition index (arr : list string) (i : Z) : string :=
  if i <? 0 then "undefined"
  else match arr !! Z.to_nat i with
       | Some s => s
       | None => "undefined"
       end.

(** The body of [numToWords], with the recursive calls made through [self]. *)
Definition numToWords_body (self : Z -> string) (num : Z) : string :=
  if num <? 20 then index ones num
  else if num <? 100 then
    index tens (num / 10) +:+
      (if negb (num mod 10 =? 0) then " " +:+ index ones (num mod 10) else "")
  else if num <? 1000 then
    index ones (num / 100) +:+ " Hundred" +:+
      (if negb (num mod 100 =? 0) then " " +:+ self (num mod 100) else "")
  else if num <? 100000 then
    self (num / 1000) +:+ " Thousand" +:+
      (if negb (num mod 1000 =? 0) then " " +:+ self (num mod 1000) else "")
  else if num <? 10000000 then
    self (num / 100000) +:+ " Lakh" +:+
      (if negb (num mod 100000 =? 0) then " " +:+ self (num mod 100000) else "")
  else
    self (num / 10000000) +:+ " Crore" +:+
      (if negb (num mod 10000000 =? 0) then " " +:+ self (num mod 10000000) else "").

Fixpoint numToWords_fuel (fuel : nat) (num : Z) : string :=
  match fuel with
  | O => ""
  | S k => numToWords_body (numToWords_fuel k) num
  end.

(** Every recursive call is on a strictly smaller non-negative number, and a
    call on a number at least one hundred divides it by at least one
    hundred or drops under the current tier: the binary size of the argument
    bounds the depth. *)
Definition depth (num : Z) : nat := S (Z.to_nat (Z.log2 num)).

Definition numToWords (num : Z) : string := numToWords_fuel (depth num) num.

(** [numberToWords(amount)]. *)
Definition numberToWords (amount : Q) : string :=
  let rupees := Js.floor amount in
  let paise := Js.round ((amount - inject_Z rupees) * 100)%Q in
  let words := numToWords rupees +:+ " Rupees" in
  if 0 <? paise then words +:+ " and " +:+ numToWords paise +:+ " Paise"
  else words.

End Words.

(** ** Documents (models/Product.js, the Order model, models/Customer.js,
       models/Invoice.js) *)

Module Doc.

Record Product := mkProduct {
  p_id : nat;
  p_name : string;
  p_sku : string;
  sellingPrice : Q;          (* pricing.sellingPrice *)
  p_tax_rate : Q;            (* tax.rate *)
  inv_quantity : Q;          (* inventory.quantity, schema: min 0 *)
  trackInventory : bool      (* inventory.trackInventory *)
}.

Definition set_inv_quantity (q : Q) (p : Product) : Product :=
  mkProduct (p_id p) (p_name p) (p_sku p) (sellingPrice p) (p_tax_rate p) q
            (trackInventory p).

Record Customer := mkCustomer {
  c_id : nat;
  c_user : nat;
  totalOrders : Q;
  totalSpent : Q;
  averageOrderValue : Q;
  lastOrderDate : option Js.Date
}.

Inductive OrderStatus :=
  pending | confirmed | processing | shipped | delivered | cancelled | refunded.

Definition OrderStatus_eqb (a b : OrderStatus) : bool :=
  match a, b with
  | pending, pending | confirmed, confirmed | processing, processing
  | shipped, shipped | delivered, delivered | cancelled, cancelled
  | refunded, refunded => true
  | _, _ => false
  end.

(** orderItemSchema *)
Record OrderItem := mkOrderItem {
  it_product : nat;
  productName : string;
  it_sku : string;
  quantity : Q;              (* schema: min 1 *)
  unitPrice : Q;
  discount : Q;
  tax_rate : Q;              (* tax.rate *)
  tax_amount : Q;            (* tax.amount *)
  it_total : Q;              (* total *)
  it_notes : option string
}.

(** The [pricing] block of an order. *)
Record Pricing := mkPricing {
  subtotal : Q;
  totalDiscount : Q;
  totalTax : Q;
  shipping : Q;
  packaging : Q;
  total : Q;
  amountPaid : Q;
  amountDue : Q
}.

Definition set_amountDue (d : Q) (p : Pricing) : Pricing :=
  mkPricing (subtotal p) (totalDiscount p) (totalTax p) (shipping p)
            (packaging p) (total p) (amountPaid p) d.

Record HistoryEntry := mkHistoryEntry {
  h_status : OrderStatus;
  h_location : string;
  h_timestamp : Js.Date;
  h_notes : string
}.

Record Tracking := mkTracking {
  carrier : option string;
  trackingNumber : option string;
  actualDelivery : option Js.Date;
  history : list HistoryEntry
}.

Record Order := mkOrder {
  o_id : nat;
  o_user : nat;
  o_customer : nat;
  orderNumber : option string;   (* schema: unique *)
  items : list OrderItem;
  status : OrderStatus;
  pricing : Pricing;
  tracking : Tracking;
  notes_internal : option string;
  cancelledAt : option Js.Date;
  cancellationReason : option string
}.

Inductive PaymentStatus :=
  pay_pending | pay_partial | pay_paid | pay_overdue | pay_cancelled.

Inductive InvoiceStatus :=
  inv_draft | inv_sent | inv_viewed | inv_paid | inv_overdue | inv_cancelled.

Record Payment := mkPayment {
  pay_amount : Q;
  pay_method : option string;
  pay_reference : option string;
  pay_notes : option string;
  pay_date : Js.Date
}.

Record Invoice := mkInvoice {
  i_id : nat;
  i_user : nat;
  invoiceNumber : option string;     (* schema: unique *)
  i_total : Q;                       (* pricing.total *)
  amountInWords : option string;     (* pricing.amountInWords *)
  pd_status : PaymentStatus;         (* paymentDetails.status *)
  paidAmount : Q;                    (* paymentDetails.paidAmount *)
  pd_paidDate : option Js.Date;      (* paymentDetails.paidDate *)
  payments : list Payment;           (* paymentDetails.payments *)
  i_status : InvoiceStatus;          (* status *)
  dates_paidDate : option Js.Date    (* dates.paidDate *)
}.

(** The collections of the document store. *)
Record Db := mkDb {
  customers : gmap nat Customer;
  products : gmap nat Product;
  orders : list Order;
  invoices : list Invoice
}.

Definition set_customers (c : gmap nat Customer) (db : Db) : Db :=
  mkDb c (products db) (orders db) (invoices db).
Definition set_products (p : gmap nat Product) (db : Db) : Db :=
  mkDb (customers db) p (orders db) (invoices db).
Definition set_orders (o : list Order) (db : Db) : Db :=
  mkDb (customers db) (products db) o (invoices db).
Definition set_invoices (i : list Invoice) (db : Db) : Db :=
  mkDb (customers db) (products db) (orders db) i.

End Doc.

(** ** A route handler: store passing, early [return res...] and [throw] *)

Module Handler.
Import Doc.

(** What a [save()] can throw. *)
Inductive Exn :=
| ValidationError (path : string)
| DuplicateKey (key : string)
| DocumentNotFound.

(** What a route sends: [res.status(code).json(...)]. *)
Inductive Reply :=
| SendOrder (code : nat) (order : Order) (message : string)
| SendInvoice (code : nat) (invoice : Invoice) (message : string)
| SendError (code : nat) (error : string).

Inductive Result (A : Type) :=
| Val (a : A)
| Return (r : Reply)
| Raise (e : Exn).
Arguments Val {A} a.
Arguments Return {A} r.
Arguments Raise {A} e.

Definition M (A : Type) : Type := Db -> Db * Result A.

Definition ret {A} (a : A) : M A := fun db => (db, Val a).

Definition bind {A B} (m : M A) (k : A -> M B) : M B :=
  fun db =>
    match m db with
    | (db', Val a) => k a db'
    | (db', Return r) => (db', Return r)
    | (db', Raise e) => (db', Raise e)
    end.

#[global] Instance M_ret : MRet M := @ret.
#[global] Instance M_bind : MBind M := fun A B k m => bind m k.

Definition reply {A} (r : Reply) : M A := fun db => (db, Return r).
Definition throw {A} (e : Exn) : M A := fun db => (db, Raise e).
Definition get : M Db := fun db => (db, Val db).
Definition modify (f : Db -> Db) : M unit := fun db => (f db, Val tt).

(** [try { body } catch (error) { res.status(500).json({ error: msg }) }] *)
Definition try_catch (body : M Reply) (msg : string) (db : Db) : Db * Reply :=
  match body db with
  | (db', Val r) => (db', r)
  | (db', Return r) => (db', r)
  | (db', Raise _) => (db', SendError 500 msg)
  end.

End Handler.


(** ** Document numbers (the two [pre('save')] hooks that build them) *)

Module Numbering.

(** [!this.orderNumber]: the field is absent or the empty string. *)
Definition missing (s : option string) : bool :=
  match s with
  | None => true
  | Some s => String.eqb s ""
  end.

(** [`ORD/${year}${month}/${(count + 1).toString().padStart(4, '0')}`] *)
Definition orderNumber_of (date : Js.Date) (count : N) : string :=
  let year := Js.slice_last 2 (Js.toString (Js.getFullYear date)) in
  let month := Js.padStart 2 "0" (Js.toString (Js.getMonth date + 1)%N) in
  "ORD/" +:+ year +:+ month +:+ "/" +:+
  Js.padStart 4 "0" (Js.toString (count + 1)%N).

(** [`INV/${year}${month}${day}/${(count + 1).toString().padStart(4, '0')}`] *)
Definition invoiceNumber_of (date : Js.Date) (count : N) : string :=
  let year := Js.slice_last 2 (Js.toString (Js.getFullYear date)) in
  let month := Js.padStart 2 "0" (Js.toString (Js.getMonth date + 1)%N) in
  let day := Js.padStart 2 "0" (Js.toString (Js.getDate date)) in
  "INV/" +:+ year +:+ month +:+ day +:+ "/" +:+
  Js.padStart 4 "0" (Js.toString (count + 1)%N).

(** The format as the specification words it: two digits of the year, two
    of the month (and two of the day for an invoice), then the sequence
    number printed with at least four digits. *)
Definition digit (d : N) : ascii := ascii_of_N (48 + d mod 10)%N.

Definition two_digits (n : N) : string :=
  String (digit (n / 10)%N) (String (digit n) "").

Definition seq04 (n : N) : string :=
  if (n <? 10000)%N then
    String (digit (n / 1000)%N) (String (digit (n / 100)%N)
      (String (digit (n / 10)%N) (String (digit n) "")))
  else Js.toString n.

Definition spec_orderNumber (date : Js.Date) (n : N) : string :=
  "ORD/" +:+ two_digits (Js.getFullYear date mod 100)%N +:+
  two_digits (Js.getMonth date + 1)%N +:+ "/" +:+ seq04 n.

Definition spec_invoiceNumber (date : Js.Date) (n : N) : string :=
  "INV/" +:+ two_digits (Js.getFullYear date mod 100)%N +:+
  two_digits (Js.getMonth date + 1)%N +:+ two_digits (Js.getDate date) +:+
  "/" +:+ seq04 n.

(** A calendar date as [new Date()] yields it in the years 1000 to 9999. *)
Definition plausible (date : Js.Date) : Prop :=
  (1000 <= Js.getFullYear date <= 9999)%N /\
  (Js.getMonth date <= 11)%N /\
  (1 <= Js.getDate date <= 31)%N.

(** A test that holds on [0 .. k-1] holds below [k]. *)
Definition below (k : N) (f : N -> bool) : bool :=
  forallb (fun i => f (N.of_nat i)) (seq 0 (N.to_nat k)).

End Numbering.

(** ** The models: validators, hooks and writes behind [save()]

    A [save()] validates the document first ([required] on the number,
    [min] on the quantities), then runs the [pre('save')] hooks in the order
    they are registered, then writes: an insert for a new document, an
    update for one that was read from the store.  The store refuses an
    [_id] or a number that another document has.  Of the [required]
    fields, the number is the one a route can leave out; the others are
    supplied by the routes or are numbers of the model. *)

Module Model.
Import Doc Handler.

(** *** Product *)

Definition Product_findById (id : nat) : M (option Product) :=
  db ← get; ret (products db !! id).

(** [product.save()]: the schema validator [inventory.quantity: min 0]
    rejects the document, otherwise it is written. *)
Definition Product_save (p : Product) : M unit :=
  if Qle_bool 0 (inv_quantity p)
  then modify (fun db => set_products (<[p_id p := p]> (products db)) db)
  else throw (ValidationError "inventory.quantity").

(** *** Customer *)

(** [Customer.findOne({ _id: id, user: uid })] *)
Definition Customer_lookup (id uid : nat) (coll : gmap nat Customer)
  : option Customer :=
  match coll !! id with
  | Some c => if (c_user c =? uid)%nat then Some c else None
  | None => None
  end.

Definition Customer_findOne (id uid : nat) : M (option Customer) :=
  db ← get; ret (Customer_lookup id uid (customers db)).

Definition gt0 (x : Q) : bool := negb (Qle_bool x 0).

(** customerSchema.pre('save') *)
Definition customerSchema_pre_save (c : Customer) : Customer :=
  if gt0 (totalOrders c) && gt0 (totalSpent c)
  then mkCustomer (c_id c) (c_user c) (totalOrders c) (totalSpent c)
                  (totalSpent c / totalOrders c)%Q (lastOrderDate c)
  else c.

Definition Customer_save (c : Customer) : M unit :=
  let c' := customerSchema_pre_save c in
  modify (fun db => set_customers (<[c_id c' := c']> (customers db)) db).

(** *** Order *)

Definition set_orderNumber (n : option string) (o : Order) : Order :=
  mkOrder (o_id o) (o_user o) (o_customer o) n (items o) (status o)
          (pricing o) (tracking o) (notes_internal o) (cancelledAt o)
          (cancellationReason o).

Definition set_pricing (p : Pricing) (o : Order) : Order :=
  mkOrder (o_id o) (o_user o) (o_customer o) (orderNumber o) (items o)
          (status o) p (tracking o) (notes_internal o) (cancelledAt o)
          (cancellationReason o).

(** [Order.countDocuments({ user })] *)
Definition Order_countDocuments (user : nat) (coll : list Order) : N :=
  N.of_nat (length (List.filter (fun o => (o_user o =? user)%nat) coll)).

(** orderSchema.pre('save'), given the count its query returned. *)
Definition orderSchema_pre_save (date : Js.Date) (count : N) (o : Order)
  : Order :=
  let o1 :=
    if Numbering.missing (orderNumber o)
    then set_orderNumber (Some (Numbering.orderNumber_of date count)) o
    else o in
  set_pricing
    (set_amountDue (total (pricing o1) - amountPaid (pricing o1))%Q (pricing o1))
    o1.

(** The validator [orderNumber: required]: a string that is not empty. *)
Definition Order_required (o : Order) : bool :=
  negb (Numbering.missing (orderNumber o)).

(** The item validator of orderItemSchema: [quantity: min 1]. *)
Definition Order_validate (o : Order) : bool :=
  forallb (fun it => Qle_bool 1 (quantity it)) (items o).

(** [validate()], which [save()] runs before the hooks. *)
Definition Order_valid (o : Order) : bool :=
  Order_required o && Order_validate o.

Definition same_number (a b : option string) : bool :=
  match a, b with
  | Some x, Some y => String.eqb x y
  | _, _ => false
  end.

(** Another document of the collection already carries the number. *)
Definition Order_number_taken (o : Order) (coll : list Order) : bool :=
  existsb (fun o' => negb (o_id o' =? o_id o)%nat &&
                     same_number (orderNumber o') (orderNumber o)) coll.

Definition Order_find (id : nat) (coll : list Order) : option Order :=
  List.find (fun o => (o_id o =? id)%nat) coll.

(** The write of [save()].  A new document ([isNew]) is inserted: the store
    refuses an [_id] that is stored already.  A document read from the store
    is updated in place.  Either way the unique index on [orderNumber]
    refuses a number another document has. *)
Definition Order_write (isNew : bool) (o : Order) (coll : list Order)
  : Exn + list Order :=
  match Order_find (o_id o) coll with
  | Some old =>
      if isNew then inl (DuplicateKey "_id")
      else if same_number (orderNumber old) (orderNumber o)
              || negb (Order_number_taken o coll)
      then inr (map (fun o' => if (o_id o' =? o_id o)%nat then o else o') coll)
      else inl (DuplicateKey "orderNumber")
  | None =>
      if isNew then
        if Order_number_taken o coll then inl (DuplicateKey "orderNumber")
        else inr (coll ++ [o])%list
      else inl DocumentNotFound
  end.

(** [order.save()]; the saved document is the one the caller keeps. *)
Definition Order_save (date : Js.Date) (isNew : bool) (o : Order) : M Order :=
  if negb (Order_valid o)
  then throw (ValidationError
                (if Order_required o then "items.quantity" else "orderNumber"))
  else
    db ← get;
    let o' := orderSchema_pre_save date
                (Order_countDocuments (o_user o) (orders db)) o in
    match Order_write isNew o' (orders db) with
    | inl e => throw e
    | inr coll => _ ← modify (set_orders coll); ret o'
    end.

(** [Order.findOne({ _id: id, user: uid })] *)
Definition Order_lookup (id uid : nat) (coll : list Order) : option Order :=
  match Order_find id coll with
  | Some o => if (o_user o =? uid)%nat then Some o else None
  | None => None
  end.

Definition Order_findOne (id uid : nat) : M (option Order) :=
  db ← get; ret (Order_lookup id uid (orders db)).

(** *** Invoice *)

Definition Invoice_countDocuments (user : nat) (coll : list Invoice) : N :=
  N.of_nat (length (List.filter (fun i => (i_user i =? user)%nat) coll)).

Definition set_invoiceNumber (n : option string) (i : Invoice) : Invoice :=
  mkInvoice (i_id i) (i_user i) n (i_total i) (amountInWords i) (pd_status i)
            (paidAmount i) (pd_paidDate i) (payments i) (i_status i)
            (dates_paidDate i).

Definition set_amountInWords (w : option string) (i : Invoice) : Invoice :=
  mkInvoice (i_id i) (i_user i) (invoiceNumber i) (i_total i) w (pd_status i)
            (paidAmount i) (pd_paidDate i) (payments i) (i_status i)
            (dates_paidDate i).

(** The two invoiceSchema.pre('save') hooks, in the order they are
    registered: the number, then the amount in words. *)
Definition invoiceSchema_pre_save (date : Js.Date) (count : N) (i : Invoice)
  : Invoice :=
  let i1 :=
    if Numbering.missing (invoiceNumber i)
    then set_invoiceNumber (Some (Numbering.invoiceNumber_of date count)) i
    else i in
  if Js.truthy (i_total i1)
  then set_amountInWords (Some (Words.numberToWords (i_total i1))) i1
  else i1.

Definition Invoice_number_taken (i : Invoice) (coll : list Invoice) : bool :=
  existsb (fun i' => negb (i_id i' =? i_id i)%nat &&
                     same_number (invoiceNumber i') (invoiceNumber i)) coll.

Definition Invoice_find (id : nat) (coll : list Invoice) : option Invoice :=
  List.find (fun i => (i_id i =? id)%nat) coll.

Definition Invoice_write (isNew : bool) (i : Invoice) (coll : list Invoice)
  : Exn + list Invoice :=
  match Invoice_find (i_id i) coll with
  | Some old =>
      if isNew then inl (DuplicateKey "_id")
      else if same_number (invoiceNumber old) (invoiceNumber i)
              || negb (Invoice_number_taken i coll)
      then inr (map (fun i' => if (i_id i' =? i_id i)%nat then i else i') coll)
      else inl (DuplicateKey "invoiceNumber")
  | None =>
      if isNew then
        if Invoice_number_taken i coll then inl (DuplicateKey "invoiceNumber")
        else inr (coll ++ [i])%list
      else inl DocumentNotFound
  end.

(** The validator [invoiceNumber: required]. *)
Definition Invoice_valid (i : Invoice) : bool :=
  negb (Numbering.missing (invoiceNumber i)).

(** [invoice.save()]: validation, the hooks, the write. *)
Definition Invoice_save (date : Js.Date) (isNew : bool) (i : Invoice)
  : M Invoice :=
  if negb (Invoice_valid i) then throw (ValidationError "invoiceNumber")
  else
    db ← get;
    let i' := invoiceSchema_pre_save date
                (Invoice_countDocuments (i_user i) (invoices db)) i in
    match Invoice_write isNew i' (invoices db) with
    | inl e => throw e
    | inr coll => _ ← modify (set_invoices coll); ret i'
    end.

(** [Invoice.findOne({ _id: id, user: uid })] *)
Definition Invoice_lookup (id uid : nat) (coll : list Invoice)
  : option Invoice :=
  match Invoice_find id coll with
  | Some i => if (i_user i =? uid)%nat then Some i else None
  | None => None
  end.

Definition Invoice_findOne (id uid : nat) : M (option Invoice) :=
  db ← get; ret (Invoice_lookup id uid (invoices db)).

End Model.

(** ** The order routes *)

Module Orders.
Import Doc Handler Model.
Local Open Scope Q_scope.

(** *** POST / : create order *)

Record ItemInput := mkItemInput {
  in_product : nat;
  in_quantity : Q;
  in_unitPrice : option Q;
  in_discount : option Q;
  in_tax_rate : option Q;        (* item.tax?.rate *)
  in_notes : option string
}.

Record PricingInput := mkPricingInput {
  in_shipping : option Q;
  in_packaging : option Q;
  in_amountPaid : option Q
}.

(** The fields of [req.body] the handler and the model read. *)
Record OrderBody := mkOrderBody {
  b_customer : nat;
  b_items : list ItemInput;
  b_pricing : option PricingInput;
  b_orderNumber : option string;
  b_status : option OrderStatus
}.

(** [orderData.pricing?.f || 0] *)
Definition pricing_field (f : PricingInput -> option Q) (b : OrderBody) : Q :=
  match b_pricing b with
  | Some p => Js.or_default (f p) 0
  | None => 0
  end.

(** The line item pushed on [processedItems]. *)
Definition line_item (product : Product) (item : ItemInput) : OrderItem :=
  let unitPrice := Js.or_default (in_unitPrice item) (sellingPrice product) in
  let discount := Js.or_default (in_discount item) 0 in
  let taxRate := Js.or_default (in_tax_rate item) (p_tax_rate product) in
  let taxableAmount := (unitPrice * in_quantity item) - discount in
  let taxAmount := taxableAmount * (taxRate / 100) in
  let itemTotal := taxableAmount + taxAmount in
  mkOrderItem (p_id product) (p_name product) (p_sku product)
              (in_quantity item) unitPrice discount taxRate taxAmount
              itemTotal (in_notes item).

(** [for (const item of orderData.items) { ... }] with the two accumulators
    [subtotal] and [processedItems]. *)
Fixpoint process_items (its : list ItemInput) (subtotal : Q)
    (processedItems : list OrderItem) : M (Q * list OrderItem) :=
  match its with
  | [] => ret (subtotal, processedItems)
  | item :: rest =>
      product ← Product_findById (in_product item);
      match product with
      | None =>
          reply (SendError 400
                   ("Product not found: " +:+
                    Js.toString (N.of_nat (in_product item))))
      | Some product =>
          let li := line_item product item in
          _ ← (if trackInventory product
               then Product_save
                      (set_inv_quantity
                         (inv_quantity product - in_quantity item) product)
               else ret tt);
          process_items rest (subtotal + it_total li)
                        (processedItems ++ [li])%list
      end
  end.

Definition empty_tracking : Tracking := mkTracking None None None [].

(** [new Order({ ...orderData, items: processedItems, pricing: {...} })] *)
Definition new_order (oid uid : nat) (b : OrderBody) (subtotal : Q)
    (processedItems : list OrderItem) : Order :=
  mkOrder oid uid (b_customer b) (b_orderNumber b) processedItems
    (match b_status b with Some st => st | None => pending end)
    (mkPricing
       subtotal
       (fold_left (fun sum item => sum + Js.or_default (in_discount item) 0)
                  (b_items b) 0)
       (fold_left (fun sum item => sum + tax_amount item) processedItems 0)
       (pricing_field in_shipping b)
       (pricing_field in_packaging b)
       (subtotal + pricing_field in_shipping b + pricing_field in_packaging b)
       (pricing_field in_amountPaid b)
       (subtotal + pricing_field in_shipping b - pricing_field in_amountPaid b))
    empty_tracking None None None.

Definition createOrder_body (uid : nat) (b : OrderBody) (oid : nat)
    (now : Js.Date) : M Reply :=
  customer ← Customer_findOne (b_customer b) uid;
  match customer with
  | None => reply (SendError 400 "Customer not found")
  | Some customer =>
      r ← process_items (b_items b) 0 [];
      order ← Order_save now true (new_order oid uid b (fst r) (snd r));
      _ ← Customer_save
            (mkCustomer (c_id customer) (c_user customer)
               (totalOrders customer + 1)
               (totalSpent customer + total (pricing order))
               (averageOrderValue customer) (Some now));
      ret (SendOrder 201 order "Order created successfully")
  end.

Definition createOrder (uid : nat) (b : OrderBody) (oid : nat)
    (now : Js.Date) : Db -> Db * Reply :=
  try_catch (createOrder_body uid b oid now) "Failed to create order".

(** *** PUT /:id : update order *)

(** The fields of the body that [Object.assign(order, req.body)] copies. *)
Record OrderPatch := mkOrderPatch {
  up_status : option OrderStatus;
  up_pricing : option Pricing;
  up_items : option (list OrderItem);
  up_orderNumber : option string
}.

Definition assign (o : Order) (p : OrderPatch) : Order :=
  mkOrder (o_id o) (o_user o) (o_customer o)
    (match up_orderNumber p with Some n => Some n | None => orderNumber o end)
    (match up_items p with Some l => l | None => items o end)
    (match up_status p with Some st => st | None => status o end)
    (match up_pricing p with Some pr => pr | None => pricing o end)
    (tracking o) (notes_internal o) (cancelledAt o) (cancellationReason o).

Definition updateOrder (uid id : nat) (p : OrderPatch) (now : Js.Date)
  : Db -> Db * Reply :=
  try_catch
    (order ← Order_findOne id uid;
     match order with
     | None => reply (SendError 404 "Order not found")
     | Some order =>
         order ← Order_save now false (assign order p);
         ret (SendOrder 200 order "Order updated successfully")
     end)
    "Failed to update order".

(** *** PATCH /:id/status : update order status *)

Record TrackingPatch := mkTrackingPatch {
  tp_carrier : option string;
  tp_trackingNumber : option string;
  tp_location : option string;
  tp_history : option (list HistoryEntry)
}.

Record StatusBody := mkStatusBody {
  sb_status : OrderStatus;
  sb_notes : option string;
  sb_tracking : option TrackingPatch
}.

(** Truthiness of a string that may be [undefined]. *)
Definition truthy_str (s : option string) : bool :=
  match s with
  | Some s => negb (String.eqb s "")
  | None => false
  end.

(** [s || ''] *)
Definition or_empty (s : option string) : string :=
  match s with
  | Some s => s
  | None => ""
  end.

(** [{ ...order.tracking, ...tracking }] *)
Definition merge_tracking (t : Tracking) (p : TrackingPatch) : Tracking :=
  mkTracking
    (match tp_carrier p with Some c => Some c | None => carrier t end)
    (match tp_trackingNumber p with Some c => Some c | None => trackingNumber t end)
    (actualDelivery t)
    (match tp_history p with Some h => h | None => history t end).

Definition push_history (e : HistoryEntry) (t : Tracking) : Tracking :=
  mkTracking (carrier t) (trackingNumber t) (actualDelivery t)
             (history t ++ [e])%list.

Definition set_actualDelivery (d : Js.Date) (t : Tracking) : Tracking :=
  mkTracking (carrier t) (trackingNumber t) (Some d) (history t).

(** The assignments of the handler between [findOne] and [save()]. *)
Definition apply_status (b : StatusBody) (now : Js.Date) (order : Order)
  : Order :=
  let previousStatus := status order in
  let st := sb_status b in
  let notes_internal' :=
    if truthy_str (sb_notes b) then sb_notes b else notes_internal order in
  let t1 :=
    match sb_tracking b with
    | Some tp => merge_tracking (tracking order) tp
    | None => tracking order
    end in
  let t2 :=
    if negb (OrderStatus_eqb st previousStatus)
    then push_history
           (mkHistoryEntry st
              (or_empty (match sb_tracking b with
                         | Some tp => tp_location tp
                         | None => None
                         end))
              now (or_empty (sb_notes b)))
           t1
    else t1 in
  let t3 :=
    if OrderStatus_eqb st delivered then set_actualDelivery now t2 else t2 in
  mkOrder (o_id order) (o_user order) (o_customer order) (orderNumber order)
          (items order) st (pricing order) t3 notes_internal'
          (cancelledAt order) (cancellationReason order).

(** The notification that follows the save sits in its own [try]/[catch]
    and changes neither the store nor the reply. *)
Definition transitionOrderStatus (uid id : nat) (b : StatusBody)
    (now : Js.Date) : Db -> Db * Reply :=
  try_catch
    (order ← Order_findOne id uid;
     match order with
     | None => reply (SendError 404 "Order not found")
     | Some order =>
         order ← Order_save now false (apply_status b now order);
         ret (SendOrder 200 order "Order status updated")
     end)
    "Failed to update status".

(** *** POST /:id/cancel : cancel order *)

(** [for (const item of order.items) { ... }]: restore inventory. *)
Fixpoint restore_inventory (its : list OrderItem) : M unit :=
  match its with
  | [] => ret tt
  | item :: rest =>
      product ← Product_findById (it_product item);
      _ ← match product with
          | Some product =>
              if trackInventory product
              then Product_save
                     (set_inv_quantity
                        (inv_quantity product + quantity item) product)
              else ret tt
          | None => ret tt
          end;
      restore_inventory rest
  end.

Definition mark_cancelled (reason : option string) (now : Js.Date)
    (order : Order) : Order :=
  mkOrder (o_id order) (o_user order) (o_customer order) (orderNumber order)
          (items order) cancelled (pricing order) (tracking order)
          (notes_internal order) (Some now) reason.

Definition cancelOrder (uid id : nat) (reason : option string)
    (now : Js.Date) : Db -> Db * Reply :=
  try_catch
    (order ← Order_findOne id uid;
     match order with
     | None => reply (SendError 404 "Order not found")
     | Some order =>
         if OrderStatus_eqb (status order) delivered
            || OrderStatus_eqb (status order) cancelled
         then reply (SendError 400 "Order cannot be cancelled")
         else
           _ ← restore_inventory (items order);
           order ← Order_save now false (mark_cancelled reason now order);
           ret (SendOrder 200 order "Order cancelled successfully")
     end)
    "Failed to cancel order".

End Orders.

(** ** routes/invoices.js, POST /:id/payment : record payment *)

Module Invoices.
Import Doc Handler Model.
Local Open Scope Q_scope.

Record PaymentBody := mkPaymentBody {
  pb_amount : Q;
  pb_method : option string;
  pb_reference : option string;
  pb_notes : option string
}.

(** The assignments of the handler between [findOne] and [save()]. *)
Definition apply_payment (b : PaymentBody) (now : Js.Date) (invoice : Invoice)
  : Invoice :=
  let payments' :=
    (payments invoice ++
     [mkPayment (pb_amount b) (pb_method b) (pb_reference b) (pb_notes b) now])%list in
  let paidAmount' := paidAmount invoice + pb_amount b in
  if Qle_bool (i_total invoice) paidAmount'
  then mkInvoice (i_id invoice) (i_user invoice) (invoiceNumber invoice)
                 (i_total invoice) (amountInWords invoice)
                 pay_paid paidAmount' (Some now) payments' inv_paid (Some now)
  else mkInvoice (i_id invoice) (i_user invoice) (invoiceNumber invoice)
                 (i_total invoice) (amountInWords invoice)
                 pay_partial paidAmount' (pd_paidDate invoice) payments'
                 (i_status invoice) (dates_paidDate invoice).

(** services/invoiceService.js, [createInvoiceFromOrder(order, user)]: the
    invoice built from the order, with the fields kept in [Invoice], and
    its save.  [iid] is the [_id] the constructor draws. *)
Definition new_invoice (iid : nat) (order : Order) (user : nat) : Invoice :=
  mkInvoice iid user None (total (pricing order)) None pay_pending 0 None []
            inv_draft None.

Definition createInvoiceFromOrder (order : Order) (user iid : nat)
    (now : Js.Date) : M Invoice :=
  Invoice_save now true (new_invoice iid order user).

(** The confirmation message that follows the save sits in its own
    [try]/[catch] and changes neither the store nor the reply. *)
Definition recordPayment (uid id : nat) (b : PaymentBody) (now : Js.Date)
  : Db -> Db * Reply :=
  try_catch
    (invoice ← Invoice_findOne id uid;
     match invoice with
     | None => reply (SendError 404 "Invoice not found")
     | Some invoice =>
         invoice ← Invoice_save now false (apply_payment b now invoice);
         ret (SendInvoice 200 invoice "Payment recorded successfully")
     end)
    "Failed to record payment".

End Invoices.

(** ** Requests in flight together

    [order.save()] of a new document validates, awaits the hook (which
    awaits its count query when the number is missing) and then inserts, so
    the saves of two creates interleave between the hook and the write.  A
    save in flight is a small machine; a schedule names the request that
    takes the next step. *)

Module Concurrent.
Import Doc Handler Model.

Inductive Save :=
| Ready (o : Order)      (* [save()] called, nothing read yet *)
| Counted (o : Order)    (* validated, and the hook ran *)
| Saved (o : Order)      (* written *)
| Failed (e : Exn).      (* rejected *)

Definition step (date : Js.Date) (t : Save) (coll : list Order)
  : Save * list Order :=
  match t with
  | Ready o =>
      if negb (Order_valid o)
      then (Failed (ValidationError
                      (if Order_required o then "items.quantity"
                       else "orderNumber")), coll)
      else (Counted (orderSchema_pre_save date
                       (Order_countDocuments (o_user o) coll) o), coll)
  | Counted o' =>
      match Order_write true o' coll with
      | inl e => (Failed e, coll)
      | inr coll' => (Saved o', coll')
      end
  | Saved _ | Failed _ => (t, coll)
  end.

Fixpoint run (date : Js.Date) (schedule : list nat) (threads : list Save)
    (coll : list Order) : list Save * list Order :=
  match schedule with
  | [] => (threads, coll)
  | tid :: rest =>
      match threads !! tid with
      | Some t =>
          let '(t', coll') := step date t coll in
          run date rest (<[tid := t']> threads) coll'
      | None => run date rest threads coll
      end
  end.

(** The numbers handed out by the saves that went through. *)
Definition issued (threads : list Save) : list string :=
  flat_map (fun t => match t with
                     | Saved o => match orderNumber o with
                                  | Some n => [n]
                                  | None => []
                                  end
                     | _ => []
                     end) threads.

End Concurrent.


(** ** The properties stated of the stored documents *)

Module Props.
Import Doc.
Local Open Scope Q_scope.

(** The equalities of the pricing block. *)
Definition total_adds_up (p : Pricing) : Prop :=
  total p = subtotal p + shipping p + packaging p.

Definition due_is_balance (p : Pricing) : Prop :=
  amountDue p = total p - amountPaid p.

(** The equations of a stored line item. *)
Definition line_ok (it : OrderItem) : Prop :=
  let taxableAmount := unitPrice it * quantity it - discount it in
  tax_amount it = taxableAmount * (tax_rate it / 100) /\
  it_total it = taxableAmount + tax_amount it.

(** The line the create route stores for an item of the request, priced
    from the product: the request's own price, discount and tax rate where
    it brings them, the product's price and rate and no discount
    otherwise. *)
Definition priced (product : Product) (item : Orders.ItemInput)
    (it : OrderItem) : Prop :=
  (it_product it = p_id product) /\
  (productName it = p_name product) /\
  (it_sku it = p_sku product) /\
  (quantity it = Orders.in_quantity item) /\
  (unitPrice it =
     Js.or_default (Orders.in_unitPrice item) (sellingPrice product)) /\
  (discount it = Js.or_default (Orders.in_discount item) 0) /\
  (tax_rate it =
     Js.or_default (Orders.in_tax_rate item) (p_tax_rate product)) /\
  line_ok it.

(** Every product is stored under its own [_id]. *)
Definition keys_match (m : gmap nat Product) : Prop :=
  forall id p, m !! id = Some p -> p_id p = id.

(** The running sum [subtotal += itemTotal] over the line items. *)
Definition sum_totals (l : list OrderItem) : Q :=
  fold_left (fun s it => s + it_total it) l 0.




Definition orders_total_ok (db : Db) : Prop :=
  Forall (fun o => total_adds_up (pricing o)) (orders db).

Definition orders_due_ok (db : Db) : Prop :=
  Forall (fun o => due_is_balance (pricing o)) (orders db).

End Props.

(** ** A worked scenario: one shop, one customer, two products *)

Module Scenario.
Import Doc Handler Orders.
Local Open Scope Q_scope.

(** 3 November 2026 ([getMonth()] is 10). *)
Definition now : Js.Date := Js.mkDate 2026 10 3.

Definition widget : Product := mkProduct 1 "Widget" "W-1" 500 18 10 true.
Definition shop : Customer := mkCustomer 7 1 0 0 0 None.

Definition db0 : Db := mkDb {[ 7%nat := shop ]} {[ 1%nat := widget ]} [] [].

(** Two widgets, shipping 50; the request brings the number of the order. *)
Definition body0 : OrderBody :=
  mkOrderBody 7 [mkItemInput 1 2 None None None None]
              (Some (mkPricingInput (Some 50) None None))
              (Some "ORD/2611/0001") None.

(** The same request without a number. *)
Definition body_unnumbered : OrderBody :=
  mkOrderBody 7 [mkItemInput 1 2 None None None None]
              (Some (mkPricingInput (Some 50) None None)) None None.

Definition created : Db * Reply :=
  Eval vm_compute in createOrder 1 body0 100 now db0.

Definition db1 : Db := fst created.

Definition order1 : Order :=
  match snd created with
  | SendOrder _ o _ => o
  | _ => new_order 100 1 body0 0 []
  end.

(** Two widgets, then a product that is not in the catalogue. *)
Definition body_missing : OrderBody :=
  mkOrderBody 7 [mkItemInput 1 2 None None None None;
                 mkItemInput 99 1 None None None None] None None None.

(** Two widgets, then eleven more: the second line asks for more than the
    eight left. *)
Definition body_short : OrderBody :=
  mkOrderBody 7 [mkItemInput 1 2 None None None None;
                 mkItemInput 1 11 None None None None] None None None.

(** The scenario order confirmed, then delivered. *)
Definition db_confirmed : Db :=
  Eval vm_compute in
    fst (transitionOrderStatus 1 100 (mkStatusBody confirmed None None) now db1).

Definition db_delivered : Db :=
  Eval vm_compute in
    fst (transitionOrderStatus 1 100 (mkStatusBody delivered None None) now
           db_confirmed).

(** A body for the update route that carries a pricing block. *)
Definition patch0 : OrderPatch :=
  mkOrderPatch None (Some (mkPricing 1180 0 180 50 0 999 0 0)) None None.

(** An invoice for the scenario order (total 1230), stored with its number
    and its amount in words. *)
Definition invoice0 : Invoice :=
  Eval vm_compute in
    mkInvoice 500 1 (Some "INV/261103/0001") (total (pricing order1))
              (Some (Words.numberToWords (total (pricing order1))))
              pay_pending 0 None [] inv_draft None.

Definition db_invoiced : Db :=
  Eval vm_compute in set_invoices [invoice0] db1.

(** Two creates of the same owner in flight together on an empty
    collection, neither request bringing a number: the documents their
    handlers give to [save()]. *)
Definition draft (oid : nat) : Order :=
  new_order oid 1 body_unnumbered (1180 # 1)
            [line_item widget (mkItemInput 1 2 None None None None)].

End Scenario.

(** ** Further properties stated of the stored documents *)

Module Props2.
Import Doc Model.
Local Open Scope Q_scope.

(** Two stored orders are the same document or carry different numbers,
    and no [_id] is stored twice. *)
Definition orders_distinct (coll : list Order) : Prop :=
  NoDup (map o_id coll) /\
  forall a b, In a coll -> In b coll ->
              same_number (orderNumber a) (orderNumber b) = true ->
              o_id a = o_id b.

(** What an order keeps of its snapshot: identity, owner, customer, number,
    lines and the priced amounts other than the amount due. *)
Definition same_snapshot (o o' : Order) : Prop :=
  o_id o' = o_id o /\ o_user o' = o_user o /\ o_customer o' = o_customer o /\
  orderNumber o' = orderNumber o /\ items o' = items o /\
  subtotal (pricing o') = subtotal (pricing o) /\
  totalDiscount (pricing o') = totalDiscount (pricing o) /\
  totalTax (pricing o') = totalTax (pricing o) /\
  shipping (pricing o') = shipping (pricing o) /\
  packaging (pricing o') = packaging (pricing o) /\
  total (pricing o') = total (pricing o) /\
  amountPaid (pricing o') = amountPaid (pricing o).

(** Two products that differ at most by their quantity. *)
Definition same_entry (p p' : Product) : Prop :=
  p_id p' = p_id p /\ p_name p' = p_name p /\ p_sku p' = p_sku p /\
  sellingPrice p' = sellingPrice p /\ p_tax_rate p' = p_tax_rate p /\
  trackInventory p' = trackInventory p.

(** The quantity of product [id] after [op] has been applied with the
    quantity of each of its lines, one line after the other: a line is a
    product [_id] and a quantity. *)
Definition applied (op : Q -> Q -> Q) (id : nat) (lines : list (nat * Q))
    (q : Q) : Q :=
  fold_left (fun q l => if (fst l =? id)%nat then op q (snd l) else q) lines q.

(** The lines taken from the quantity ([quantity -= item.quantity]) and
    given back to it ([quantity += item.quantity]). *)
Definition taken : nat -> list (nat * Q) -> Q -> Q := applied Qminus.
Definition given : nat -> list (nat * Q) -> Q -> Q := applied Qplus.

(** [m'] is [m] with the quantity [q] of every tracked product [id]
    replaced by [f id q]; nothing else differs. *)
Definition stock_changed (f : nat -> Q -> Q) (m m' : gmap nat Product)
  : Prop :=
  forall id,
    match m !! id with
    | Some p =>
        exists p',
          m' !! id = Some p' /\ same_entry p p' /\
          inv_quantity p' =
            if trackInventory p then f id (inv_quantity p)
            else inv_quantity p
    | None => m' !! id = None
    end.

End Props2.

(** ** The scenario, continued *)

Module Scenario2.
Import Doc Handler Orders Invoices.
Local Open Scope Q_scope.

(** The scenario invoice paid in full, then 230 taken back. *)
Definition db_paid : Db :=
  Eval vm_compute in
    fst (recordPayment 1 500 (mkPaymentBody 1230 None None None) Scenario.now
           Scenario.db_invoiced).

Definition invoice_paid : Invoice :=
  mkInvoice 500 1 (Some "INV/261103/0001") (123000 # 100)
            (Some "One Thousand Two Hundred Thirty Rupees")
            pay_paid (0 + 1230) (Some Scenario.now)
            [mkPayment 1230 None None None Scenario.now]
            inv_paid (Some Scenario.now).

Definition refunded : Db * Reply :=
  Eval vm_compute in
    recordPayment 1 500 (mkPaymentBody (-230) None None None) Scenario.now
      db_paid.

Definition invoice_refunded : Invoice :=
  match snd refunded with
  | SendInvoice _ i _ => i
  | _ => invoice_paid
  end.

(** The scenario order cancelled. *)
Definition cancelled_run : Db * Reply :=
  Eval vm_compute in cancelOrder 1 100 None Scenario.now Scenario.db1.

Definition order_cancelled : Order :=
  match snd cancelled_run with
  | SendOrder _ o _ => o
  | _ => Scenario.order1
  end.

End Scenario2.

(** ** PUT /:id, after the save: the guard of the status notification *)

Module Notifications.
Import Doc Orders.

(** [if (req.body.status && req.body.status !== order.status)], read after
    [Object.assign(order, req.body)] and [save()]: [order] is the saved
    document.  A status of the enumeration is a non-empty string. *)
Definition updateOrder_notifies (p : OrderPatch) (order : Order) : bool :=
  match up_status p with
  | Some st => negb (OrderStatus_eqb st (status order))
  | None => false
  end.

End Notifications.

(** ** routes/products.js, PATCH /:id/inventory : update inventory

    The product document with the fields this route reads beside those of
    [Doc.Product]: the owner and the minimum stock.  Its collection is
    threaded like the others. *)

Module Inventory.
Import Doc.
Local Open Scope Q_scope.

Record ProductDoc := mkProductDoc {
  pd_product : Product;
  pd_user : nat;            (* user *)
  minimumStock : Q          (* inventory.minimumStock *)
}.

Definition set_quantity (q : Q) (d : ProductDoc) : ProductDoc :=
  mkProductDoc (set_inv_quantity q (pd_product d)) (pd_user d) (minimumStock d).

Definition set_minimumStock (s : Q) (d : ProductDoc) : ProductDoc :=
  mkProductDoc (pd_product d) (pd_user d) s.

(** [const { quantity, operation = 'set', minimumStock } = req.body] *)
Record InventoryBody := mkInventoryBody {
  ib_quantity : Q;
  ib_operation : option string;
  ib_minimumStock : option Q
}.

Inductive InventoryReply :=
| SendProduct (code : nat) (product : ProductDoc) (message : string)
| SendFailure (code : nat) (error : string).

(** [Product.findOne({ _id: id, user: uid })] *)
Definition findOne (id uid : nat) (coll : gmap nat ProductDoc)
  : option ProductDoc :=
  match coll !! id with
  | Some d => if (pd_user d =? uid)%nat then Some d else None
  | None => None
  end.

(** [Math.max(0, x)] *)
Definition max0 (x : Q) : Q := if Qle_bool x 0 then 0 else x.

(** The [switch (operation)]: no case, no change. *)
Definition apply_operation (operation : string) (quantity : Q)
    (d : ProductDoc) : ProductDoc :=
  if String.eqb operation "set" then set_quantity quantity d
  else if String.eqb operation "add"
       then set_quantity (inv_quantity (pd_product d) + quantity) d
  else if String.eqb operation "subtract"
       then set_quantity (max0 (inv_quantity (pd_product d) - quantity)) d
  else d.

(** [product.save()]: the validator [inventory.quantity: min 0], then the
    write under the document's [_id]. *)
Definition save (d : ProductDoc) (coll : gmap nat ProductDoc)
  : option (gmap nat ProductDoc) :=
  if Qle_bool 0 (inv_quantity (pd_product d))
  then Some (<[p_id (pd_product d) := d]> coll)
  else None.

Definition updateInventory (uid id : nat) (b : InventoryBody)
    (coll : gmap nat ProductDoc) : gmap nat ProductDoc * InventoryReply :=
  match findOne id uid coll with
  | None => (coll, SendFailure 404 "Product not found")
  | Some product =>
      let operation := match ib_operation b with
                       | Some op => op
                       | None => "set"
                       end in
      let product := apply_operation operation (ib_quantity b) product in
      let product := match ib_minimumStock b with
                     | Some s => set_minimumStock s product
                     | None => product
                     end in
      match save product coll with
      | Some coll' => (coll', SendProduct 200 product "Inventory updated successfully")
      | None => (coll, SendFailure 500 "Failed to update inventory")
      end
  end.

(** A small catalogue: ten widgets of owner 1. *)
Definition shelf : gmap nat ProductDoc :=
  {[ 1%nat := mkProductDoc Scenario.widget 1 10 ]}.

End Inventory.

(** ** services/aiAutomationService.js: intents and suggested replies *)

Module Automation.
Local Open Scope string_scope.

(** A string is the sequence of its UTF-8 bytes.  For well-formed text a
    keyword occurs in a message as a run of UTF-16 units exactly when its
    bytes occur in the bytes of the message, so [includes] and [replace]
    search the bytes. *)

(** The rest of [s] after the prefix [p], when [s] starts with [p]. *)
Fixpoint drop_prefix (p s : string) : option string :=
  match p, s with
  | EmptyString, _ => Some s
  | String a p', String b s' =>
      if Ascii.eqb a b then drop_prefix p' s' else None
  | String _ _, EmptyString => None
  end.

(** The text before and after the first occurrence of [p] in [s]. *)
Fixpoint find_first (p s : string) : option (string * string) :=
  match drop_prefix p s with
  | Some rest => Some (EmptyString, rest)
  | None =>
      match s with
      | EmptyString => None
      | String c s' =>
          match find_first p s' with
          | Some (before, after) => Some (String c before, after)
          | None => None
          end
      end
  end.

(** [s.includes(p)]. *)
Definition includes (s p : string) : bool :=
  match find_first p s with
  | Some _ => true
  | None => false
  end.

(** The replacement text of [String.prototype.replace] for a string pattern
    (no captures): [$$], [$&], [$`] and [$'] are expanded, any other [$]
    stays. *)
Fixpoint getSubstitution (matched before after r : string) : string :=
  match r with
  | EmptyString => EmptyString
  | String a r1 =>
      if Ascii.eqb a "$" then
        match r1 with
        | EmptyString => String a EmptyString
        | String c r2 =>
            if Ascii.eqb c "$" then
              String "$" (getSubstitution matched before after r2)
            else if Ascii.eqb c "&" then
              matched +:+ getSubstitution matched before after r2
            else if Ascii.eqb c "`" then
              before +:+ getSubstitution matched before after r2
            else if Ascii.eqb c "'" then
              after +:+ getSubstitution matched before after r2
            else String a (getSubstitution matched before after r1)
        end
      else String a (getSubstitution matched before after r1)
  end.

(** [s.replace(p, r)] with a string pattern: the first occurrence only. *)
Definition replace (s p r : string) : string :=
  match find_first p s with
  | Some (before, after) =>
      before +:+ getSubstitution p before after r +:+ after
  | None => s
  end.

Definition orderKeywords : list string :=
  [ "order"; "status"; "track"; "delivery"; "shipment"; "when" ].
Definition productKeywords : list string :=
  [ "product"; "price"; "available"; "stock"; "catalog" ].
Definition invoiceKeywords : list string :=
  [ "invoice"; "bill"; "payment"; "due"; "receipt" ].
Definition greetingKeywords : list string :=
  [ "hello"; "hi"; "hey"; "good morning"; "good afternoon"; "good evening";
    "namaste"; "नमस्ते" ].
Definition thanksKeywords : list string :=
  [ "thanks"; "thank you"; " धन्यवाद"; "shukriya"; "appreciate" ].

(** [loadResponseTemplates()]: the object as its list of keys and values. *)
Definition responseTemplates : list (string * list string) :=
  [ ("greeting",
     [ "Hello! 👋 Welcome to {businessName}. How can I assist you today?";
       "Hi there! 😊 How may I help you?";
       "Namaste! 🙏 Welcome to {businessName}. What can I do for you?" ]);
    ("greetingWithName",
     [ "Hello {customerName}! 👋 Great to hear from you. How can I help?";
       "Hi {customerName}! 😊 How may I assist you today?" ]);
    ("orderStatus",
     [ "Let me check your order status. Please provide your order number.";
       "I'll look up your order. Could you please share your order number?" ]);
    ("productInquiry",
     [ "We have a wide range of products! Would you like me to share our latest catalog?";
       "I'd be happy to help with product information. What are you looking for?" ]);
    ("thanks",
     [ "You're welcome! 😊 Feel free to reach out anytime.";
       "My pleasure! 🙏 Is there anything else I can help with?" ]);
    ("goodbye",
     [ "Thank you for connecting with us! Have a great day! 🌟";
       "Goodbye for now! 😊 Don't hesitate to message us if you need anything." ]);
    ("default",
     [ "I understand. Let me connect you with our team for better assistance.";
       "I see. An executive will respond to you shortly.";
       "Thanks for reaching out! We'll get back to you soon." ]) ].

(** [this.responseTemplates[type]] for the keys of the object itself (the
    names every object inherits are outside the model). *)
Fixpoint property (type : string) (obj : list (string * list string))
  : option (list string) :=
  match obj with
  | [] => None
  | (k, v) :: rest => if String.eqb k type then Some v else property type rest
  end.

(** [keywords.some(keyword => messageText.includes(keyword))]. *)
Definition some_included (keywords : list string) (messageText : string)
  : bool :=
  existsb (fun keyword => includes messageText keyword) keywords.

Definition detectIntent (messageText : string) : string :=
  if some_included greetingKeywords messageText then
    if some_included thanksKeywords messageText then "thanks" else "greeting"
  else if some_included orderKeywords messageText then
    if includes messageText "new" || includes messageText "place"
       || includes messageText "want to buy"
    then "new_order" else "order_status"
  else if some_included productKeywords messageText then "product_inquiry"
  else if some_included invoiceKeywords messageText then "invoice_payment"
  else if some_included thanksKeywords messageText then "thanks"
  else if includes messageText "bye" || includes messageText "tata"
          || includes messageText "जय हिंद"
  then "goodbye"
  else "general_inquiry".

Definition positiveWords : list string :=
  [ "great"; "awesome"; "excellent"; "amazing"; "wonderful"; "good"; "nice";
    "love"; "happy"; "satisfied" ].
Definition negativeWords : list string :=
  [ "bad"; "poor"; "terrible"; "awful"; "hate"; "disappointed"; "worst";
    "angry"; "frustrated"; "problem"; "issue" ].

(** The two [forEach] loops over the word lists. *)
Definition sentiment_score (messageText : string) : Z :=
  let score :=
    fold_left (fun score word =>
                 if includes messageText word then (score + 1)%Z else score)
              positiveWords 0%Z in
  fold_left (fun score word =>
               if includes messageText word then (score - 1)%Z else score)
            negativeWords score.

Definition analyzeSentiment (messageText : string) : string :=
  let score := sentiment_score messageText in
  if (0 <? score)%Z then "positive"
  else if (score <? 0)%Z then "negative"
  else "neutral".

(** A value that may be [null] or [undefined], and a call that may throw. *)
Inductive Text :=
| Null
| Undefined
| Str (s : string).

Inductive Outcome (A : Type) :=
| Value (a : A)
| Threw.
Arguments Value {A} a.
Arguments Threw {A}.

(** [args.forEach((arg, index) => response = response.replace(...))]. *)
Fixpoint replace_args (index : N) (args : list string) (response : string)
  : string :=
  match args with
  | [] => response
  | arg :: rest =>
      replace_args (N.succ index) rest
        (replace response ("{" +:+ Js.toString index +:+ "}") arg)
  end.

(** [generateResponse(type, ...args)]; [random] is the draw of
    [Math.random()].  An index outside the array reads [undefined], on which
    the first [replace] throws. *)
Definition generateResponse (random : Q) (type : string) (args : list string)
  : Outcome Text :=
  match property type responseTemplates with
  | None => Value Null
  | Some templates =>
      let i := Js.floor (random * inject_Z (Z.of_nat (length templates))) in
      match (if (i <? 0)%Z then None else nth_error templates (Z.to_nat i)) with
      | Some response => Value (Str (replace_args 0 args response))
      | None =>
          match args with
          | [] => Value Undefined
          | _ :: _ => Threw
          end
      end
  end.

Definition getInvoicePaymentResponse (messageText : string) : string :=
  if includes messageText "pay" || includes messageText "payment" then
    "I'll help you with payment. Would you like to know our payment options or get a payment link?"
  else if includes messageText "overdue" || includes messageText "pending"
          || includes messageText "due" then
    "Let me check your pending invoices. One moment please..."
  else "I can help you with invoice-related queries. Please provide more details.".

Definition nl : string := String "010" EmptyString.

Definition getNewOrderResponse (messageText : string) : string :=
  "I'd be happy to help you place a new order! 📝" +:+ nl +:+ nl +:+
  "Please share:" +:+ nl +:+
  "1. Product names and quantities" +:+ nl +:+
  "2. Your delivery address" +:+ nl +:+
  "3. Any special requirements" +:+ nl +:+ nl +:+
  "Or I can send you our product catalog.".

Inductive Action :=
| NoAction
| Absent
| request_order_number
| send_catalog
| create_order (collectItems : bool).

Record Response := mkResponse {
  intent : string;
  sentiment : string;
  suggestedResponse : Text;
  suggestedAction : Action;
  automated : bool
}.

(** An argument of [replace] that is [undefined] reads as that word. *)
Definition arg_string (a : option string) : string :=
  match a with
  | Some s => s
  | None => "undefined"
  end.

(** [message.content?.text] as the handler reads it. *)
Inductive TextField :=
| NoText                  (* [undefined], [null] or another falsy value *)
| SomeText (s : string)   (* a string *)
| NotAString.             (* a truthy value that is no string *)

Definition text_field (text : option string) : TextField :=
  match text with
  | Some s => SomeText s
  | None => NoText
  end.

Section ProcessIncomingMessage.

(** [String.prototype.toLowerCase]. *)
Variable toLowerCase : string -> string.

(** The [try] block after [(message.content?.text || '')] has been read:
    [user] and [customer] are the arguments of the handler, [None] when the
    caller passes [undefined] or [null], and otherwise their [businessName]
    and [name]; the greeting is the one branch that reads them. *)
Definition process_text (text : string) (user customer : option (option string))
    (random : Q) : Outcome Response :=
  let messageText := toLowerCase text in
  let intent := detectIntent messageText in
  let sentiment := analyzeSentiment messageText in
  let with_reply (type : string) (args : list string) (action : Action)
        (automated : bool) : Outcome Response :=
    match generateResponse random type args with
    | Value r => Value (mkResponse intent sentiment r action automated)
    | Threw => Threw
    end in
  if String.eqb intent "greeting" then
    match user, customer with
    | Some businessName, Some customerName =>
        with_reply "greeting"
          [arg_string businessName; arg_string customerName] NoAction true
    | _, _ => Threw
    end
  else if String.eqb intent "order_status" then
    with_reply "order_status" [] request_order_number false
  else if String.eqb intent "product_inquiry" then
    with_reply "product_inquiry" [] send_catalog false
  else if String.eqb intent "thanks" then
    with_reply "thanks" [] NoAction true
  else if String.eqb intent "goodbye" then
    with_reply "goodbye" [] NoAction true
  else if String.eqb intent "invoice_payment" then
    Value (mkResponse intent sentiment
             (Str (getInvoicePaymentResponse messageText)) NoAction false)
  else if String.eqb intent "new_order" then
    Value (mkResponse intent sentiment
             (Str (getNewOrderResponse messageText)) (create_order true) false)
  else with_reply "default" [] NoAction false.

(** The body of the [try] block.  [message] is [None] when the caller passes
    [undefined] or [null]: reading [message.content] throws.  On a text that
    is no string, [toLowerCase] is no function and the call throws. *)
Definition process_try (message : option TextField)
    (user customer : option (option string)) (random : Q)
  : Outcome Response :=
  match message with
  | None => Threw
  | Some NotAString => Threw
  | Some NoText => process_text "" user customer random
  | Some (SomeText s) => process_text s user customer random
  end.

(** [processIncomingMessage(message, customer, conversation, user)]: the
    [catch] block answers with a reply of the default kind, drawn anew. *)
Definition processIncomingMessage (message : option TextField)
    (user customer : option (option string)) (random random' : Q)
  : Outcome Response :=
  match process_try message user customer random with
  | Value response => Value response
  | Threw =>
      match generateResponse random' "default" [] with
      | Value r => Value (mkResponse "unknown" "neutral" r Absent false)
      | Threw => Threw
      end
  end.

End ProcessIncomingMessage.

End Automation.

(** ** Properties of the reply templates *)

Module Props3.
Local Open Scope string_scope.

Definition is_digit (c : ascii) : bool :=
  (48 <=? nat_of_ascii c)%nat && (nat_of_ascii c <=? 57)%nat.

(** The character that opens a numbered placeholder ([{0}], [{1}], ...)
    after its brace: a digit, or the closing brace. *)
Definition opens_numbered (c : ascii) : bool :=
  is_digit c || Ascii.eqb c "}".

(** No brace of [s] opens a numbered placeholder. *)
Fixpoint no_numbered_placeholder (s : string) : bool :=
  match s with
  | EmptyString => true
  | String a s' =>
      (if Ascii.eqb a "{" then
         match s' with
         | EmptyString => true
         | String c _ => negb (opens_numbered c)
         end
       else true)
      && no_numbered_placeholder s'
  end.

End Props3.

(** ** POST /:id/invoice of the order router *)

Module InvoiceRoutes.
Import Doc Handler Model Invoices.

(** The user document of the authenticated request exists; its [_id] is
    [uid]. *)
Definition createInvoice (uid id iid : nat) (now : Js.Date)
  : Db -> Db * Reply :=
  try_catch
    (order ← Order_findOne id uid;
     match order with
     | None => reply (SendError 404 "Order not found")
     | Some order =>
         invoice ← createInvoiceFromOrder order uid iid now;
         ret (SendInvoice 201 invoice "Invoice created successfully")
     end)
    "Failed to create invoice".

End InvoiceRoutes.

(** ** The payments of an invoice as a ledger *)

Module Ledger.
Import Doc.
Local Open Scope Q_scope.

(** The sum of the recorded payments. *)
Definition paid_sum (i : Invoice) : Q :=
  fold_left (fun s p => s + pay_amount p) (payments i) 0.

(** The paid amount is the sum of the recorded payments. *)
Definition balanced (i : Invoice) : Prop := paidAmount i == paid_sum i.

End Ledger.
(** * Properties *)

(** ** Amount in words *)

Section WordsFacts.
Import Words.

Lemma depth_halves (m n : Z) :
  100 <= n -> 0 <= m -> 2 * m <= n -> (depth m < depth n)%nat.
Proof.
  intros Hn Hm Hmn. unfold depth.
  assert (Z.log2 m < Z.log2 n); [| pose proof (Z.log2_nonneg m); lia].
  destruct (Z.eq_dec m 0) as [-> | Hne].
  - change (Z.log2 0) with 0. apply Z.log2_pos. lia.
  - assert (Z.log2 (2 * m) = Z.succ (Z.log2 m)) as Hd
      by (apply Z.log2_double; lia).
    pose proof (Z.log2_le_mono (2 * m) n Hmn). lia.
Qed.

(** The body looks at [self] only on arguments at most half of [num]. *)
Lemma numToWords_body_ext (s1 s2 : Z -> string) (num : Z) :
  (forall m, 100 <= num -> 0 <= m -> 2 * m <= num -> s1 m = s2 m) ->
  numToWords_body s1 num = numToWords_body s2 num.
Proof.
  intros H. unfold numToWords_body.
  repeat match goal with
         | |- context [?a <? ?b] => destruct (Z.ltb_spec a b)
         end; trivial.
  - rewrite (H (num mod 100)) by (Z.to_euclidean_division_equations; lia). reflexivity.
  - rewrite (H (num / 1000)), (H (num mod 1000)) by (Z.to_euclidean_division_equations; lia). reflexivity.
  - rewrite (H (num / 100000)), (H (num mod 100000)) by (Z.to_euclidean_division_equations; lia). reflexivity.
  - rewrite (H (num / 10000000)), (H (num mod 10000000)) by (Z.to_euclidean_division_equations; lia).
    reflexivity.
Qed.

Lemma numToWords_fuel_stable (f1 : nat) :
  forall (f2 : nat) (num : Z),
    (depth num <= f1)%nat -> (depth num <= f2)%nat ->
    numToWords_fuel f1 num = numToWords_fuel f2 num.
Proof.
  induction f1 as [| f1 IH]; intros f2 num H1 H2.
  - unfold depth in H1. lia.
  - destruct f2 as [| f2]; [unfold depth in H2; lia |].
    simpl. apply numToWords_body_ext. intros m Hn Hm Hmn.
    pose proof (depth_halves m num Hn Hm Hmn).
    apply IH; lia.
Qed.

(** The fuel given by [depth] is enough: [numToWords] satisfies the
    recursive equation of the source function on every input. *)
Lemma numToWords_unfold (num : Z) :
  numToWords num = numToWords_body numToWords num.
Proof.
  unfold numToWords at 1. unfold depth. simpl numToWords_fuel.
  apply numToWords_body_ext. intros m Hn Hm Hmn.
  pose proof (depth_halves m num Hn Hm Hmn) as Hd.
  unfold numToWords. apply numToWords_fuel_stable; [| lia].
  unfold depth in *. lia.
Qed.

End WordsFacts.



(** The tiers on sample amounts, the paise part and the rounding of it. *)
Example words_samples :
  Words.numToWords 19 = "Nineteen" /\
  Words.numToWords 40 = "Forty" /\
  Words.numToWords 999 = "Nine Hundred Ninety Nine" /\
  Words.numToWords 100000 = "One Lakh" /\
  Words.numToWords 1234567890 =
    "One Hundred Twenty Three Crore Forty Five Lakh Sixty Seven Thousand Eight Hundred Ninety" /\
  Words.numberToWords (1180 # 1) = "One Thousand One Hundred Eighty Rupees" /\
  Words.numberToWords (1999 # 1000) = "One Rupees and One Hundred Paise".
Proof. vm_compute. repeat split. Qed.

(** ** Document numbers *)

Section NumberingFacts.
Import Numbering.

Lemma length_string_of_uint (d : Decimal.uint) :
  String.length (NilEmpty.string_of_uint d) = Decimal.nb_digits d.
Proof. induction d; simpl; congruence. Qed.

Lemma usize_nb_digits (d : Decimal.uint) :
  DecimalPos.Unsigned.usize d = N.of_nat (Decimal.nb_digits d).
Proof.
  induction d; cbn [DecimalPos.Unsigned.usize Decimal.nb_digits];
    rewrite ?IHd; lia.
Qed.

Lemma of_lu_bound (d : Decimal.uint) :
  (DecimalPos.Unsigned.of_lu d < 10 ^ DecimalPos.Unsigned.usize d)%N.
Proof.
  induction d; cbn [DecimalPos.Unsigned.of_lu DecimalPos.Unsigned.usize];
    rewrite ?N.pow_succ_r'; [rewrite N.pow_0_r |..]; lia.
Qed.

(** A number is below ten to the number of its decimal digits. *)
Lemma toString_length_bound (n : N) :
  (n < 10 ^ N.of_nat (String.length (Js.toString n)))%N.
Proof.
  unfold Js.toString. rewrite length_string_of_uint.
  rewrite <- (DecimalN.Unsigned.of_to n) at 1.
  unfold N.of_uint. rewrite DecimalPos.Unsigned.of_uint_alt.
  rewrite <- (DecimalFacts.nb_digits_rev (N.to_uint n)).
  rewrite <- usize_nb_digits. apply of_lu_bound.
Qed.

Lemma padStart_long (len : nat) (c : ascii) (s : string) :
  (len <= String.length s)%nat -> Js.padStart len c s = s.
Proof.
  intros H. unfold Js.padStart.
  replace (len - String.length s)%nat with 0%nat by lia. reflexivity.
Qed.

(** A test that holds on [0 .. k-1] holds below [k]. *)
Lemma below_spec (k : N) (f : N -> bool) (n : N) :
  below k f = true -> (n < k)%N -> f n = true.
Proof.
  unfold below. rewrite forallb_forall. intros H Hn.
  specialize (H (N.to_nat n)). rewrite N2Nat.id in H. apply H.
  apply in_seq. lia.
Qed.

Lemma year_two_digits (y : N) :
  (1000 <= y <= 9999)%N ->
  Js.slice_last 2 (Js.toString y) = two_digits (y mod 100).
Proof.
  intros Hy.
  assert (below 10000
            (fun y => (y <? 1000)%N ||
               String.eqb (Js.slice_last 2 (Js.toString y))
                          (two_digits (y mod 100))) = true) as Hall
    by (vm_compute; reflexivity).
  apply (below_spec _ _ y) in Hall; [| lia].
  apply orb_true_iff in Hall as [Hlt | Heq].
  - apply N.ltb_lt in Hlt. lia.
  - apply String.eqb_eq. exact Heq.
Qed.

Lemma pad2_two_digits (n : N) :
  (n <= 99)%N -> Js.padStart 2 "0" (Js.toString n) = two_digits n.
Proof.
  intros Hn.
  assert (below 100
            (fun n => String.eqb (Js.padStart 2 "0" (Js.toString n))
                                 (two_digits n)) = true) as Hall
    by (vm_compute; reflexivity).
  apply (below_spec _ _ n) in Hall; [| lia].
  apply String.eqb_eq. exact Hall.
Qed.

Lemma pad4_seq04 (n : N) :
  Js.padStart 4 "0" (Js.toString n) = seq04 n.
Proof.
  unfold seq04. destruct (N.ltb_spec n 10000) as [Hlt | Hge].
  - assert (below 10000
              (fun n => String.eqb (Js.padStart 4 "0" (Js.toString n))
                 (String (digit (n / 1000)) (String (digit (n / 100))
                    (String (digit (n / 10)) (String (digit n) ""))))) = true)
      as Hall by (vm_compute; reflexivity).
    apply (below_spec _ _ n) in Hall; [| lia].
    apply String.eqb_eq. exact Hall.
  - apply padStart_long.
    pose proof (toString_length_bound n) as Hb.
    destruct (le_lt_dec 4 (String.length (Js.toString n))) as [Hl | Hl];
      [exact Hl | exfalso].
    assert (10 ^ N.of_nat (String.length (Js.toString n)) <= 10 ^ 3)%N.
    { apply N.pow_le_mono_r; lia. }
    change (10 ^ 3)%N with 1000%N in *. lia.
Qed.

Lemma orderNumber_of_spec (date : Js.Date) (count : N) :
  plausible date ->
  orderNumber_of date count = spec_orderNumber date (count + 1).
Proof.
  intros (Hy & Hm & Hd). unfold orderNumber_of, spec_orderNumber.
  rewrite year_two_digits by exact Hy.
  rewrite pad2_two_digits by lia.
  rewrite pad4_seq04. reflexivity.
Qed.

Lemma invoiceNumber_of_spec (date : Js.Date) (count : N) :
  plausible date ->
  invoiceNumber_of date count = spec_invoiceNumber date (count + 1).
Proof.
  intros (Hy & Hm & Hd). unfold invoiceNumber_of, spec_invoiceNumber.
  rewrite year_two_digits by exact Hy.
  rewrite !pad2_two_digits by lia.
  rewrite pad4_seq04. reflexivity.
Qed.

End NumberingFacts.

(** ** Running a handler *)

Section HandlerFacts.
Import Doc Handler.

Lemma bind_run {A B} (m : M A) (k : A -> M B) (db : Db) :
  (m ≫= k) db =
  match m db with
  | (db', Val a) => k a db'
  | (db', Return r) => (db', Return r)
  | (db', Raise e) => (db', Raise e)
  end.
Proof. reflexivity. Qed.



End HandlerFacts.

(** ** Saving an order *)

Section OrderSaveFacts.
Import Doc Handler Model Props.
Local Open Scope Q_scope.

Lemma pre_save_due (date : Js.Date) (count : N) (o : Order) :
  due_is_balance (pricing (orderSchema_pre_save date count o)).
Proof.
  unfold orderSchema_pre_save, due_is_balance.
  destruct (Numbering.missing (orderNumber o)); reflexivity.
Qed.

Lemma pre_save_total (date : Js.Date) (count : N) (o : Order) :
  total_adds_up (pricing o) ->
  total_adds_up (pricing (orderSchema_pre_save date count o)).
Proof.
  unfold orderSchema_pre_save, total_adds_up.
  destruct (Numbering.missing (orderNumber o)); auto.
Qed.

Lemma pre_save_items (date : Js.Date) (count : N) (o : Order) :
  items (orderSchema_pre_save date count o) = items o.
Proof.
  unfold orderSchema_pre_save.
  destruct (Numbering.missing (orderNumber o)); reflexivity.
Qed.

Lemma pre_save_id (date : Js.Date) (count : N) (o : Order) :
  o_id (orderSchema_pre_save date count o) = o_id o.
Proof.
  unfold orderSchema_pre_save.
  destruct (Numbering.missing (orderNumber o)); reflexivity.
Qed.

(** What a save that went through did: the hook ran on the count of the
    owner's documents and the result was written. *)
Lemma Order_save_val (date : Js.Date) (isNew : bool) (o o' : Order)
    (db db' : Db) :
  Order_save date isNew o db = (db', Val o') ->
  Order_valid o = true /\
  o' = orderSchema_pre_save date (Order_countDocuments (o_user o) (orders db)) o /\
  exists coll, Order_write isNew o' (orders db) = inr coll /\
               db' = set_orders coll db.
Proof.
  unfold Order_save. destruct (Order_valid o); [| discriminate].
  cbn [negb]. rewrite bind_run. cbn [get].
  destruct (Order_write _ _ (orders db)) as [e | coll] eqn:Hw;
    [discriminate |].
  rewrite bind_run. cbn [modify ret]. intros [= <- <-].
  split; [reflexivity |]. split; [reflexivity |]. eauto.
Qed.

Lemma Order_write_In (isNew : bool) (o : Order) (coll coll' : list Order) :
  Order_write isNew o coll = inr coll' -> In o coll'.
Proof.
  unfold Order_write. destruct (Order_find (o_id o) coll) as [old |] eqn:Hf;
    destruct isNew; try discriminate.
  - destruct (_ || _); [| discriminate]. intros [= <-].
    apply find_some in Hf as [Hin Hid]. apply in_map_iff.
    exists old. rewrite Hid. auto.
  - destruct (Order_number_taken o coll); [discriminate |]. intros [= <-].
    apply in_or_app. right. left. reflexivity.
Qed.

End OrderSaveFacts.

(** ** Creating an order *)

Section CreateOrderFacts.
Import Doc Handler Model Orders Props.
Local Open Scope Q_scope.

Lemma line_item_ok (product : Product) (item : ItemInput) :
  line_ok (line_item product item).
Proof. split; reflexivity. Qed.

(** One turn of the item loop. *)
Lemma process_items_cons (item : ItemInput) (rest : list ItemInput) (sub : Q)
    (proc : list OrderItem) (db : Db) :
  process_items (item :: rest) sub proc db =
  match products db !! in_product item with
  | None =>
      (db, Return (SendError 400
                     ("Product not found: " +:+
                      Js.toString (N.of_nat (in_product item)))))
  | Some product =>
      let li := line_item product item in
      if trackInventory product then
        if Qle_bool 0 (inv_quantity product - in_quantity item) then
          process_items rest (sub + it_total li) (proc ++ [li])%list
            (set_products
               (<[p_id product :=
                    set_inv_quantity (inv_quantity product - in_quantity item)
                                     product]> (products db)) db)
        else (db, Raise (ValidationError "inventory.quantity"))
      else process_items rest (sub + it_total li) (proc ++ [li])%list db
  end.
Proof.
  cbn [process_items]. rewrite bind_run.
  unfold Product_findById. rewrite bind_run. cbn [get ret].
  destruct (products db !! in_product item) as [product |]; [| reflexivity].
  rewrite bind_run. destruct (trackInventory product); [| reflexivity].
  unfold Product_save. cbn [inv_quantity set_inv_quantity p_id].
  destruct (Qle_bool 0 (inv_quantity product - in_quantity item));
    reflexivity.
Qed.

Lemma sum_totals_snoc (l : list OrderItem) (it : OrderItem) :
  sum_totals (l ++ [it]) = sum_totals l + it_total it.
Proof. unfold sum_totals. rewrite fold_left_app. reflexivity. Qed.

(** The loop keeps the line equations and the running sum. *)
Lemma process_items_val (its : list ItemInput) :
  forall (sub : Q) (proc : list OrderItem) (db db' : Db) (sub' : Q)
         (proc' : list OrderItem),
    process_items its sub proc db = (db', Val (sub', proc')) ->
    Forall line_ok proc -> sub = sum_totals proc ->
    Forall line_ok proc' /\ sub' = sum_totals proc'.
Proof.
  induction its as [| item rest IH]; intros sub proc db db' sub' proc' Hrun Hok Hsum.
  - injection Hrun as <- <- <-. auto.
  - rewrite process_items_cons in Hrun.
    destruct (products db !! in_product item) as [product |];
      [| discriminate].
    cbv zeta in Hrun.
    assert (Forall line_ok (proc ++ [line_item product item])) as Hok'.
    { apply Forall_app. split; [exact Hok |].
      constructor; [apply line_item_ok | constructor]. }
    assert (sub + it_total (line_item product item) =
            sum_totals (proc ++ [line_item product item])) as Hsum'.
    { rewrite sum_totals_snoc, Hsum. reflexivity. }
    destruct (trackInventory product).
    + destruct (Qle_bool 0 _); [| discriminate].
      exact (IH _ _ _ _ _ _ Hrun Hok' Hsum').
    + exact (IH _ _ _ _ _ _ Hrun Hok' Hsum').
Qed.

(** The loop writes products only. *)
Lemma process_items_frame (its : list ItemInput) :
  forall (sub : Q) (proc : list OrderItem) (db db' : Db)
         (r : Result (Q * list OrderItem)),
    process_items its sub proc db = (db', r) ->
    customers db' = customers db /\ orders db' = orders db /\
    invoices db' = invoices db.
Proof.
  induction its as [| item rest IH]; intros sub proc db db' r Hrun.
  - injection Hrun as <- <-. auto.
  - rewrite process_items_cons in Hrun.
    destruct (products db !! in_product item) as [product |];
      [| injection Hrun as <- <-; auto].
    cbv zeta in Hrun.
    destruct (trackInventory product).
    + destruct (Qle_bool 0 _); [| injection Hrun as <- <-; auto].
      apply IH in Hrun. exact Hrun.
    + apply IH in Hrun. exact Hrun.
Qed.

End CreateOrderFacts.

(** ** The handlers, step by step *)

Section RouteEquations.
Import Doc Handler Model Orders Props.
Local Open Scope Q_scope.

(** The only early reply of the loop is the 400 of a missing product. *)
Lemma process_items_return (its : list ItemInput) :
  forall (sub : Q) (proc : list OrderItem) (db db' : Db) (r : Reply),
    process_items its sub proc db = (db', Return r) ->
    exists msg, r = SendError 400 msg.
Proof.
  induction its as [| item rest IH]; intros sub proc db db' r Hrun.
  - discriminate.
  - rewrite process_items_cons in Hrun.
    destruct (products db !! in_product item) as [product |];
      [| injection Hrun as <- <-; eauto].
    cbv zeta in Hrun.
    destruct (trackInventory product).
    + destruct (Qle_bool 0 _); [| discriminate]. eapply IH, Hrun.
    + eapply IH, Hrun.
Qed.

(** [order.save()] spelled out. *)
Lemma Order_save_run (date : Js.Date) (isNew : bool) (o : Order) (db : Db) :
  Order_save date isNew o db =
  if Order_valid o then
    let o' := orderSchema_pre_save date
                (Order_countDocuments (o_user o) (orders db)) o in
    match Order_write isNew o' (orders db) with
    | inl e => (db, Raise e)
    | inr coll => (set_orders coll db, Val o')
    end
  else (db, Raise (ValidationError
                     (if Order_required o then "items.quantity"
                      else "orderNumber"))).
Proof.
  unfold Order_save. destruct (Order_valid o); [| reflexivity].
  cbn [negb]. rewrite bind_run. cbn [get]. cbv zeta.
  destruct (Order_write _ _ (orders db)); reflexivity.
Qed.

(** The create handler spelled out, step by step. *)
Lemma createOrder_run (uid : nat) (b : OrderBody) (oid : nat) (now : Js.Date)
    (db : Db) :
  createOrder uid b oid now db =
  match Customer_lookup (b_customer b) uid (customers db) with
  | None => (db, SendError 400 "Customer not found")
  | Some customer =>
      match process_items (b_items b) 0 [] db with
      | (db1, Val (sub, proc)) =>
          match Order_save now true (new_order oid uid b sub proc) db1 with
          | (db2, Val order) =>
              let c := customerSchema_pre_save
                         (mkCustomer (c_id customer) (c_user customer)
                            (totalOrders customer + 1)
                            (totalSpent customer + total (pricing order))
                            (averageOrderValue customer) (Some now)) in
              (set_customers (<[c_id c := c]> (customers db2)) db2,
               SendOrder 201 order "Order created successfully")
          | (db2, Return r) => (db2, r)
          | (db2, Raise _) => (db2, SendError 500 "Failed to create order")
          end
      | (db1, Return r) => (db1, r)
      | (db1, Raise _) => (db1, SendError 500 "Failed to create order")
      end
  end.
Proof.
  unfold createOrder, try_catch, createOrder_body, Customer_findOne.
  rewrite !bind_run. cbn [get ret].
  destruct (Customer_lookup _ _ _) as [customer |]; [| reflexivity].
  rewrite bind_run.
  destruct (process_items (b_items b) 0 [] db) as [db1 [[sub proc] | r | e]];
    try reflexivity.
  cbn [fst snd]. rewrite bind_run.
  destruct (Order_save now _ _ db1) as [db2 [order | r | e]]; reflexivity.
Qed.

Lemma transitionOrderStatus_run (uid id : nat) (b : StatusBody)
    (now : Js.Date) (db : Db) :
  transitionOrderStatus uid id b now db =
  match Order_lookup id uid (orders db) with
  | None => (db, SendError 404 "Order not found")
  | Some order =>
      match Order_save now false (apply_status b now order) db with
      | (db', Val order') => (db', SendOrder 200 order' "Order status updated")
      | (db', Return r) => (db', r)
      | (db', Raise _) => (db', SendError 500 "Failed to update status")
      end
  end.
Proof.
  unfold transitionOrderStatus, try_catch, Order_findOne.
  rewrite !bind_run. cbn [get ret].
  destruct (Order_lookup _ _ _) as [order |]; [| reflexivity].
  rewrite bind_run.
  destruct (Order_save now _ _ db) as [db2 [order' | r | e]]; reflexivity.
Qed.

Lemma updateOrder_run (uid id : nat) (p : OrderPatch) (now : Js.Date)
    (db : Db) :
  updateOrder uid id p now db =
  match Order_lookup id uid (orders db) with
  | None => (db, SendError 404 "Order not found")
  | Some order =>
      match Order_save now false (assign order p) db with
      | (db', Val order') => (db', SendOrder 200 order' "Order updated successfully")
      | (db', Return r) => (db', r)
      | (db', Raise _) => (db', SendError 500 "Failed to update order")
      end
  end.
Proof.
  unfold updateOrder, try_catch, Order_findOne.
  rewrite !bind_run. cbn [get ret].
  destruct (Order_lookup _ _ _) as [order |]; [| reflexivity].
  rewrite bind_run.
  destruct (Order_save now _ _ db) as [db2 [order' | r | e]]; reflexivity.
Qed.

Lemma cancelOrder_run (uid id : nat) (reason : option string)
    (now : Js.Date) (db : Db) :
  cancelOrder uid id reason now db =
  match Order_lookup id uid (orders db) with
  | None => (db, SendError 404 "Order not found")
  | Some order =>
      if OrderStatus_eqb (status order) delivered
         || OrderStatus_eqb (status order) cancelled
      then (db, SendError 400 "Order cannot be cancelled")
      else
        match restore_inventory (items order) db with
        | (db1, Val _) =>
            match Order_save now false (mark_cancelled reason now order) db1 with
            | (db2, Val order') =>
                (db2, SendOrder 200 order' "Order cancelled successfully")
            | (db2, Return r) => (db2, r)
            | (db2, Raise _) => (db2, SendError 500 "Failed to cancel order")
            end
        | (db1, Return r) => (db1, r)
        | (db1, Raise _) => (db1, SendError 500 "Failed to cancel order")
        end
  end.
Proof.
  unfold cancelOrder, try_catch, Order_findOne.
  rewrite !bind_run. cbn [get ret].
  destruct (Order_lookup _ _ _) as [order |]; [| reflexivity].
  destruct (_ || _); [reflexivity |].
  rewrite bind_run.
  destruct (restore_inventory (items order) db) as [db1 [[] | r | e]];
    try reflexivity.
  rewrite bind_run.
  destruct (Order_save now _ _ db1) as [db2 [order' | r | e]]; reflexivity.
Qed.

End RouteEquations.

(** ** Frames and invariants of the saves *)

Section SaveInvariants.
Import Doc Handler Model Orders Props.
Local Open Scope Q_scope.

Lemma Order_write_Forall (P : Order -> Prop) (isNew : bool) (o : Order)
    (coll coll' : list Order) :
  Order_write isNew o coll = inr coll' -> Forall P coll -> P o ->
  Forall P coll'.
Proof.
  unfold Order_write. intros H Hall Ho.
  destruct (Order_find (o_id o) coll); destruct isNew; try discriminate.
  - destruct (_ || _); [| discriminate]. injection H as <-.
    rewrite List.Forall_map. eapply List.Forall_impl; [| exact Hall].
    intros o' Ho'. cbv beta. destruct (_ =? _)%nat; assumption.
  - destruct (Order_number_taken o coll); [discriminate |].
    injection H as <-. apply Forall_app. split; [exact Hall |].
    constructor; [exact Ho | constructor].
Qed.

(** A save, whatever its outcome, leaves in the collection the documents
    that were there and at most the hooked document. *)
Lemma Order_save_Forall (P : Order -> Prop) (date : Js.Date) (isNew : bool)
    (o : Order) (db db' : Db) (r : Result Order) :
  Order_save date isNew o db = (db', r) ->
  Forall P (orders db) ->
  P (orderSchema_pre_save date (Order_countDocuments (o_user o) (orders db)) o) ->
  Forall P (orders db').
Proof.
  rewrite Order_save_run. intros H Hall Ho.
  destruct (Order_valid o); [| injection H as <- <-; exact Hall].
  cbv zeta in H.
  destruct (Order_write _ _ (orders db)) as [e | coll] eqn:Hw;
    injection H as <- <-; [exact Hall |].
  exact (Order_write_Forall P _ _ _ _ Hw Hall Ho).
Qed.

Lemma Order_save_frame (date : Js.Date) (isNew : bool) (o : Order)
    (db db' : Db) (r : Result Order) :
  Order_save date isNew o db = (db', r) ->
  customers db' = customers db /\ products db' = products db /\
  invoices db' = invoices db.
Proof.
  rewrite Order_save_run. intros H.
  destruct (Order_valid o); [| injection H as <- <-; auto].
  cbv zeta in H.
  destruct (Order_write _ _ (orders db)); injection H as <- <-; auto.
Qed.

Lemma Order_lookup_In (id uid : nat) (coll : list Order) (o : Order) :
  Order_lookup id uid coll = Some o ->
  In o coll /\ o_id o = id /\ o_user o = uid.
Proof.
  unfold Order_lookup, Order_find.
  destruct (find _ coll) as [o1 |] eqn:Hf; [| discriminate].
  apply find_some in Hf as [Hin Hid].
  destruct (o_user o1 =? uid)%nat eqn:Hu; [| discriminate].
  intros [= <-]. apply Nat.eqb_eq in Hid, Hu. auto.
Qed.

(** One turn of the restore loop. *)
Lemma restore_inventory_cons (item : OrderItem) (rest : list OrderItem)
    (db : Db) :
  restore_inventory (item :: rest) db =
  match products db !! it_product item with
  | Some product =>
      if trackInventory product then
        if Qle_bool 0 (inv_quantity product + quantity item) then
          restore_inventory rest
            (set_products
               (<[p_id product :=
                    set_inv_quantity (inv_quantity product + quantity item)
                                     product]> (products db)) db)
        else (db, Raise (ValidationError "inventory.quantity"))
      else restore_inventory rest db
  | None => restore_inventory rest db
  end.
Proof.
  cbn [restore_inventory]. rewrite bind_run.
  unfold Product_findById. rewrite bind_run. cbn [get ret].
  rewrite bind_run.
  destruct (products db !! it_product item) as [product |]; [| reflexivity].
  destruct (trackInventory product); [| reflexivity].
  unfold Product_save. cbn [inv_quantity set_inv_quantity p_id].
  destruct (Qle_bool 0 (inv_quantity product + quantity item)); reflexivity.
Qed.

Lemma restore_inventory_frame (its : list OrderItem) :
  forall (db db' : Db) (r : Result unit),
    restore_inventory its db = (db', r) ->
    customers db' = customers db /\ orders db' = orders db /\
    invoices db' = invoices db.
Proof.
  induction its as [| item rest IH]; intros db db' r Hrun.
  - injection Hrun as <- <-. auto.
  - rewrite restore_inventory_cons in Hrun.
    destruct (products db !! it_product item) as [product |];
      [| exact (IH _ _ _ Hrun)].
    destruct (trackInventory product); [| exact (IH _ _ _ Hrun)].
    destruct (Qle_bool 0 _); [| injection Hrun as <- <-; auto].
    apply IH in Hrun. exact Hrun.
Qed.

End SaveInvariants.

(** ** Claims on order creation *)

Section CreateOrderClaims.
Import Doc Handler Model Orders Props.
Local Open Scope Q_scope.

(** A create that answers with an order went through the whole handler:
    the order is the hooked [new Order(...)] over the processed items, and
    it is stored. *)
Lemma createOrder_created (uid : nat) (b : OrderBody) (oid : nat)
    (now : Js.Date) (db db' : Db) (code : nat) (o : Order) (msg : string) :
  createOrder uid b oid now db = (db', SendOrder code o msg) ->
  exists sub proc,
    Forall line_ok proc /\ sub = sum_totals proc /\
    o = orderSchema_pre_save now (Order_countDocuments uid (orders db))
          (new_order oid uid b sub proc) /\
    In o (orders db') /\ code = 201%nat /\
    exists db1, process_items (b_items b) 0 [] db = (db1, Val (sub, proc)).
Proof.
  rewrite createOrder_run. intros H.
  destruct (Customer_lookup _ _ _) as [customer |]; [| discriminate].
  destruct (process_items (b_items b) 0 [] db)
    as [db1 [[sub proc] | r | e]] eqn:Hp.
  2: { apply process_items_return in Hp as [m ->]. discriminate. }
  2: discriminate.
  destruct (Order_save now _ _ db1) as [db2 [order | r | e]] eqn:Hs.
  2: { exfalso. rewrite Order_save_run in Hs.
       destruct (Order_valid _); [| discriminate]. cbv zeta in Hs.
       destruct (Order_write _ _ _); discriminate. }
  2: discriminate.
  cbv zeta in H. injection H as <- <- <- <-.
  apply Order_save_val in Hs as (_ & Ho & coll & Hw & ->).
  pose proof (process_items_frame _ _ _ _ _ _ Hp) as (_ & Hsame & _).
  pose proof Hp as Hrun.
  apply process_items_val in Hp as [Hok Hsum];
    [| constructor | reflexivity].
  exists sub, proc. repeat split; eauto.
  - rewrite Ho, Hsame. reflexivity.
  - exact (Order_write_In _ _ _ _ Hw).
Qed.

Lemma priced_line_item (product : Product) (item : ItemInput) :
  priced product item (line_item product item).
Proof. unfold priced. repeat split. Qed.

(** The loop builds one line for each item of the request, in order, from
    the product it finds for the item. *)
Lemma process_items_lines (its : list ItemInput) :
  forall (sub : Q) (proc : list OrderItem) (db db' : Db) (sub' : Q)
         (proc' : list OrderItem),
    process_items its sub proc db = (db', Val (sub', proc')) ->
    exists new,
      proc' = (proc ++ new)%list /\
      Forall2 (fun item it => exists product, priced product item it)
              its new.
Proof.
  induction its as [| item rest IH]; intros sub proc db db' sub' proc' Hrun.
  - injection Hrun as <- <- <-. exists []. rewrite app_nil_r.
    split; [reflexivity | constructor].
  - rewrite process_items_cons in Hrun.
    destruct (products db !! in_product item) as [product |];
      [| discriminate].
    cbv zeta in Hrun.
    assert (exists new,
               proc' = ((proc ++ [line_item product item]) ++ new)%list /\
               Forall2 (fun item it => exists product, priced product item it)
                       rest new) as (new & -> & Hnew).
    { destruct (trackInventory product).
      - destruct (Qle_bool 0 _); [| discriminate]. exact (IH _ _ _ _ _ _ Hrun).
      - exact (IH _ _ _ _ _ _ Hrun). }
    exists (line_item product item :: new). rewrite <- app_assoc.
    split; [reflexivity |]. constructor; [| exact Hnew].
    exists product. apply priced_line_item.
Qed.

(** When every product is stored under its own [_id], the product the loop
    finds for an item is the one the catalogue held for it when the request
    came in, but for its quantity: the lines are priced from the catalogue
    of the request. *)
Lemma process_items_catalogue (m0 : gmap nat Product)
    (its : list ItemInput) :
  forall (sub : Q) (proc : list OrderItem) (db db' : Db) (sub' : Q)
         (proc' : list OrderItem),
    (forall k p, products db !! k = Some p ->
                 p_id p = k /\
                 exists p0, m0 !! k = Some p0 /\
                            forall item, line_item p item = line_item p0 item) ->
    process_items its sub proc db = (db', Val (sub', proc')) ->
    exists new,
      proc' = (proc ++ new)%list /\
      Forall2 (fun item it =>
                 exists product,
                   m0 !! in_product item = Some product /\
                   priced product item it) its new.
Proof.
  induction its as [| item rest IH];
    intros sub proc db db' sub' proc' Hinv Hrun.
  - injection Hrun as <- <- <-. exists []. rewrite app_nil_r.
    split; [reflexivity | constructor].
  - rewrite process_items_cons in Hrun.
    destruct (products db !! in_product item) as [product |] eqn:Hl;
      [| discriminate].
    cbv zeta in Hrun.
    destruct (Hinv _ _ Hl) as (Hid & p0 & Hp0 & Hline).
    assert (exists new,
               proc' = ((proc ++ [line_item product item]) ++ new)%list /\
               Forall2 (fun item it =>
                          exists product,
                            m0 !! in_product item = Some product /\
                            priced product item it) rest new)
      as (new & -> & Hnew).
    { destruct (trackInventory product).
      - destruct (Qle_bool 0 _); [| discriminate].
        refine (IH _ _ _ _ _ _ _ Hrun). intros k p.
        cbn [products set_products]. rewrite Hid.
        destruct (decide (in_product item = k)) as [<- | Hne].
        + rewrite lookup_insert_eq. intros [= <-].
          split; [exact Hid |]. exists p0. split; [exact Hp0 |].
          intros it. rewrite <- Hline. reflexivity.
        + rewrite lookup_insert_ne by exact Hne. apply Hinv.
      - exact (IH _ _ _ _ _ _ Hinv Hrun). }
    exists (line_item product item :: new). rewrite <- app_assoc.
    split; [reflexivity |]. constructor; [| exact Hnew].
    exists p0. split; [exact Hp0 |]. rewrite Hline. apply priced_line_item.
Qed.

(** C1. Every order that [createOrder] answers with is stored, and its line
    items are the items of the request, one line for each item and in the
    same order.  The line of an item carries the product it was priced
    from, the quantity of the item, the unit price, discount and tax rate of
    the item where it brings them (the selling price and the tax rate of
    the product, and no discount, otherwise), and satisfies
    taxableAmount = unitPrice * quantity - discount,
    tax.amount = taxableAmount * (tax.rate / 100) and
    total = taxableAmount + tax.amount.  When every product is stored under
    its own [_id], the product is the one the catalogue holds for the item
    when the request comes in.  pricing.subtotal is the sum of the line
    totals (added in the order of the items, from 0). *)
Theorem createOrder_prices_line_items (uid : nat) (b : OrderBody) (oid : nat)
    (now : Js.Date) (db db' : Db) (code : nat) (o : Order) (msg : string) :
  createOrder uid b oid now db = (db', SendOrder code o msg) ->
  In o (orders db') /\
  Forall2 (fun item it =>
             exists product,
               it_product it = p_id product /\
               quantity it = in_quantity item /\
               unitPrice it =
                 Js.or_default (in_unitPrice item) (sellingPrice product) /\
               discount it = Js.or_default (in_discount item) 0 /\
               tax_rate it =
                 Js.or_default (in_tax_rate item) (p_tax_rate product) /\
               let taxableAmount := unitPrice it * quantity it - discount it in
               tax_amount it = taxableAmount * (tax_rate it / 100) /\
               it_total it = taxableAmount + tax_amount it)
          (b_items b) (items o) /\
  (keys_match (products db) ->
   Forall2 (fun item it =>
              exists product,
                products db !! in_product item = Some product /\
                priced product item it)
           (b_items b) (items o)) /\
  subtotal (pricing o) = fold_left (fun s it => s + it_total it) (items o) 0.
Proof.
  intros H.
  apply createOrder_created in H
    as (sub & proc & Hok & Hsum & -> & Hin & _ & db1 & Hrun).
  split; [exact Hin |].
  rewrite pre_save_items. cbn [new_order items].
  split; [| split].
  - apply process_items_lines in Hrun as (new & -> & Hnew).
    cbn [app]. eapply Forall2_impl; [exact Hnew |].
    intros item it (product & H1 & _ & _ & H4 & H5 & H6 & H7 & H8).
    exists product. repeat split; try assumption; apply H8.
  - intros Hk.
    apply (process_items_catalogue (products db)) in Hrun
      as (new & -> & Hnew); [exact Hnew |].
    intros k p Hl. split; [exact (Hk _ _ Hl) |]. exists p. auto.
  - unfold orderSchema_pre_save.
    destruct (Numbering.missing _); cbn; exact Hsum.
Qed.

Lemma createOrder_prices_line_items_witness :
  In Scenario.order1 (orders Scenario.db1) /\
  Forall2 (fun item it =>
             exists product,
               products Scenario.db0 !! in_product item = Some product /\
               priced product item it)
          (b_items Scenario.body0) (items Scenario.order1) /\
  subtotal (pricing Scenario.order1) =
  fold_left (fun s it => s + it_total it) (items Scenario.order1) 0.
Proof.
  destruct (createOrder_prices_line_items 1 Scenario.body0 100 Scenario.now
              Scenario.db0 Scenario.db1 201 Scenario.order1
              "Order created successfully")
    as (Hin & _ & Hcat & Hsum).
  - vm_compute. reflexivity.
  - split; [exact Hin |]. split; [| exact Hsum]. apply Hcat.
    intros id p. unfold Scenario.db0. cbn [products].
    intros [<- <-]%lookup_singleton_Some. reflexivity.
Defined.

(** The scenario of the specification: two units at 500, tax 18%, no
    discount, shipping 50. *)
Example scenario_totals :
  match items Scenario.order1 with
  | [it] => tax_amount it == 180 /\ it_total it == 1180
  | _ => False
  end /\
  total (pricing Scenario.order1) == 1230 /\
  amountDue (pricing Scenario.order1) == 1230 /\
  orderNumber Scenario.order1 = Some "ORD/2611/0001".
Proof. vm_compute. repeat split; discriminate. Qed.

End CreateOrderClaims.

(** ** Claims on the pricing block *)

Section PricingClaims.
Import Doc Handler Model Orders Props.
Local Open Scope Q_scope.

(** What the routes give to [save()] when the stored documents satisfy a
    property the hook and the route keep. *)
Lemma createOrder_Forall (P : Order -> Prop) (uid : nat) (b : OrderBody)
    (oid : nat) (now : Js.Date) (db : Db) :
  (forall sub proc n,
      Forall line_ok proc -> sub = sum_totals proc ->
      P (orderSchema_pre_save now n (new_order oid uid b sub proc))) ->
  Forall P (orders db) ->
  Forall P (orders (fst (createOrder uid b oid now db))).
Proof.
  intros Hnew Hall. rewrite createOrder_run.
  destruct (Customer_lookup _ _ _) as [customer |]; [| exact Hall].
  destruct (process_items (b_items b) 0 [] db)
    as [db1 [[sub proc] | r | e]] eqn:Hp;
    pose proof (process_items_frame _ _ _ _ _ _ Hp) as (_ & Ho & _);
    try (cbn [fst]; rewrite Ho; exact Hall).
  apply process_items_val in Hp as [Hok Hsum]; [| constructor | reflexivity].
  rewrite <- Ho in Hall.
  destruct (Order_save now _ _ db1) as [db2 [order | r | e]] eqn:Hs;
    cbv zeta; cbn [fst set_customers orders];
    exact (Order_save_Forall P _ _ _ _ _ _ Hs Hall (Hnew _ _ _ Hok Hsum)).
Qed.

Lemma transitionOrderStatus_Forall (P : Order -> Prop) (uid id : nat)
    (b : StatusBody) (now : Js.Date) (db : Db) :
  (forall o n, P o -> P (orderSchema_pre_save now n (apply_status b now o))) ->
  Forall P (orders db) ->
  Forall P (orders (fst (transitionOrderStatus uid id b now db))).
Proof.
  intros Hkeep Hall. rewrite transitionOrderStatus_run.
  destruct (Order_lookup id uid (orders db)) as [order |] eqn:Hl;
    [| exact Hall].
  apply Order_lookup_In in Hl as (Hin & _).
  assert (P order) as Ho by (rewrite List.Forall_forall in Hall; auto).
  destruct (Order_save now _ _ db) as [db2 [order' | r | e]] eqn:Hs;
    cbn [fst]; exact (Order_save_Forall P _ _ _ _ _ _ Hs Hall (Hkeep _ _ Ho)).
Qed.

Lemma updateOrder_Forall (P : Order -> Prop) (uid id : nat)
    (p : OrderPatch) (now : Js.Date) (db : Db) :
  (forall o n, P (orderSchema_pre_save now n (assign o p))) ->
  Forall P (orders db) ->
  Forall P (orders (fst (updateOrder uid id p now db))).
Proof.
  intros Hkeep Hall. rewrite updateOrder_run.
  destruct (Order_lookup id uid (orders db)) as [order |] eqn:Hl;
    [| exact Hall].
  destruct (Order_save now _ _ db) as [db2 [order' | r | e]] eqn:Hs;
    cbn [fst]; exact (Order_save_Forall P _ _ _ _ _ _ Hs Hall (Hkeep _ _)).
Qed.

Lemma cancelOrder_Forall (P : Order -> Prop) (uid id : nat)
    (reason : option string) (now : Js.Date) (db : Db) :
  (forall o n, P o ->
               P (orderSchema_pre_save now n (mark_cancelled reason now o))) ->
  Forall P (orders db) ->
  Forall P (orders (fst (cancelOrder uid id reason now db))).
Proof.
  intros Hkeep Hall. rewrite cancelOrder_run.
  destruct (Order_lookup id uid (orders db)) as [order |] eqn:Hl;
    [| exact Hall].
  apply Order_lookup_In in Hl as (Hin & _).
  assert (P order) as Ho by (rewrite List.Forall_forall in Hall; auto).
  destruct (_ || _); [exact Hall |].
  destruct (restore_inventory (items order) db) as [db1 [[] | r | e]] eqn:Hr;
    pose proof (restore_inventory_frame _ _ _ _ Hr) as (_ & Hsame & _);
    try (cbn [fst]; rewrite Hsame; exact Hall).
  rewrite <- Hsame in Hall.
  destruct (Order_save now _ _ db1) as [db2 [order' | r | e]] eqn:Hs;
    cbn [fst]; exact (Order_save_Forall P _ _ _ _ _ _ Hs Hall (Hkeep _ _ Ho)).
Qed.

(** C2 (as amended). An order that [createOrder] answers with is stored with
    pricing.total = pricing.subtotal + pricing.shipping + pricing.packaging
    and pricing.amountDue = pricing.total - pricing.amountPaid.  Every save
    of an order that goes through stores it with the second equality, so
    that equality holds of the whole collection after the create, update,
    status and cancel routes.  The first equality is kept by the create,
    status and cancel routes; the update route is left out: it copies the
    pricing block of the request. *)
Theorem order_pricing_invariants :
  (forall uid b oid now db db' code o msg,
      createOrder uid b oid now db = (db', SendOrder code o msg) ->
      In o (orders db') /\
      total (pricing o) =
        subtotal (pricing o) + shipping (pricing o) + packaging (pricing o) /\
      amountDue (pricing o) = total (pricing o) - amountPaid (pricing o)) /\
  (forall date isNew o db db' o',
      Order_save date isNew o db = (db', Val o') ->
      In o' (orders db') /\
      amountDue (pricing o') = total (pricing o') - amountPaid (pricing o')) /\
  (forall db, orders_due_ok db ->
      (forall uid b oid now,
          orders_due_ok (fst (createOrder uid b oid now db))) /\
      (forall uid id p now,
          orders_due_ok (fst (updateOrder uid id p now db))) /\
      (forall uid id b now,
          orders_due_ok (fst (transitionOrderStatus uid id b now db))) /\
      (forall uid id reason now,
          orders_due_ok (fst (cancelOrder uid id reason now db)))) /\
  (forall db, orders_total_ok db ->
      (forall uid b oid now,
          orders_total_ok (fst (createOrder uid b oid now db))) /\
      (forall uid id b now,
          orders_total_ok (fst (transitionOrderStatus uid id b now db))) /\
      (forall uid id reason now,
          orders_total_ok (fst (cancelOrder uid id reason now db)))).
Proof.
  split; [| split; [| split]].
  - intros uid b oid now db db' code o msg H.
    apply createOrder_created in H as (sub & proc & _ & _ & -> & Hin & _).
    split; [exact Hin |]. split.
    + apply (pre_save_total now _ (new_order oid uid b sub proc)).
      reflexivity.
    + apply pre_save_due.
  - intros date isNew o db db' o' H.
    apply Order_save_val in H as (_ & -> & coll & Hw & ->).
    split; [exact (Order_write_In _ _ _ _ Hw) | apply pre_save_due].
  - intros db Hdue. unfold orders_due_ok in *. repeat split; intros.
    + apply createOrder_Forall; [| exact Hdue]. intros. apply pre_save_due.
    + apply updateOrder_Forall; [| exact Hdue]. intros. apply pre_save_due.
    + apply transitionOrderStatus_Forall; [| exact Hdue].
      intros. apply pre_save_due.
    + apply cancelOrder_Forall; [| exact Hdue]. intros. apply pre_save_due.
  - intros db Htot. unfold orders_total_ok in *. repeat split; intros.
    + apply createOrder_Forall; [| exact Htot]. intros.
      apply pre_save_total. reflexivity.
    + apply transitionOrderStatus_Forall; [| exact Htot].
      intros o n Ho. apply pre_save_total. exact Ho.
    + apply cancelOrder_Forall; [| exact Htot].
      intros o n Ho. apply pre_save_total. exact Ho.
Qed.


Lemma order_pricing_invariants_witness :
  In Scenario.order1 (orders Scenario.db1) /\
  total (pricing Scenario.order1) =
    subtotal (pricing Scenario.order1) + shipping (pricing Scenario.order1) +
    packaging (pricing Scenario.order1) /\
  amountDue (pricing Scenario.order1) =
    total (pricing Scenario.order1) - amountPaid (pricing Scenario.order1).
Proof.
  apply (proj1 order_pricing_invariants 1%nat Scenario.body0 100%nat
           Scenario.now Scenario.db0 Scenario.db1 201%nat Scenario.order1
           "Order created successfully").
  vm_compute. reflexivity.
Defined.

(** The update route stores the pricing block it is sent: after it the
    stored order has total 999 against subtotal + shipping + packaging
    = 1230. *)
Lemma update_breaks_total_equation :
  exists db' o msg,
    updateOrder 1 100 Scenario.patch0 Scenario.now Scenario.db1 =
      (db', SendOrder 200 o msg) /\
    In o (orders db') /\
    ~ (total (pricing o) ==
       subtotal (pricing o) + shipping (pricing o) + packaging (pricing o)).
Proof.
  eexists. eexists. eexists. split; [vm_compute; reflexivity |].
  split; [left; reflexivity |]. vm_compute. discriminate.
Qed.

End PricingClaims.

(** ** Claims on document numbers *)

Section NumberingClaims.
Import Doc Handler Model Orders Invoices Props.
Local Open Scope Q_scope.

Lemma Invoice_save_run (date : Js.Date) (isNew : bool) (i : Invoice)
    (db : Db) :
  Invoice_save date isNew i db =
  if Invoice_valid i then
    let i' := invoiceSchema_pre_save date
                (Invoice_countDocuments (i_user i) (invoices db)) i in
    match Invoice_write isNew i' (invoices db) with
    | inl e => (db, Raise e)
    | inr coll => (set_invoices coll db, Val i')
    end
  else (db, Raise (ValidationError "invoiceNumber")).
Proof.
  unfold Invoice_save. destruct (Invoice_valid i); [| reflexivity].
  cbn [negb]. rewrite bind_run. cbn [get]. cbv zeta.
  destruct (Invoice_write _ _ (invoices db)); reflexivity.
Qed.

(** The numbering branch of the two hooks, taken for itself. *)
Lemma invoice_pre_save_number (date : Js.Date) (count : N) (i : Invoice) :
  Numbering.missing (invoiceNumber i) = true ->
  invoiceNumber (invoiceSchema_pre_save date count i) =
  Some (Numbering.invoiceNumber_of date count).
Proof.
  intros Hm. unfold invoiceSchema_pre_save. rewrite Hm.
  destruct (Js.truthy _); reflexivity.
Qed.

Lemma order_pre_save_number (date : Js.Date) (count : N) (o : Order) :
  Numbering.missing (orderNumber o) = true ->
  orderNumber (orderSchema_pre_save date count o) =
  Some (Numbering.orderNumber_of date count).
Proof.
  intros Hm. unfold orderSchema_pre_save. rewrite Hm. reflexivity.
Qed.

(** C4, on the code.  The first order of an owner, created by a request that
    brings no number: the hook would give it ORD/2611/0001, but [save()]
    validates before the hooks run and [orderNumber] is required, so the
    save is refused, the route answers 500 and no order is stored (the two
    widgets the loop took stay taken).  The invoice of a stored order fares
    the same: [createInvoiceFromOrder] builds it without a number, the save
    is refused and nothing is stored. *)
Lemma unnumbered_documents_are_refused :
  orderNumber (orderSchema_pre_save Scenario.now 0
                 (Scenario.draft 100)) = Some "ORD/2611/0001" /\
  snd (createOrder 1 Scenario.body_unnumbered 100 Scenario.now Scenario.db0)
  = SendError 500 "Failed to create order" /\
  orders (fst (createOrder 1 Scenario.body_unnumbered 100 Scenario.now
                 Scenario.db0)) = [] /\
  createInvoiceFromOrder Scenario.order1 1 500 Scenario.now Scenario.db1
  = (Scenario.db1, Raise (ValidationError "invoiceNumber")) /\
  InvoiceRoutes.createInvoice 1 100 500 Scenario.now Scenario.db1
  = (Scenario.db1, SendError 500 "Failed to create invoice").
Proof. vm_compute. repeat split. Qed.

Example sequence_ignores_the_calendar :
  Numbering.orderNumber_of (Js.mkDate 2026 11 31) 41 = "ORD/2612/0042" /\
  Numbering.orderNumber_of (Js.mkDate 2027 0 1) 42 = "ORD/2701/0043" /\
  Numbering.orderNumber_of (Js.mkDate 2027 0 1) 12344 = "ORD/2701/12345" /\
  Numbering.invoiceNumber_of (Js.mkDate 2027 0 1) 9 = "INV/270101/0010".
Proof. vm_compute. repeat split. Qed.

End NumberingClaims.

(** ** Claims on the inventory *)

Section InventoryClaims.
Import Doc Handler Model Orders Invoices Props.
Local Open Scope Q_scope.

Lemma process_items_app (pre : list ItemInput) :
  forall (post : list ItemInput) (sub : Q) (proc : list OrderItem) (db : Db),
    process_items (pre ++ post) sub proc db =
    match process_items pre sub proc db with
    | (db1, Val (sub1, proc1)) => process_items post sub1 proc1 db1
    | (db1, Return r) => (db1, Return r)
    | (db1, Raise e) => (db1, Raise e)
    end.
Proof.
  induction pre as [| item rest IH]; intros post sub proc db.
  - reflexivity.
  - change ((item :: rest) ++ post)%list with (item :: (rest ++ post))%list.
    rewrite !process_items_cons.
    destruct (products db !! in_product item) as [product |]; [| reflexivity].
    cbv zeta. destruct (trackInventory product); [| apply IH].
    destruct (Qle_bool 0 _); [apply IH | reflexivity].
Qed.

Lemma Qle_bool_sub_false (a b : Q) : a < b -> Qle_bool 0 (a - b) = false.
Proof.
  intros Hlt. destruct (Qle_bool 0 (a - b)) eqn:Hle; [| reflexivity].
  apply Qle_bool_iff in Hle. exfalso.
  apply (Qlt_not_le _ _ Hlt). apply Qle_minus_iff. exact Hle.
Qed.

(** Whatever the loop answers, a product it leaves in the store is either
    the one that was there or one that passed the [min 0] validator. *)
Lemma process_items_written (its : list ItemInput) :
  forall (sub : Q) (proc : list OrderItem) (db db' : Db)
         (r : Result (Q * list OrderItem)) (id : nat) (p' : Product),
    process_items its sub proc db = (db', r) ->
    products db' !! id = Some p' ->
    products db !! id = Some p' \/ 0 <= inv_quantity p'.
Proof.
  induction its as [| item rest IH]; intros sub proc db db' r id p' Hrun Hl.
  - injection Hrun as <- <-. auto.
  - rewrite process_items_cons in Hrun.
    destruct (products db !! in_product item) as [product |];
      [| injection Hrun as <- <-; auto].
    cbv zeta in Hrun. destruct (trackInventory product);
      [| exact (IH _ _ _ _ _ _ _ Hrun Hl)].
    destruct (Qle_bool 0 _) eqn:Hq; [| injection Hrun as <- <-; auto].
    destruct (IH _ _ _ _ _ _ _ Hrun Hl) as [Hmid | Hok]; [| auto].
    cbn [products set_products] in Hmid.
    destruct (decide (p_id product = id)) as [<- | Hne].
    + rewrite lookup_insert_eq in Hmid. injection Hmid as <-.
      right. apply Qle_bool_iff. exact Hq.
    + rewrite lookup_insert_ne in Hmid by exact Hne. auto.
Qed.

Lemma createOrder_products (uid : nat) (b : OrderBody) (oid : nat)
    (now : Js.Date) (db : Db) :
  products (fst (createOrder uid b oid now db)) = products db \/
  exists r, products (fst (createOrder uid b oid now db)) =
            products (fst (process_items (b_items b) 0 [] db)) /\
            snd (process_items (b_items b) 0 [] db) = r.
Proof.
  rewrite createOrder_run.
  destruct (Customer_lookup _ _ _) as [customer |]; [| auto].
  right. destruct (process_items (b_items b) 0 [] db)
    as [db1 [[sub proc] | r | e]] eqn:Hp; cbn [fst snd]; eauto.
  destruct (Order_save now _ _ db1) as [db2 [order | r | e]] eqn:Hs;
    pose proof (Order_save_frame _ _ _ _ _ _ Hs) as (_ & Hsame & _);
    cbv zeta; cbn [fst products set_customers]; rewrite Hsame; eauto.
Qed.

(** C7. When the item loop comes to a line whose product is tracked and has
    less on hand than the line asks for, [product.save()] is refused by the
    [min 0] validator of [inventory.quantity]: the loop throws there, the
    request is answered with the error reply, the product keeps its
    quantity and no order is stored.  And whatever a create request does, a
    product it leaves in the store is the one that was there before or has
    a quantity of at least zero. *)
Theorem insufficient_stock_rejects_order :
  (forall uid b oid now db customer pre item post db1 sub proc product,
      Customer_lookup (b_customer b) uid (customers db) = Some customer ->
      b_items b = (pre ++ item :: post)%list ->
      process_items pre 0 [] db = (db1, Val (sub, proc)) ->
      products db1 !! in_product item = Some product ->
      trackInventory product = true ->
      inv_quantity product < in_quantity item ->
      process_items (item :: post) sub proc db1 =
        (db1, Raise (ValidationError "inventory.quantity")) /\
      createOrder uid b oid now db =
        (db1, SendError 500 "Failed to create order") /\
      products db1 !! in_product item = Some product /\
      orders db1 = orders db) /\
  (forall uid b oid now db id p',
      products (fst (createOrder uid b oid now db)) !! id = Some p' ->
      products db !! id = Some p' \/ 0 <= inv_quantity p').
Proof.
  split.
  - intros uid b oid now db customer pre item post db1 sub proc product
           Hc Hitems Hpre Hl Ht Hlt.
    assert (process_items (item :: post) sub proc db1 =
            (db1, Raise (ValidationError "inventory.quantity"))) as Hstep.
    { rewrite process_items_cons, Hl. cbv zeta. rewrite Ht.
      rewrite Qle_bool_sub_false by exact Hlt. reflexivity. }
    split; [exact Hstep |]. split; [| split; [exact Hl |]].
    + rewrite createOrder_run, Hc, Hitems, process_items_app, Hpre, Hstep.
      reflexivity.
    + apply process_items_frame in Hpre as (_ & Ho & _). exact Ho.
  - intros uid b oid now db id p' Hl.
    destruct (createOrder_products uid b oid now db) as [Hsame | [r [Hp _]]].
    + rewrite Hsame in Hl. auto.
    + rewrite Hp in Hl.
      destruct (process_items (b_items b) 0 [] db) as [db1 r1] eqn:Hrun.
      exact (process_items_written _ _ _ _ _ _ _ _ Hrun Hl).
Qed.

Lemma insufficient_stock_witness :
  createOrder 1 Scenario.body_short 100 Scenario.now Scenario.db0 =
  (set_products {[ 1%nat := set_inv_quantity 8 Scenario.widget ]} Scenario.db0,
   SendError 500 "Failed to create order").
Proof.
  refine (proj1 (proj2 (proj1 insufficient_stock_rejects_order
            1%nat Scenario.body_short 100%nat Scenario.now Scenario.db0
            Scenario.shop [mkItemInput 1 2 None None None None]
            (mkItemInput 1 11 None None None None) []
            (set_products {[ 1%nat := set_inv_quantity 8 Scenario.widget ]}
                          Scenario.db0)
            (118000 # 100) [line_item Scenario.widget
                              (mkItemInput 1 2 None None None None)]
            (set_inv_quantity 8 Scenario.widget) _ _ _ _ _ _))).
  - reflexivity.
  - reflexivity.
  - vm_compute. reflexivity.
  - reflexivity.
  - reflexivity.
  - reflexivity.
Defined.


(** C6, on the code.  The second line names a product that does not exist:
    the request is answered 400, no order is stored and the customer is
    untouched, but the two widgets taken for the first line stay taken
    (10 before, 8 after). *)
Lemma failed_lookup_keeps_earlier_decrement :
  exists db',
    createOrder 1 Scenario.body_missing 100 Scenario.now Scenario.db0 =
      (db', SendError 400 "Product not found: 99") /\
    orders db' = orders Scenario.db0 /\
    customers db' = customers Scenario.db0 /\
    products Scenario.db0 !! 1%nat = Some Scenario.widget /\
    inv_quantity Scenario.widget = 10 /\
    products db' !! 1%nat = Some (set_inv_quantity 8 Scenario.widget).
Proof.
  eexists. split; [vm_compute; reflexivity |]. repeat split.
Qed.
End InventoryClaims.

(** ** Claims on cancelling *)

Section CancelClaims.
Import Doc Handler Model Orders Invoices Props.
Local Open Scope Q_scope.



Lemma Order_find_replace (o : Order) (coll : list Order) (old : Order) :
  Order_find (o_id o) coll = Some old ->
  Order_find (o_id o)
    (map (fun o' => if (o_id o' =? o_id o)%nat then o else o') coll) = Some o.
Proof.
  unfold Order_find. induction coll as [| x rest IH]; [discriminate |].
  cbn [find map]. destruct (o_id x =? o_id o)%nat eqn:Hx.
  - intros _. rewrite Nat.eqb_refl. reflexivity.
  - rewrite Hx. exact IH.
Qed.

(** Saving a stored order whose number and lines are unchanged: the hook
    only recomputes the amount due, and the write replaces the document. *)
Lemma Order_save_stored (date : Js.Date) (o old : Order) (db : Db) :
  Order_find (o_id o) (orders db) = Some old ->
  orderNumber o = orderNumber old ->
  Numbering.missing (orderNumber o) = false ->
  Order_validate o = true ->
  let o' := set_pricing
              (set_amountDue (total (pricing o) - amountPaid (pricing o))
                             (pricing o)) o in
  Order_save date false o db =
  (set_orders (map (fun x => if (o_id x =? o_id o)%nat then o' else x)
                   (orders db)) db, Val o').
Proof.
  intros Hf Hn Hm Hv. cbv zeta. rewrite Order_save_run.
  unfold Order_valid, Order_required. rewrite Hm, Hv. cbv zeta.
  cbn [negb andb]. unfold orderSchema_pre_save. rewrite Hm.
  unfold Order_write. cbn [o_id set_pricing orderNumber]. rewrite Hf, Hn.
  rewrite Hn in Hm.
  destruct (orderNumber old) as [s |]; [| discriminate].
  cbn [same_number]. rewrite String.eqb_refl. reflexivity.
Qed.



Example cancel_restores_scenario_stock :
  let db2 := fst (cancelOrder 1 100 (Some "changed my mind") Scenario.now
                    Scenario.db1) in
  (inv_quantity <$> products Scenario.db0 !! 1%nat) = Some 10 /\
  (inv_quantity <$> products Scenario.db1 !! 1%nat) = Some 8 /\
  (inv_quantity <$> products db2 !! 1%nat) = Some 10 /\
  (status <$> Order_lookup 100 1 (orders db2)) = Some cancelled /\
  cancelOrder 1 100 None Scenario.now db2 =
    (db2, SendError 400 "Order cannot be cancelled").
Proof. vm_compute. repeat split. Qed.

End CancelClaims.

(** ** Claims on status transitions *)

Section StatusClaims.
Import Doc Handler Model Orders Invoices Props.
Local Open Scope Q_scope.

Lemma Order_lookup_find (id uid : nat) (coll : list Order) (o : Order) :
  Order_lookup id uid coll = Some o -> Order_find (o_id o) coll = Some o.
Proof.
  intros Hl. pose proof (Order_lookup_In _ _ _ _ Hl) as (_ & Hid & _).
  unfold Order_lookup in Hl. rewrite Hid.
  destruct (Order_find id coll) as [x |]; [| discriminate].
  destruct (o_user x =? uid)%nat; [congruence | discriminate].
Qed.

Lemma Order_lookup_replace (id uid : nat) (coll : list Order) (old o : Order) :
  Order_lookup id uid coll = Some old ->
  o_id o = o_id old -> o_user o = o_user old ->
  Order_lookup id uid
    (map (fun x => if (o_id x =? o_id o)%nat then o else x) coll) = Some o.
Proof.
  intros Hl Hid Hu.
  pose proof (Order_lookup_In _ _ _ _ Hl) as (_ & Hid' & Hu').
  pose proof (Order_lookup_find _ _ _ _ Hl) as Hf.
  unfold Order_lookup. rewrite <- Hid', <- Hid.
  rewrite (Order_find_replace o coll old) by (rewrite Hid; exact Hf).
  rewrite Hu, Hu', Nat.eqb_refl. reflexivity.
Qed.

(** The scenario order, delivered, is sent back to processing: the request
    is answered with the order, the new status is stored and the history
    has one more entry. *)
Lemma delivered_order_still_transitions :
  exists o0 db' o',
    Order_lookup 100 1 (orders Scenario.db_delivered) = Some o0 /\
    status o0 = delivered /\
    transitionOrderStatus 1 100 (mkStatusBody processing None None)
      Scenario.now Scenario.db_delivered =
      (db', SendOrder 200 o' "Order status updated") /\
    Order_lookup 100 1 (orders db') = Some o' /\
    status o' = processing /\
    length (history (tracking o')) = S (length (history (tracking o0))).
Proof.
  eexists. eexists. eexists.
  split; [vm_compute; reflexivity |]. split; [reflexivity |].
  split; [vm_compute; reflexivity |]. repeat split.
Qed.

(** C9 (as amended). The status route applies the requested status to a
    stored order whatever its current status, terminal or not: the order is
    saved with the new status, a tracking-history entry is appended exactly
    when the new status differs from the current one, and [delivered]
    stamps the delivery time.  The route has no rejection of its own. *)
Theorem transitionOrderStatus_applies_any_status (uid id : nat)
    (b : StatusBody) (now : Js.Date) (db : Db) (order : Order) :
  Order_lookup id uid (orders db) = Some order ->
  Order_validate order = true ->
  Numbering.missing (orderNumber order) = false ->
  exists db' o',
    transitionOrderStatus uid id b now db =
      (db', SendOrder 200 o' "Order status updated") /\
    Order_lookup id uid (orders db') = Some o' /\
    status o' = sb_status b /\
    (let kept :=
       match sb_tracking b with
       | Some tp => match tp_history tp with
                    | Some h => h
                    | None => history (tracking order)
                    end
       | None => history (tracking order)
       end in
     (sb_status b = status order -> history (tracking o') = kept) /\
     (sb_status b <> status order ->
      exists entry,
        history (tracking o') = (kept ++ [entry])%list /\
        h_status entry = sb_status b /\ h_timestamp entry = now)) /\
    (sb_status b = delivered -> actualDelivery (tracking o') = Some now) /\
    products db' = products db /\ customers db' = customers db.
Proof.
  intros Hl Hv Hm.
  pose proof (Order_lookup_find _ _ _ _ Hl) as Hf.
  pose proof (Order_save_stored now (apply_status b now order) order db
                Hf eq_refl Hm Hv) as Hs.
  cbv zeta in Hs. rewrite transitionOrderStatus_run, Hl, Hs.
  set (o' := set_pricing
               (set_amountDue
                  (total (pricing (apply_status b now order)) -
                   amountPaid (pricing (apply_status b now order)))
                  (pricing (apply_status b now order)))
               (apply_status b now order)).
  eexists. exists o'. split; [reflexivity |].
  split; [exact (Order_lookup_replace id uid (orders db) order o' Hl
                   eq_refl eq_refl) |].
  split; [reflexivity |]. subst o'.
  cbn [tracking set_pricing apply_status products customers set_orders].
  split; [| split; [| split; reflexivity]].
  - split.
    + intros Heq. rewrite Heq.
      replace (OrderStatus_eqb (status order) (status order)) with true
        by (destruct (status order); reflexivity).
      cbn [negb]. destruct (sb_tracking b) as [tp |];
        destruct (OrderStatus_eqb (status order) delivered); reflexivity.
    + intros Hne.
      replace (OrderStatus_eqb (sb_status b) (status order)) with false
        by (destruct (sb_status b), (status order); try reflexivity;
            congruence).
      cbn [negb].
      exists (mkHistoryEntry (sb_status b)
                (or_empty (match sb_tracking b with
                           | Some tp => tp_location tp
                           | None => None
                           end))
                now (or_empty (sb_notes b))).
      split; [| split; reflexivity].
      destruct (sb_tracking b) as [tp |];
        destruct (OrderStatus_eqb (sb_status b) delivered); reflexivity.
  - intros ->. cbn [OrderStatus_eqb].
    destruct (negb _); reflexivity.
Qed.

Lemma transitionOrderStatus_witness :
  exists db' o',
    transitionOrderStatus 1 100 (mkStatusBody processing None None)
      Scenario.now Scenario.db_delivered =
      (db', SendOrder 200 o' "Order status updated") /\
    status o' = processing.
Proof.
  destruct (transitionOrderStatus_applies_any_status 1 100
              (mkStatusBody processing None None) Scenario.now
              Scenario.db_delivered
              (mkOrder 100 1 7 (Some "ORD/2611/0001") (items Scenario.order1)
                 delivered (pricing Scenario.order1)
                 (mkTracking None None (Some Scenario.now)
                    [mkHistoryEntry confirmed "" Scenario.now "";
                     mkHistoryEntry delivered "" Scenario.now ""])
                 None None None))
    as (db' & o' & Hrun & _ & Hst & _).
  - vm_compute. reflexivity.
  - reflexivity.
  - reflexivity.
  - exists db', o'. split; [exact Hrun | exact Hst].
Defined.

(** The scenario of the specification, continued: confirmed, then
    delivered, leaves two history entries on the order created pending. *)
Example scenario_history :
  (history <$> (tracking <$> Order_lookup 100 1 (orders Scenario.db_delivered)))
  = Some [mkHistoryEntry confirmed "" Scenario.now "";
          mkHistoryEntry delivered "" Scenario.now ""].
Proof. vm_compute. reflexivity. Qed.
End StatusClaims.

(** ** Claims on payments *)

Section PaymentClaims.
Import Doc Handler Model Orders Invoices Props.
Local Open Scope Q_scope.

Lemma recordPayment_run (uid id : nat) (b : PaymentBody) (now : Js.Date)
    (db : Db) :
  recordPayment uid id b now db =
  match Invoice_lookup id uid (invoices db) with
  | None => (db, SendError 404 "Invoice not found")
  | Some invoice =>
      match Invoice_save now false (apply_payment b now invoice) db with
      | (db', Val invoice') =>
          (db', SendInvoice 200 invoice' "Payment recorded successfully")
      | (db', Return r) => (db', r)
      | (db', Raise _) => (db', SendError 500 "Failed to record payment")
      end
  end.
Proof.
  unfold recordPayment, try_catch, Invoice_findOne.
  rewrite !bind_run. cbn [get ret].
  destruct (Invoice_lookup _ _ _) as [invoice |]; [| reflexivity].
  rewrite bind_run.
  destruct (Invoice_save now _ _ db) as [db2 [invoice' | r | e]]; reflexivity.
Qed.

Lemma Invoice_lookup_In (id uid : nat) (coll : list Invoice) (i : Invoice) :
  Invoice_lookup id uid coll = Some i ->
  Invoice_find (i_id i) coll = Some i /\ i_id i = id /\ i_user i = uid.
Proof.
  unfold Invoice_lookup, Invoice_find.
  destruct (find _ coll) as [i1 |] eqn:Hf; [| discriminate].
  destruct (i_user i1 =? uid)%nat eqn:Hu; [| discriminate].
  intros [= <-]. pose proof (find_some _ _ Hf) as [_ Hid].
  apply Nat.eqb_eq in Hid, Hu. subst id. auto.
Qed.

Lemma Invoice_find_replace (i : Invoice) (coll : list Invoice) (old : Invoice) :
  Invoice_find (i_id i) coll = Some old ->
  Invoice_find (i_id i)
    (map (fun x => if (i_id x =? i_id i)%nat then i else x) coll) = Some i.
Proof.
  unfold Invoice_find. induction coll as [| x rest IH]; [discriminate |].
  cbn [find map]. destruct (i_id x =? i_id i)%nat eqn:Hx.
  - intros _. rewrite Nat.eqb_refl. reflexivity.
  - rewrite Hx. exact IH.
Qed.

(** Saving a stored invoice whose number is unchanged: the hooks only
    refresh the amount in words, and the write replaces the document. *)
Lemma Invoice_save_stored (date : Js.Date) (i old : Invoice) (db : Db) :
  Invoice_find (i_id i) (invoices db) = Some old ->
  invoiceNumber i = invoiceNumber old ->
  Numbering.missing (invoiceNumber i) = false ->
  let i' := if Js.truthy (i_total i)
            then set_amountInWords (Some (Words.numberToWords (i_total i))) i
            else i in
  Invoice_save date false i db =
  (set_invoices (map (fun x => if (i_id x =? i_id i)%nat then i' else x)
                     (invoices db)) db, Val i').
Proof.
  intros Hf Hn Hm. cbv zeta. rewrite Invoice_save_run.
  unfold Invoice_valid. rewrite Hm. cbn [negb]. cbv zeta.
  unfold invoiceSchema_pre_save. rewrite Hm.
  unfold Invoice_write.
  assert (forall j, i_id (if Js.truthy (i_total i)
                          then set_amountInWords j i else i) = i_id i) as Hid
    by (intros j; destruct (Js.truthy _); reflexivity).
  assert (forall j, invoiceNumber (if Js.truthy (i_total i)
                          then set_amountInWords j i else i) = invoiceNumber i)
    as Hnum by (intros j; destruct (Js.truthy _); reflexivity).
  rewrite Hid, Hnum, Hf, Hn. rewrite Hn in Hm.
  destruct (invoiceNumber old) as [s |]; [| discriminate].
  cbn [same_number]. rewrite String.eqb_refl. reflexivity.
Qed.

(** C3. On a stored invoice with nothing negative paid, a payment of a
    positive amount is recorded: [recordPayment] appends the payment record
    and adds the amount to paidAmount; afterwards paymentDetails.status is
    paid exactly when paidAmount >= pricing.total (then paidDate is stamped,
    on the payment details and on the dates, and the invoice status is
    paid), and it is partial exactly when 0 < paidAmount < pricing.total. *)
Theorem recordPayment_settles (uid id : nat) (b : PaymentBody)
    (now : Js.Date) (db : Db) (invoice : Invoice) :
  Invoice_lookup id uid (invoices db) = Some invoice ->
  Numbering.missing (invoiceNumber invoice) = false ->
  0 <= paidAmount invoice ->
  0 < pb_amount b ->
  exists db' i',
    recordPayment uid id b now db =
      (db', SendInvoice 200 i' "Payment recorded successfully") /\
    Invoice_lookup id uid (invoices db') = Some i' /\
    payments i' =
      (payments invoice ++
       [mkPayment (pb_amount b) (pb_method b) (pb_reference b) (pb_notes b)
                  now])%list /\
    paidAmount i' = paidAmount invoice + pb_amount b /\
    i_total i' = i_total invoice /\
    (pd_status i' = pay_paid <-> i_total i' <= paidAmount i') /\
    (pd_status i' = pay_paid ->
     pd_paidDate i' = Some now /\ dates_paidDate i' = Some now /\
     i_status i' = inv_paid) /\
    (pd_status i' = pay_partial <->
     0 < paidAmount i' /\ paidAmount i' < i_total i').
Proof.
  intros Hl Hm Hpaid Hamount.
  pose proof (Invoice_lookup_In _ _ _ _ Hl) as (Hf & Hid & Hu).
  assert (i_id (apply_payment b now invoice) = i_id invoice) as Hid'
    by (unfold apply_payment; destruct (Qle_bool _ _); reflexivity).
  assert (invoiceNumber (apply_payment b now invoice) = invoiceNumber invoice)
    as Hnum by (unfold apply_payment; destruct (Qle_bool _ _); reflexivity).
  assert (i_user (apply_payment b now invoice) = i_user invoice) as Hu'
    by (unfold apply_payment; destruct (Qle_bool _ _); reflexivity).
  pose proof (Invoice_save_stored now (apply_payment b now invoice) invoice db)
    as Hs. cbv zeta in Hs. rewrite Hid', Hnum in Hs.
  specialize (Hs Hf eq_refl Hm).
  rewrite recordPayment_run, Hl, Hs.
  set (i' := if Js.truthy (i_total (apply_payment b now invoice))
             then set_amountInWords
                    (Some (Words.numberToWords
                             (i_total (apply_payment b now invoice))))
                    (apply_payment b now invoice)
             else apply_payment b now invoice).
  assert (i_id i' = i_id invoice /\ i_user i' = i_user invoice /\
          payments i' = payments (apply_payment b now invoice) /\
          paidAmount i' = paidAmount (apply_payment b now invoice) /\
          i_total i' = i_total (apply_payment b now invoice) /\
          pd_status i' = pd_status (apply_payment b now invoice) /\
          pd_paidDate i' = pd_paidDate (apply_payment b now invoice) /\
          dates_paidDate i' = dates_paidDate (apply_payment b now invoice) /\
          i_status i' = i_status (apply_payment b now invoice))
    as (Ei & Eu & Ep & Ea & Et & Es & Ed & Edd & Eis).
  { subst i'. destruct (Js.truthy _); cbn; rewrite ?Hid', ?Hu'; repeat split. }
  exists (set_invoices
            (map (fun x => if (i_id x =? i_id invoice)%nat then i' else x)
                 (invoices db)) db), i'.
  split; [reflexivity |]. split.
  { cbn [invoices set_invoices]. unfold Invoice_lookup. rewrite <- Hid.
    rewrite <- Ei. rewrite (Invoice_find_replace i' (invoices db) invoice)
      by (rewrite Ei; exact Hf).
    rewrite Eu, Hu, Nat.eqb_refl. reflexivity. }
  rewrite Ep, Ea, Et, Es, Ed, Edd, Eis. unfold apply_payment.
  destruct (Qle_bool (i_total invoice) (paidAmount invoice + pb_amount b))
    eqn:Hq; cbn [payments paidAmount i_total pd_status pd_paidDate
                 dates_paidDate i_status].
  - apply Qle_bool_iff in Hq. repeat split; auto; try discriminate;
      intros; try lra.
  - assert (~ i_total invoice <= paidAmount invoice + pb_amount b) as Hn.
    { intros H. apply Qle_bool_iff in H. congruence. }
    apply Qnot_le_lt in Hn. repeat split; auto; try discriminate;
      intros; try lra.
Qed.

Lemma recordPayment_witness :
  exists db' i',
    recordPayment 1 500 (mkPaymentBody 1230 (Some "upi") None None)
      Scenario.now Scenario.db_invoiced =
      (db', SendInvoice 200 i' "Payment recorded successfully") /\
    (pd_status i' = pay_paid <-> i_total i' <= paidAmount i').
Proof.
  destruct (recordPayment_settles 1 500
              (mkPaymentBody 1230 (Some "upi") None None) Scenario.now
              Scenario.db_invoiced
              (mkInvoice 500 1 (Some "INV/261103/0001") (123000 # 100)
                 (Some "One Thousand Two Hundred Thirty Rupees") pay_pending
                 0 None [] inv_draft None))
    as (db' & i' & Hrun & _ & _ & _ & _ & Hpaid & _).
  - vm_compute. reflexivity.
  - reflexivity.
  - vm_compute. discriminate.
  - vm_compute. reflexivity.
  - exists db', i'. split; [exact Hrun | exact Hpaid].
Defined.

(** Payments accumulate: 230 leaves the invoice partial, the 1000 that
    equals the rest marks it paid and stamps the dates. *)
Example payments_pending_partial_paid :
  let pay a := mkPaymentBody a (Some "upi") None None in
  let db1 := fst (recordPayment 1 500 (pay 230) Scenario.now
                    Scenario.db_invoiced) in
  let db2 := fst (recordPayment 1 500 (pay 1000) Scenario.now db1) in
  (pd_status <$> Invoice_lookup 500 1 (invoices Scenario.db_invoiced))
    = Some pay_pending /\
  (pd_status <$> Invoice_lookup 500 1 (invoices db1)) = Some pay_partial /\
  (pd_status <$> Invoice_lookup 500 1 (invoices db2)) = Some pay_paid /\
  (pd_paidDate <$> Invoice_lookup 500 1 (invoices db2))
    = Some (Some Scenario.now) /\
  (i_status <$> Invoice_lookup 500 1 (invoices db2)) = Some inv_paid.
Proof. vm_compute. repeat split. Qed.
End PaymentClaims.

(** ** Claims on concurrent creation *)

Section ConcurrencyClaims.
Import Doc Handler Model Orders Invoices Props Concurrent.
Local Open Scope Q_scope.

(** The save of a new document run alone is the two steps of the machine,
    one after the other. *)
Lemma Order_save_two_steps (date : Js.Date) (o : Order) (db : Db) :
  Order_save date true o db =
  match run date [0%nat; 0%nat] [Ready o] (orders db) with
  | ([Saved o'], coll) => (set_orders coll db, Val o')
  | ([Failed e], _) => (db, Raise e)
  | _ => (db, Raise DocumentNotFound)
  end.
Proof.
  rewrite Order_save_run. cbn [run lookup list_lookup step].
  destruct (Order_valid o); cbn [negb]; [| reflexivity].
  cbn [insert list_insert run lookup list_lookup step]. cbv zeta.
  destruct (Order_write _ _ (orders db)); reflexivity.
Qed.

Lemma Order_find_app_none (id : nat) (coll l : list Order) :
  Order_find id coll = None ->
  Order_find id (coll ++ l) = Order_find id l.
Proof.
  unfold Order_find. induction coll as [| x rest IH]; [reflexivity |].
  cbn [find app]. destruct (o_id x =? id)%nat; [discriminate | exact IH].
Qed.

Lemma step_unnumbered (date : Js.Date) (o : Order) (coll : list Order) :
  Numbering.missing (orderNumber o) = true ->
  step date (Ready o) coll = (Failed (ValidationError "orderNumber"), coll).
Proof.
  intros Hm. cbn [step]. unfold Order_valid, Order_required. rewrite Hm.
  reflexivity.
Qed.

(** X22. Creates that bring no number, in flight together: under every
    schedule each save is refused by the validation that precedes its hook,
    so the collection stays as it is and no number is issued; a request is
    either still waiting or refused for its missing number. *)
Theorem unnumbered_saves_all_fail (date : Js.Date) (schedule : list nat)
    (threads : list Save) (coll : list Order) :
  Forall (fun t => exists o, t = Ready o /\
                             Numbering.missing (orderNumber o) = true)
         threads ->
  snd (run date schedule threads coll) = coll /\
  issued (fst (run date schedule threads coll)) = [] /\
  Forall (fun t => (exists o, t = Ready o) \/
                   t = Failed (ValidationError "orderNumber"))
         (fst (run date schedule threads coll)).
Proof.
  intros Hall.
  assert (Forall (fun t => (exists o, t = Ready o /\
                                      Numbering.missing (orderNumber o) = true)
                           \/ t = Failed (ValidationError "orderNumber"))
                 threads) as Hinv
    by (eapply List.Forall_impl; [| exact Hall]; intros t Ht; left; exact Ht).
  clear Hall. revert threads Hinv.
  induction schedule as [| tid rest IH]; intros threads Hinv.
  - cbn [run fst snd]. split; [reflexivity |]. split.
    + induction Hinv as [| t l Ht _ IHl]; [reflexivity |].
      cbn [issued flat_map] in *. fold (issued l). rewrite IHl.
      destruct Ht as [(o & -> & _) | ->]; reflexivity.
    + eapply List.Forall_impl; [| exact Hinv].
      intros t [(o & -> & _) | ->]; [left; eauto | right; reflexivity].
  - cbn [run]. destruct (threads !! tid) as [t |] eqn:Ht; [| exact (IH _ Hinv)].
    assert ((exists o, t = Ready o /\
                       Numbering.missing (orderNumber o) = true)
            \/ t = Failed (ValidationError "orderNumber")) as Hcase.
    { exact (Forall_lookup_1 _ _ _ _ Hinv Ht). }
    destruct Hcase as [(o & -> & Hm) | ->].
    + rewrite (step_unnumbered date o coll Hm). apply IH.
      apply Forall_insert; [exact Hinv | right; reflexivity].
    + cbn [step]. apply IH.
      apply Forall_insert; [exact Hinv | right; reflexivity].
Qed.

Lemma unnumbered_saves_all_fail_witness :
  snd (run Scenario.now [1%nat; 0%nat; 0%nat; 1%nat]
         [Ready (Scenario.draft 100); Ready (Scenario.draft 101)] []) = [] /\
  issued (fst (run Scenario.now [1%nat; 0%nat; 0%nat; 1%nat]
                 [Ready (Scenario.draft 100); Ready (Scenario.draft 101)] []))
  = [].
Proof.
  destruct (unnumbered_saves_all_fail Scenario.now
              [1%nat; 0%nat; 0%nat; 1%nat]
              [Ready (Scenario.draft 100); Ready (Scenario.draft 101)] [])
    as (Hcoll & Hissued & _).
  - repeat constructor; eexists; (split; [reflexivity | reflexivity]).
  - split; [exact Hcoll | exact Hissued].
Defined.

(** C5, on the code.  Two creates of one owner on an empty collection,
    neither request bringing a number.  Whether the two saves interleave or
    run one after the other, each is refused by the validation that
    precedes the hook: nothing is stored and no number is issued, where two
    distinct numbers are due. *)
Lemma concurrent_creates_issue_no_number :
  let threads := [Ready (Scenario.draft 100); Ready (Scenario.draft 101)] in
  let refused := [Failed (ValidationError "orderNumber");
                  Failed (ValidationError "orderNumber")] in
  Numbering.missing (orderNumber (Scenario.draft 100)) = true /\
  Numbering.missing (orderNumber (Scenario.draft 101)) = true /\
  run Scenario.now [0%nat; 1%nat; 0%nat; 1%nat] threads [] = (refused, []) /\
  run Scenario.now [0%nat; 0%nat; 1%nat; 1%nat] threads [] = (refused, []) /\
  issued refused = [].
Proof. vm_compute. repeat split. Qed.
End ConcurrencyClaims.

(** ** More on the create route: the aggregate amounts *)

Section CreateOrderMore.
Import Doc Handler Model Orders Invoices Props.
Local Open Scope Q_scope.

(** Everything a create that answers with an order went through. *)
Lemma createOrder_inv (uid : nat) (b : OrderBody) (oid : nat) (now : Js.Date)
    (db db' : Db) (code : nat) (o : Order) (msg : string) :
  createOrder uid b oid now db = (db', SendOrder code o msg) ->
  exists customer db1 sub proc coll,
    Customer_lookup (b_customer b) uid (customers db) = Some customer /\
    process_items (b_items b) 0 [] db = (db1, Val (sub, proc)) /\
    o = orderSchema_pre_save now (Order_countDocuments uid (orders db))
          (new_order oid uid b sub proc) /\
    Order_write true o (orders db) = inr coll /\
    orders db' = coll /\
    products db' = products db1 /\
    customers db' =
      <[c_id customer :=
          customerSchema_pre_save
            (mkCustomer (c_id customer) (c_user customer)
               (totalOrders customer + 1)
               (totalSpent customer + total (pricing o))
               (averageOrderValue customer) (Some now))]> (customers db).
Proof.
  rewrite createOrder_run. intros H.
  destruct (Customer_lookup _ _ _) as [customer |]; [| discriminate].
  destruct (process_items (b_items b) 0 [] db)
    as [db1 [[sub proc] | r | e]] eqn:Hp.
  2: { apply process_items_return in Hp as [m ->]. discriminate. }
  2: discriminate.
  pose proof (process_items_frame _ _ _ _ _ _ Hp) as (Hc & Ho & _).
  rewrite Order_save_run in H.
  destruct (Order_valid _); [| discriminate]. cbv zeta in H.
  destruct (Order_write _ _ (orders db1)) as [e | coll] eqn:Hw;
    [discriminate |].
  injection H as <- <- <- <-.
  exists customer, db1, sub, proc, coll.
  cbn [new_order o_user] in *. rewrite Ho in Hw.
  rewrite Ho. repeat split; auto.
  cbn [customers set_customers set_orders]. rewrite Hc.
  f_equal. unfold customerSchema_pre_save. destruct (_ && _); reflexivity.
Qed.

Lemma fold_left_Qplus_map {A} (f : A -> Q) (l : list A) (a : Q) :
  fold_left (fun s x => s + f x) l a = fold_left Qplus (map f l) a.
Proof.
  revert a. induction l as [| x l IH]; intros a; [reflexivity |].
  cbn [fold_left map]. apply IH.
Qed.

(** The loop copies the discount it priced every line with. *)
Lemma process_items_discounts (its : list ItemInput) :
  forall (sub : Q) (proc : list OrderItem) (db db' : Db) (sub' : Q)
         (proc' : list OrderItem),
    process_items its sub proc db = (db', Val (sub', proc')) ->
    map discount proc' =
    (map discount proc ++
     map (fun item => Js.or_default (in_discount item) 0) its)%list.
Proof.
  induction its as [| item rest IH]; intros sub proc db db' sub' proc' Hrun.
  - injection Hrun as <- <- <-. rewrite app_nil_r. reflexivity.
  - rewrite process_items_cons in Hrun.
    destruct (products db !! in_product item) as [product |];
      [| discriminate].
    cbv zeta in Hrun.
    assert (map discount (proc ++ [line_item product item]) ++
            map (fun item => Js.or_default (in_discount item) 0) rest =
            map discount proc ++
            map (fun item => Js.or_default (in_discount item) 0)
                (item :: rest))%list as Hstep.
    { rewrite map_app, <- app_assoc. reflexivity. }
    destruct (trackInventory product).
    + destruct (Qle_bool 0 _); [| discriminate].
      rewrite (IH _ _ _ _ _ _ Hrun). exact Hstep.
    + rewrite (IH _ _ _ _ _ _ Hrun). exact Hstep.
Qed.

(** X1. For an order the create route answers with, pricing.totalTax is the
    sum of the tax amounts of the stored lines, and pricing.totalDiscount,
    which the route sums over the items of the request, is the sum of the
    discounts of the stored lines; both are added in the order of the
    lines, from 0. *)
Theorem createOrder_pricing_totals (uid : nat) (b : OrderBody) (oid : nat)
    (now : Js.Date) (db db' : Db) (code : nat) (o : Order) (msg : string) :
  createOrder uid b oid now db = (db', SendOrder code o msg) ->
  totalTax (pricing o) = fold_left (fun s it => s + tax_amount it) (items o) 0 /\
  totalDiscount (pricing o) =
    fold_left (fun s it => s + discount it) (items o) 0.
Proof.
  intros H.
  apply createOrder_inv in H
    as (customer & db1 & sub & proc & coll & _ & Hp & -> & _).
  pose proof (process_items_discounts _ _ _ _ _ _ _ Hp) as Hd.
  assert (pricing (orderSchema_pre_save now (Order_countDocuments uid (orders db))
                     (new_order oid uid b sub proc)) =
          set_amountDue
            (total (pricing (new_order oid uid b sub proc)) -
             amountPaid (pricing (new_order oid uid b sub proc)))
            (pricing (new_order oid uid b sub proc))) as ->.
  { unfold orderSchema_pre_save. destruct (Numbering.missing _); reflexivity. }
  rewrite pre_save_items.
  cbn [new_order items pricing set_amountDue totalTax totalDiscount subtotal].
  assert (fold_left (fun sum item => sum + Js.or_default (in_discount item) 0)
                    (b_items b) 0 =
          fold_left (fun s it => s + discount it) proc 0) as Hdisc.
  { rewrite (fold_left_Qplus_map discount), Hd.
    rewrite fold_left_Qplus_map. reflexivity. }
  split; [reflexivity | exact Hdisc].
Qed.

Lemma createOrder_pricing_totals_witness :
  totalTax (pricing Scenario.order1) =
    fold_left (fun s it => s + tax_amount it) (items Scenario.order1) 0 /\
  totalDiscount (pricing Scenario.order1) =
    fold_left (fun s it => s + discount it) (items Scenario.order1) 0.
Proof.
  apply (createOrder_pricing_totals 1 Scenario.body0 100 Scenario.now
           Scenario.db0 Scenario.db1 201 Scenario.order1
           "Order created successfully").
  vm_compute. reflexivity.
Defined.

End CreateOrderMore.

(** ** More on the create route: the customer *)

Section CustomerCounters.
Import Doc Handler Model Orders Invoices Props.
Local Open Scope Q_scope.

Lemma gt0_spec (x : Q) : gt0 x = true <-> 0 < x.
Proof.
  unfold gt0. destruct (Qle_bool x 0) eqn:H; cbn [negb]; split; intros Hx;
    try discriminate; try reflexivity.
  - apply Qle_bool_iff in H. lra.
  - apply Qnot_le_lt. intros Hle. apply Qle_bool_iff in Hle. congruence.
Qed.

(** X2. A create that answers with an order stores the customer with one
    more order, the order's total added to the amount spent and the date of
    the request as the last order date; the average order value is set to
    totalSpent / totalOrders when both are positive and is otherwise left
    as it was.  No other customer is written. *)
Theorem createOrder_updates_customer (uid : nat) (b : OrderBody) (oid : nat)
    (now : Js.Date) (db db' : Db) (code : nat) (o : Order) (msg : string) :
  createOrder uid b oid now db = (db', SendOrder code o msg) ->
  exists customer c',
    Customer_lookup (b_customer b) uid (customers db) = Some customer /\
    customers db' !! c_id customer = Some c' /\
    totalOrders c' = totalOrders customer + 1 /\
    totalSpent c' = totalSpent customer + total (pricing o) /\
    lastOrderDate c' = Some now /\
    (0 < totalOrders c' -> 0 < totalSpent c' ->
     averageOrderValue c' = totalSpent c' / totalOrders c') /\
    (~ (0 < totalOrders c' /\ 0 < totalSpent c') ->
     averageOrderValue c' = averageOrderValue customer) /\
    (forall j, j <> c_id customer -> customers db' !! j = customers db !! j).
Proof.
  intros H.
  apply createOrder_inv in H
    as (customer & db1 & sub & proc & coll & Hc & _ & _ & _ & _ & _ & Hcust).
  set (c0 := mkCustomer (c_id customer) (c_user customer)
               (totalOrders customer + 1)
               (totalSpent customer + total (pricing o))
               (averageOrderValue customer) (Some now)) in Hcust.
  exists customer, (customerSchema_pre_save c0).
  split; [exact Hc |].
  split; [rewrite Hcust; apply lookup_insert_eq |].
  assert (totalOrders (customerSchema_pre_save c0) = totalOrders c0 /\
          totalSpent (customerSchema_pre_save c0) = totalSpent c0 /\
          lastOrderDate (customerSchema_pre_save c0) = lastOrderDate c0)
    as (Eo & Es & El)
    by (unfold customerSchema_pre_save; destruct (_ && _); repeat split).
  rewrite Eo, Es, El.
  split; [reflexivity |]. split; [reflexivity |]. split; [reflexivity |].
  split; [| split].
  - intros Ho Hs. unfold customerSchema_pre_save.
    apply gt0_spec in Ho, Hs. rewrite Ho, Hs. reflexivity.
  - intros Hn. unfold customerSchema_pre_save.
    destruct (gt0 (totalOrders c0) && gt0 (totalSpent c0)) eqn:Hb;
      [| reflexivity].
    apply andb_true_iff in Hb as [Ho Hs]. apply gt0_spec in Ho, Hs.
    exfalso. apply Hn. split; assumption.
  - intros j Hj. rewrite Hcust. apply lookup_insert_ne. congruence.
Qed.

Lemma createOrder_updates_customer_witness :
  exists customer c',
    Customer_lookup 7 1 (customers Scenario.db0) = Some customer /\
    customers Scenario.db1 !! c_id customer = Some c' /\
    totalOrders c' = totalOrders customer + 1.
Proof.
  destruct (createOrder_updates_customer 1 Scenario.body0 100 Scenario.now
              Scenario.db0 Scenario.db1 201 Scenario.order1
              "Order created successfully")
    as (customer & c' & H1 & H2 & H3 & _).
  - vm_compute. reflexivity.
  - exists customer, c'. auto.
Defined.

(** X3. A create for a customer that is not stored, or that belongs to
    another owner, is answered 400 and writes nothing: no product is
    touched, no order is stored. *)
Theorem createOrder_unknown_customer (uid : nat) (b : OrderBody) (oid : nat)
    (now : Js.Date) (db : Db) :
  (customers db !! b_customer b = None \/
   exists c, customers db !! b_customer b = Some c /\ c_user c <> uid) ->
  createOrder uid b oid now db = (db, SendError 400 "Customer not found").
Proof.
  intros H. rewrite createOrder_run. unfold Customer_lookup.
  destruct H as [-> | (c & -> & Hne)]; [reflexivity |].
  apply Nat.eqb_neq in Hne. rewrite Hne. reflexivity.
Qed.

Lemma createOrder_unknown_customer_witness :
  createOrder 2 Scenario.body0 100 Scenario.now Scenario.db0 =
  (Scenario.db0, SendError 400 "Customer not found").
Proof.
  apply createOrder_unknown_customer. right. exists Scenario.shop.
  split; [reflexivity | discriminate].
Defined.


End CustomerCounters.

(** ** Owner scoping of the routes *)

Section OwnerScoping.
Import Doc Handler Model Orders Invoices Props.
Local Open Scope Q_scope.

Lemma Order_lookup_other_owner (id uid : nat) (coll : list Order) :
  (forall o, Order_find id coll = Some o -> o_user o <> uid) ->
  Order_lookup id uid coll = None.
Proof.
  intros H. unfold Order_lookup.
  destruct (Order_find id coll) as [o |] eqn:Hf; [| reflexivity].
  specialize (H o eq_refl). apply Nat.eqb_neq in H. rewrite H. reflexivity.
Qed.

Lemma Invoice_lookup_other_owner (id uid : nat) (coll : list Invoice) :
  (forall i, Invoice_find id coll = Some i -> i_user i <> uid) ->
  Invoice_lookup id uid coll = None.
Proof.
  intros H. unfold Invoice_lookup.
  destruct (Invoice_find id coll) as [i |] eqn:Hf; [| reflexivity].
  specialize (H i eq_refl). apply Nat.eqb_neq in H. rewrite H. reflexivity.
Qed.

(** X4. An order that is not stored, or is stored for another owner, is out
    of reach of the update, status and cancel routes: each answers 404 and
    leaves the store (orders, products, customers) as it is. *)
Theorem order_routes_owner_scoped (uid id : nat) (db : Db) :
  (forall o, Order_find id (orders db) = Some o -> o_user o <> uid) ->
  (forall p now,
      updateOrder uid id p now db = (db, SendError 404 "Order not found")) /\
  (forall b now,
      transitionOrderStatus uid id b now db =
      (db, SendError 404 "Order not found")) /\
  (forall reason now,
      cancelOrder uid id reason now db =
      (db, SendError 404 "Order not found")).
Proof.
  intros H. apply Order_lookup_other_owner in H.
  repeat split; intros.
  - rewrite updateOrder_run, H. reflexivity.
  - rewrite transitionOrderStatus_run, H. reflexivity.
  - rewrite cancelOrder_run, H. reflexivity.
Qed.

Lemma order_routes_owner_scoped_witness :
  cancelOrder 2 100 None Scenario.now Scenario.db1 =
  (Scenario.db1, SendError 404 "Order not found").
Proof.
  refine (proj2 (proj2 (order_routes_owner_scoped 2 100 Scenario.db1 _))
            None Scenario.now).
  intros o Hf. vm_compute in Hf. injection Hf as <-. discriminate.
Defined.

(** X5. A payment on an invoice that is not stored, or is stored for
    another owner, is answered 404 and records nothing. *)
Theorem recordPayment_owner_scoped (uid id : nat) (b : PaymentBody)
    (now : Js.Date) (db : Db) :
  (forall i, Invoice_find id (invoices db) = Some i -> i_user i <> uid) ->
  recordPayment uid id b now db = (db, SendError 404 "Invoice not found").
Proof.
  intros H. apply Invoice_lookup_other_owner in H.
  rewrite recordPayment_run, H. reflexivity.
Qed.

Lemma recordPayment_owner_scoped_witness :
  recordPayment 2 500 (mkPaymentBody 1230 None None None) Scenario.now
    Scenario.db_invoiced =
  (Scenario.db_invoiced, SendError 404 "Invoice not found").
Proof.
  apply recordPayment_owner_scoped.
  intros i Hf. vm_compute in Hf. injection Hf as <-. discriminate.
Defined.

End OwnerScoping.

(** ** Invariants of the order collection *)

Section CollectionInvariants.
Import Doc Handler Model Orders Invoices Props Props2.
Local Open Scope Q_scope.

Lemma Order_find_In (id : nat) (coll : list Order) (o : Order) :
  Order_find id coll = Some o -> In o coll /\ o_id o = id.
Proof.
  unfold Order_find. intros H. apply find_some in H as [Hin Hid].
  apply Nat.eqb_eq in Hid. auto.
Qed.

Lemma Order_find_None (id : nat) (coll : list Order) :
  Order_find id coll = None -> ~ In id (map o_id coll).
Proof.
  unfold Order_find. intros H Hin. apply in_map_iff in Hin as (o & Hid & Hin).
  pose proof (find_none _ _ H o Hin) as Hn. cbv beta in Hn.
  apply Nat.eqb_neq in Hn. congruence.
Qed.

Lemma same_number_sym (a b : option string) :
  same_number a b = same_number b a.
Proof.
  destruct a, b; cbn; try reflexivity. apply String.eqb_sym.
Qed.

Lemma same_number_trans (a b c : option string) :
  same_number a b = true -> same_number b c = true -> same_number a c = true.
Proof.
  destruct a, b, c; cbn; try discriminate.
  intros H1 H2. apply String.eqb_eq in H1, H2. subst. apply String.eqb_refl.
Qed.

Lemma Order_number_taken_false (o : Order) (coll : list Order) (x : Order) :
  Order_number_taken o coll = false -> In x coll ->
  same_number (orderNumber x) (orderNumber o) = true -> o_id x = o_id o.
Proof.
  unfold Order_number_taken. intros Ht Hin Hs.
  destruct (Nat.eq_dec (o_id x) (o_id o)) as [He | Hne]; [exact He |].
  exfalso.
  assert (existsb (fun o' => negb (o_id o' =? o_id o)%nat &&
                             same_number (orderNumber o') (orderNumber o))
                  coll = true) as Hex.
  { apply existsb_exists. exists x. split; [exact Hin |].
    apply Nat.eqb_neq in Hne. rewrite Hne, Hs. reflexivity. }
  congruence.
Qed.

(** The write keeps the stored orders distinct. *)
Lemma Order_write_distinct (isNew : bool) (o : Order)
    (coll coll' : list Order) :
  Order_write isNew o coll = inr coll' ->
  orders_distinct coll -> orders_distinct coll'.
Proof.
  unfold Order_write. intros H [Hids Hnum].
  destruct (Order_find (o_id o) coll) as [old |] eqn:Hf;
    destruct isNew; try discriminate.
  - apply Order_find_In in Hf as [Hold Hoid].
    destruct (same_number (orderNumber old) (orderNumber o)
              || negb (Order_number_taken o coll)) eqn:Hg; [| discriminate].
    injection H as <-.
    assert (forall x, In x coll -> o_id x <> o_id o ->
                      same_number (orderNumber x) (orderNumber o) = true ->
                      False) as Hfree.
    { intros x Hx Hne Hs. apply orb_true_iff in Hg as [Hsame | Hnt].
      - rewrite same_number_sym in Hsame.
        pose proof (same_number_trans _ _ _ Hs Hsame) as Hxo.
        apply Hne. rewrite <- Hoid. exact (Hnum x old Hx Hold Hxo).
      - apply negb_true_iff in Hnt.
        exact (Hne (Order_number_taken_false o coll x Hnt Hx Hs)). }
    split.
    + rewrite map_map.
      replace (map (fun x => o_id (if (o_id x =? o_id o)%nat then o else x)) coll)
        with (map o_id coll); [exact Hids |].
      apply map_ext. intros x. destruct (o_id x =? o_id o)%nat eqn:Hx;
        [apply Nat.eqb_eq in Hx; congruence | reflexivity].
    + intros a b Ha Hb Hs.
      apply in_map_iff in Ha as (x & <- & Hx).
      apply in_map_iff in Hb as (y & <- & Hy).
      destruct (o_id x =? o_id o)%nat eqn:Ex;
        destruct (o_id y =? o_id o)%nat eqn:Ey; try reflexivity.
      * apply Nat.eqb_neq in Ey. exfalso. rewrite same_number_sym in Hs.
        exact (Hfree y Hy Ey Hs).
      * apply Nat.eqb_neq in Ex. exfalso. exact (Hfree x Hx Ex Hs).
      * exact (Hnum x y Hx Hy Hs).
  - destruct (Order_number_taken o coll) eqn:Ht; [discriminate |].
    injection H as <-. split.
    + rewrite map_app. cbn [map]. apply NoDup_app. split; [exact Hids |].
      split; [| apply NoDup_singleton].
      intros i Hi Hi'. apply list_elem_of_In in Hi.
      apply list_elem_of_In in Hi'. destruct Hi' as [<- | []].
      exact (Order_find_None _ _ Hf Hi).
    + intros a b Ha Hb Hs.
      apply in_app_or in Ha as [Ha | [<- | []]];
        apply in_app_or in Hb as [Hb | [<- | []]].
      * exact (Hnum a b Ha Hb Hs).
      * exact (Order_number_taken_false o coll a Ht Ha Hs).
      * rewrite same_number_sym in Hs. symmetry.
        exact (Order_number_taken_false o coll b Ht Hb Hs).
      * reflexivity.
Qed.

(** A property of the collection that every write keeps is kept by every
    route, whatever it answers. *)
Lemma routes_keep_collection (I : list Order -> Prop) :
  (forall isNew o coll coll',
      Order_write isNew o coll = inr coll' -> I coll -> I coll') ->
  forall db, I (orders db) ->
    (forall uid b oid now, I (orders (fst (createOrder uid b oid now db)))) /\
    (forall uid id p now, I (orders (fst (updateOrder uid id p now db)))) /\
    (forall uid id b now,
        I (orders (fst (transitionOrderStatus uid id b now db)))) /\
    (forall uid id reason now,
        I (orders (fst (cancelOrder uid id reason now db)))).
Proof.
  intros Hw db HI.
  assert (forall date isNew o db1 db2 (r : Result Order),
             I (orders db1) -> Order_save date isNew o db1 = (db2, r) ->
             I (orders db2)) as Hsave.
  { intros date isNew o db1 db2 r H1 Hs. rewrite Order_save_run in Hs.
    destruct (Order_valid o); [| injection Hs as <- <-; exact H1].
    cbv zeta in Hs.
    destruct (Order_write _ _ (orders db1)) as [e | coll] eqn:Hwr;
      injection Hs as <- <-; [exact H1 |].
    exact (Hw _ _ _ _ Hwr H1). }
  repeat split; intros.
  - rewrite createOrder_run.
    destruct (Customer_lookup _ _ _) as [customer |]; [| exact HI].
    destruct (process_items (b_items b) 0 [] db)
      as [db1 [[sub proc] | r | e]] eqn:Hp;
      pose proof (process_items_frame _ _ _ _ _ _ Hp) as (_ & Ho & _);
      try (cbn [fst]; rewrite Ho; exact HI).
    rewrite <- Ho in HI.
    destruct (Order_save now _ _ db1) as [db2 [order | r | e]] eqn:Hs;
      cbv zeta; cbn [fst set_customers orders]; exact (Hsave _ _ _ _ _ _ HI Hs).
  - rewrite updateOrder_run.
    destruct (Order_lookup id uid (orders db)) as [order |]; [| exact HI].
    destruct (Order_save now _ _ db) as [db2 [order' | r | e]] eqn:Hs;
      cbn [fst]; exact (Hsave _ _ _ _ _ _ HI Hs).
  - rewrite transitionOrderStatus_run.
    destruct (Order_lookup id uid (orders db)) as [order |]; [| exact HI].
    destruct (Order_save now _ _ db) as [db2 [order' | r | e]] eqn:Hs;
      cbn [fst]; exact (Hsave _ _ _ _ _ _ HI Hs).
  - rewrite cancelOrder_run.
    destruct (Order_lookup id uid (orders db)) as [order |]; [| exact HI].
    destruct (_ || _); [exact HI |].
    destruct (restore_inventory (items order) db) as [db1 [[] | r | e]] eqn:Hr;
      pose proof (restore_inventory_frame _ _ _ _ Hr) as (_ & Hsame & _);
      try (cbn [fst]; rewrite Hsame; exact HI).
    rewrite <- Hsame in HI.
    destruct (Order_save now _ _ db1) as [db2 [order' | r | e]] eqn:Hs;
      cbn [fst]; exact (Hsave _ _ _ _ _ _ HI Hs).
Qed.

(** X6. Distinct stays distinct: from a collection where no [_id] is stored
    twice and no two orders share a number, the create, update, status and
    cancel routes, whatever they answer, lead to a collection of the same
    kind. *)
Theorem routes_keep_orders_distinct (db : Db) :
  orders_distinct (orders db) ->
  (forall uid b oid now,
      orders_distinct (orders (fst (createOrder uid b oid now db)))) /\
  (forall uid id p now,
      orders_distinct (orders (fst (updateOrder uid id p now db)))) /\
  (forall uid id b now,
      orders_distinct (orders (fst (transitionOrderStatus uid id b now db)))) /\
  (forall uid id reason now,
      orders_distinct (orders (fst (cancelOrder uid id reason now db)))).
Proof.
  apply routes_keep_collection. exact Order_write_distinct.
Qed.

Lemma routes_keep_orders_distinct_witness :
  orders_distinct (orders (fst (createOrder 1 Scenario.body0 101 Scenario.now
                                  Scenario.db1))).
Proof.
  refine (proj1 (routes_keep_orders_distinct Scenario.db1 _) 1%nat
            Scenario.body0 101%nat Scenario.now).
  split.
  - vm_compute. apply NoDup_singleton.
  - intros a b [<- | []] [<- | []] _. reflexivity.
Defined.

End CollectionInvariants.

(** ** The snapshot of an order, and creates without a number *)

Section SnapshotAndNumber.
Import Doc Handler Model Orders Invoices Props Props2.
Local Open Scope Q_scope.

Lemma pre_save_snapshot (date : Js.Date) (count : N) (o : Order) :
  Numbering.missing (orderNumber o) = false ->
  same_snapshot o (orderSchema_pre_save date count o) /\
  status (orderSchema_pre_save date count o) = status o /\
  tracking (orderSchema_pre_save date count o) = tracking o.
Proof.
  intros Hm. unfold orderSchema_pre_save, same_snapshot. rewrite Hm.
  cbn. repeat split.
Qed.

Lemma restore_inventory_no_return (its : list OrderItem) :
  forall (db db' : Db) (r : Reply),
    restore_inventory its db <> (db', Return r).
Proof.
  induction its as [| it rest IH]; intros db db' r Hx; [discriminate |].
  rewrite restore_inventory_cons in Hx.
  destruct (products db !! it_product it) as [p |]; [| exact (IH _ _ _ Hx)].
  destruct (trackInventory p); [| exact (IH _ _ _ Hx)].
  destruct (Qle_bool 0 _); [exact (IH _ _ _ Hx) | discriminate].
Qed.

(** X7. A status change or a cancel leaves the snapshot of a stored order
    alone: the saved order has the same [_id], owner, customer, number and
    line items, and the same subtotal, discount, tax, shipping, packaging,
    total and amount paid. *)
Theorem status_and_cancel_keep_snapshot (uid id : nat) (db : Db)
    (order : Order) :
  Order_lookup id uid (orders db) = Some order ->
  Numbering.missing (orderNumber order) = false ->
  (forall b now db' code o' msg,
      transitionOrderStatus uid id b now db = (db', SendOrder code o' msg) ->
      same_snapshot order o') /\
  (forall reason now db' code o' msg,
      cancelOrder uid id reason now db = (db', SendOrder code o' msg) ->
      same_snapshot order o').
Proof.
  intros Hl Hm. split.
  - intros b now db' code o' msg H.
    rewrite transitionOrderStatus_run, Hl, Order_save_run in H.
    destruct (Order_valid _); [| discriminate]. cbv zeta in H.
    destruct (Order_write _ _ (orders db)); [discriminate |].
    injection H as _ _ <- _.
    exact (proj1 (pre_save_snapshot now _ (apply_status b now order) Hm)).
  - intros reason now db' code o' msg H.
    rewrite cancelOrder_run, Hl in H.
    destruct (_ || _); [discriminate |].
    destruct (restore_inventory (items order) db) as [db1 [[] | r | e]] eqn:Hr.
    2: { exfalso. exact (restore_inventory_no_return _ _ _ _ Hr). }
    2: discriminate.
    rewrite Order_save_run in H.
    destruct (Order_valid _); [| discriminate]. cbv zeta in H.
    destruct (Order_write _ _ (orders db1)); [discriminate |].
    injection H as _ _ <- _.
    exact (proj1 (pre_save_snapshot now _ (mark_cancelled reason now order) Hm)).
Qed.

Lemma status_and_cancel_keep_snapshot_witness :
  exists db' o',
    cancelOrder 1 100 None Scenario.now Scenario.db1 =
      (db', SendOrder 200 o' "Order cancelled successfully") /\
    same_snapshot Scenario.order1 o'.
Proof.
  eexists. eexists. split; [vm_compute; reflexivity |].
  refine (proj2 (status_and_cancel_keep_snapshot 1 100 Scenario.db1
                   Scenario.order1 _ _) None Scenario.now _ 200%nat _
            "Order cancelled successfully" _).
  - reflexivity.
  - reflexivity.
  - vm_compute. reflexivity.
Defined.

(** X8. A create that brings no number of its own never stores an order:
    whatever the request and the store, the route answers with an error,
    400 or 500, and the orders and the customers are left as they were.
    The numbering hook cannot help: validation comes before it. *)
Theorem createOrder_requires_number (uid : nat) (b : OrderBody) (oid : nat)
    (now : Js.Date) (db : Db) :
  Numbering.missing (b_orderNumber b) = true ->
  exists code msg,
    snd (createOrder uid b oid now db) = SendError code msg /\
    (code = 400%nat \/ code = 500%nat) /\
    orders (fst (createOrder uid b oid now db)) = orders db /\
    customers (fst (createOrder uid b oid now db)) = customers db.
Proof.
  intros Hm. rewrite createOrder_run.
  destruct (Customer_lookup _ _ _) as [customer |];
    [| exists 400%nat, "Customer not found"; cbn [fst snd]; auto].
  destruct (process_items (b_items b) 0 [] db)
    as [db1 [[sub proc] | r | e]] eqn:Hp;
    pose proof (process_items_frame _ _ _ _ _ _ Hp) as (Hc & Ho & _).
  - rewrite Order_save_run. unfold Order_valid, Order_required.
    cbn [new_order orderNumber]. rewrite Hm. cbn [negb andb fst snd].
    exists 500%nat, "Failed to create order". auto.
  - apply process_items_return in Hp as [m ->].
    exists 400%nat, m. cbn [fst snd]. auto.
  - exists 500%nat, "Failed to create order". cbn [fst snd]. auto.
Qed.

Lemma createOrder_requires_number_witness :
  snd (createOrder 1 Scenario.body_unnumbered 100 Scenario.now Scenario.db0)
  = SendError 500 "Failed to create order" /\
  orders (fst (createOrder 1 Scenario.body_unnumbered 100 Scenario.now
                 Scenario.db0)) = [].
Proof.
  destruct (createOrder_requires_number 1 Scenario.body_unnumbered 100
              Scenario.now Scenario.db0 eq_refl)
    as (code & msg & Hr & _ & Ho & _).
  split; [vm_compute; reflexivity | exact Ho].
Defined.

End SnapshotAndNumber.

(** ** Create, then cancel: the catalogue comes back *)

Section StockRoundTrip.
Import Doc Handler Model Orders Invoices Props Props2.
Local Open Scope Q_scope.

Lemma same_entry_set (q : Q) (p : Product) :
  same_entry p (set_inv_quantity q p).
Proof. repeat split. Qed.

Lemma same_entry_trans (p1 p2 p3 : Product) :
  same_entry p1 p2 -> same_entry p2 p3 -> same_entry p1 p3.
Proof.
  unfold same_entry. intros (A1 & A2 & A3 & A4 & A5 & A6)
                            (B1 & B2 & B3 & B4 & B5 & B6).
  repeat split; congruence.
Qed.

Lemma stock_changed_nil (op : Q -> Q -> Q) (m : gmap nat Product) :
  stock_changed (fun id => applied op id []) m m.
Proof.
  intros id. destruct (m !! id) as [p |] eqn:Hl; [| reflexivity].
  exists p. split; [reflexivity |]. split; [repeat split |].
  cbn [applied fold_left]. destruct (trackInventory p); reflexivity.
Qed.

(** One tracked line, then the rest. *)
Lemma stock_changed_step (op : Q -> Q -> Q) (x : Q) (k : nat) (p : Product)
    (lines : list (nat * Q)) (m m' : gmap nat Product) :
  m !! k = Some p -> trackInventory p = true ->
  stock_changed (fun id => applied op id lines)
    (<[k := set_inv_quantity (op (inv_quantity p) x) p]> m) m' ->
  stock_changed (fun id => applied op id ((k, x) :: lines)) m m'.
Proof.
  intros Hl Ht Hrest id. specialize (Hrest id).
  destruct (decide (k = id)) as [<- | Hne].
  - rewrite lookup_insert_eq in Hrest. rewrite Hl.
    destruct Hrest as (p' & Hp' & Hs & Hq).
    exists p'. split; [exact Hp' |].
    split; [exact (same_entry_trans _ _ _ (same_entry_set _ p) Hs) |].
    rewrite Hq, Ht. cbn [set_inv_quantity trackInventory inv_quantity].
    rewrite Ht. unfold applied. cbn [fold_left fst snd].
    rewrite Nat.eqb_refl. reflexivity.
  - rewrite lookup_insert_ne in Hrest by exact Hne.
    destruct (m !! id) as [p0 |]; [| exact Hrest].
    destruct Hrest as (p' & Hp' & Hs & Hq).
    exists p'. split; [exact Hp' |]. split; [exact Hs |].
    rewrite Hq. unfold applied. cbn [fold_left fst snd].
    apply Nat.eqb_neq in Hne. rewrite Hne. reflexivity.
Qed.

(** One line of a product that is not tracked, or not stored, then the
    rest. *)
Lemma stock_changed_skip (op : Q -> Q -> Q) (x : Q) (k : nat)
    (lines : list (nat * Q)) (m m' : gmap nat Product) :
  (forall p, m !! k = Some p -> trackInventory p = false) ->
  stock_changed (fun id => applied op id lines) m m' ->
  stock_changed (fun id => applied op id ((k, x) :: lines)) m m'.
Proof.
  intros Hu Hrest id. specialize (Hrest id).
  destruct (m !! id) as [p0 |] eqn:Hl; [| exact Hrest].
  destruct Hrest as (p' & Hp' & Hs & Hq).
  exists p'. split; [exact Hp' |]. split; [exact Hs |].
  rewrite Hq. unfold applied. cbn [fold_left fst snd].
  destruct (k =? id)%nat eqn:He.
  - apply Nat.eqb_eq in He. subst id. rewrite (Hu p0 Hl). reflexivity.
  - reflexivity.
Qed.

Lemma keys_match_insert (m : gmap nat Product) (p : Product) (q : Q) :
  keys_match m ->
  keys_match (<[p_id p := set_inv_quantity q p]> m).
Proof.
  intros Hk id p0. destruct (decide (p_id p = id)) as [<- | Hne].
  - rewrite lookup_insert_eq. intros [= <-]. reflexivity.
  - rewrite lookup_insert_ne by exact Hne. apply Hk.
Qed.

(** What the item loop of a create did to the catalogue when it ran to the
    end: it took the quantity of every line from its product when tracked,
    line after line, and the lines it built name the products and
    quantities of the request. *)
Lemma process_items_stock (its : list ItemInput) :
  forall (sub : Q) (proc : list OrderItem) (db db' : Db) (sub' : Q)
         (proc' : list OrderItem),
    keys_match (products db) ->
    process_items its sub proc db = (db', Val (sub', proc')) ->
    keys_match (products db') /\
    stock_changed
      (fun id => taken id (map (fun i => (in_product i, in_quantity i)) its))
      (products db) (products db') /\
    map (fun it => (it_product it, quantity it)) proc' =
    (map (fun it => (it_product it, quantity it)) proc ++
     map (fun i => (in_product i, in_quantity i)) its)%list.
Proof.
  induction its as [| item rest IH]; intros sub proc db db' sub' proc' Hk Hrun.
  - injection Hrun as <- <- <-. rewrite app_nil_r.
    split; [exact Hk |]. split; [apply stock_changed_nil | reflexivity].
  - rewrite process_items_cons in Hrun.
    destruct (products db !! in_product item) as [product |] eqn:Hl;
      [| discriminate].
    cbv zeta in Hrun. pose proof (Hk _ _ Hl) as Hid.
    assert (map (fun it => (it_product it, quantity it))
                (proc ++ [line_item product item]) ++
            map (fun i => (in_product i, in_quantity i)) rest =
            map (fun it => (it_product it, quantity it)) proc ++
            map (fun i => (in_product i, in_quantity i)) (item :: rest))%list
      as Hlines.
    { rewrite map_app, <- app_assoc. cbn [map app line_item it_product quantity].
      rewrite Hid. reflexivity. }
    destruct (trackInventory product) eqn:Ht.
    + destruct (Qle_bool 0 _); [| discriminate].
      apply IH in Hrun as (Hk' & Hm & Hp);
        [| cbn [products set_products]; apply keys_match_insert; exact Hk].
      split; [exact Hk' |]. split; [| rewrite Hp; exact Hlines].
      cbn [map]. unfold taken.
      apply (stock_changed_step Qminus _ _ product); [exact Hl | exact Ht |].
      cbn [products set_products] in Hm. rewrite Hid in Hm. exact Hm.
    + apply IH in Hrun as (Hk' & Hm & Hp); [| exact Hk].
      split; [exact Hk' |]. split; [| rewrite Hp; exact Hlines].
      cbn [map]. unfold taken. apply stock_changed_skip; [| exact Hm].
      intros p Hp0. rewrite Hl in Hp0. injection Hp0 as <-. exact Ht.
Qed.

(** What the restore loop of a cancel did to the catalogue when it ran to
    the end: it gave the quantity of every line back to its product when
    tracked, line after line. *)
Lemma restore_inventory_stock (its : list OrderItem) :
  forall db db' : Db,
    keys_match (products db) ->
    restore_inventory its db = (db', Val tt) ->
    stock_changed
      (fun id => given id (map (fun it => (it_product it, quantity it)) its))
      (products db) (products db').
Proof.
  induction its as [| item rest IH]; intros db db' Hk Hrun.
  - injection Hrun as <-. apply stock_changed_nil.
  - rewrite restore_inventory_cons in Hrun. cbn [map]. unfold given.
    destruct (products db !! it_product item) as [product |] eqn:Hl.
    2: { apply stock_changed_skip; [| exact (IH _ _ Hk Hrun)].
         intros p Hp. rewrite Hl in Hp. discriminate. }
    pose proof (Hk _ _ Hl) as Hid.
    destruct (trackInventory product) eqn:Ht.
    + destruct (Qle_bool 0 _); [| discriminate].
      apply IH in Hrun;
        [| cbn [products set_products]; apply keys_match_insert; exact Hk].
      apply (stock_changed_step Qplus _ _ product); [exact Hl | exact Ht |].
      cbn [products set_products] in Hrun. rewrite Hid in Hrun. exact Hrun.
    + apply stock_changed_skip; [| exact (IH _ _ Hk Hrun)].
      intros p Hp. rewrite Hl in Hp. injection Hp as <-. exact Ht.
Qed.

Lemma Order_write_find (isNew : bool) (o : Order) (coll coll' : list Order) :
  Order_write isNew o coll = inr coll' -> Order_find (o_id o) coll' = Some o.
Proof.
  unfold Order_write.
  destruct (Order_find (o_id o) coll) as [old |] eqn:Hf;
    destruct isNew; try discriminate.
  - destruct (_ || _); [| discriminate]. intros [= <-].
    exact (Order_find_replace o coll old Hf).
  - destruct (Order_number_taken o coll); [discriminate |]. intros [= <-].
    rewrite Order_find_app_none by exact Hf.
    unfold Order_find. cbn [find]. rewrite Nat.eqb_refl. reflexivity.
Qed.

(** X9. Cancelling the order a create has just stored gives back what the
    create took, line by line: if every product is stored under its own
    [_id], then after a create and a cancel of the created order that both
    go through, no product has appeared or disappeared, every product is
    the one it was but for its quantity, and the quantity of a tracked
    product is the one it had with the quantities of its lines subtracted
    in turn and then added in turn (the quantity it had, when the sums are
    exact); the quantity of a product that is not tracked is untouched. *)
Theorem cancel_after_create_restores_stock (uid : nat) (b : OrderBody)
    (oid : nat) (now now2 : Js.Date) (reason : option string)
    (db db1 db2 : Db) (c1 c2 : nat) (o o2 : Order) (m1 m2 : string) :
  keys_match (products db) ->
  createOrder uid b oid now db = (db1, SendOrder c1 o m1) ->
  cancelOrder uid oid reason now2 db1 = (db2, SendOrder c2 o2 m2) ->
  let lines := map (fun i => (in_product i, in_quantity i)) (b_items b) in
  forall id,
    match products db !! id with
    | Some p =>
        exists p2,
          products db2 !! id = Some p2 /\ same_entry p p2 /\
          inv_quantity p2 =
            if trackInventory p
            then given id lines (taken id lines (inv_quantity p))
            else inv_quantity p
    | None => products db2 !! id = None
    end.
Proof.
  intros Hk Hc Hx lines id. subst lines.
  apply createOrder_inv in Hc
    as (cu & dba & sub & proc & coll & _ & Hp & Ho & Hw & Hcoll & Hprod & _).
  apply process_items_stock in Hp as (Hk1 & Hm1 & Hlines); [| exact Hk].
  cbn [map app] in Hlines. rewrite <- Hprod in Hk1, Hm1.
  assert (o_id o = oid /\ o_user o = uid /\ items o = proc) as (Hoid & Hou & Hit).
  { rewrite Ho, pre_save_id, pre_save_items. repeat split.
    unfold orderSchema_pre_save. destruct (Numbering.missing _); reflexivity. }
  apply Order_write_find in Hw. rewrite Hoid, <- Hcoll in Hw.
  rewrite cancelOrder_run in Hx. unfold Order_lookup in Hx.
  rewrite Hw, Hou, Nat.eqb_refl in Hx.
  destruct (_ || _); [discriminate |].
  destruct (restore_inventory (items o) db1) as [dbr [[] | r | e]] eqn:Hr.
  2: { exfalso. exact (restore_inventory_no_return _ _ _ _ Hr). }
  2: discriminate.
  destruct (Order_save now2 _ _ dbr) as [dbs [os | r | e]] eqn:Hs;
    try discriminate.
  2: { exfalso. rewrite Order_save_run in Hs.
       destruct (Order_valid _); [| discriminate]. cbv zeta in Hs.
       destruct (Order_write _ _ _); discriminate. }
  injection Hx as <- _ _ _.
  apply Order_save_frame in Hs as (_ & Hsame & _).
  apply restore_inventory_stock in Hr; [| exact Hk1].
  rewrite Hit, Hlines, <- Hsame in Hr.
  specialize (Hm1 id). specialize (Hr id).
  destruct (products db !! id) as [p |].
  - destruct Hm1 as (p1 & Hp1 & Hs1 & Aq).
    rewrite Hp1 in Hr.
    destruct Hr as (p2 & Hp2 & Hs2 & Bq).
    exists p2. split; [exact Hp2 |].
    split; [exact (same_entry_trans _ _ _ Hs1 Hs2) |].
    rewrite Bq, Aq.
    destruct Hs1 as (_ & _ & _ & _ & _ & ->).
    destruct (trackInventory p); reflexivity.
  - rewrite Hm1 in Hr. exact Hr.
Qed.

Lemma cancel_after_create_restores_stock_witness :
  exists db2 p2,
    fst (cancelOrder 1 100 None Scenario.now Scenario.db1) = db2 /\
    products db2 !! 1%nat = Some p2 /\
    inv_quantity p2 = given 1 [(1%nat, 2)] (taken 1 [(1%nat, 2)] 10) /\
    inv_quantity p2 == 10.
Proof.
  pose proof (cancel_after_create_restores_stock 1 Scenario.body0 100
                Scenario.now Scenario.now None Scenario.db0 Scenario.db1)
    as H.
  specialize (H (fst (cancelOrder 1 100 None Scenario.now Scenario.db1))
                201%nat 200%nat Scenario.order1
                (set_pricing (pricing Scenario.order1)
                   (mark_cancelled None Scenario.now Scenario.order1))
                "Order created successfully" "Order cancelled successfully").
  assert (keys_match (products Scenario.db0)) as Hk.
  { intros id p. unfold Scenario.db0. cbn [products].
    intros [<- <-]%lookup_singleton_Some. reflexivity. }
  specialize (H Hk).
  assert (createOrder 1 Scenario.body0 100 Scenario.now Scenario.db0 =
          (Scenario.db1, SendOrder 201 Scenario.order1
                           "Order created successfully")) as Hc
    by (vm_compute; reflexivity).
  specialize (H Hc).
  assert (cancelOrder 1 100 None Scenario.now Scenario.db1 =
          (fst (cancelOrder 1 100 None Scenario.now Scenario.db1),
           SendOrder 200
             (set_pricing (pricing Scenario.order1)
                (mark_cancelled None Scenario.now Scenario.order1))
             "Order cancelled successfully")) as Hx
    by (vm_compute; reflexivity).
  specialize (H Hx). cbv zeta in H. specialize (H 1%nat).
  change (products Scenario.db0 !! 1%nat) with (Some Scenario.widget) in H.
  destruct H as (p2 & Hp2 & _ & Hq).
  eexists. exists p2. split; [reflexivity |]. split; [exact Hp2 |].
  split; [exact Hq |]. rewrite Hq. vm_compute. reflexivity.
Defined.
End StockRoundTrip.

(** ** More on payments *)

Section PaymentsMore.
Import Doc Handler Model Orders Invoices Props Props2.
Local Open Scope Q_scope.

(** The hooks of the invoice touch the number and the words only. *)
Lemma invoice_pre_save_keeps (date : Js.Date) (count : N) (i : Invoice) :
  let i' := invoiceSchema_pre_save date count i in
  i_id i' = i_id i /\ i_user i' = i_user i /\ i_total i' = i_total i /\
  pd_status i' = pd_status i /\ paidAmount i' = paidAmount i /\
  pd_paidDate i' = pd_paidDate i /\ payments i' = payments i /\
  i_status i' = i_status i /\ dates_paidDate i' = dates_paidDate i.
Proof.
  cbv zeta. unfold invoiceSchema_pre_save.
  destruct (Numbering.missing (invoiceNumber i));
    cbn [set_invoiceNumber i_total]; destruct (Js.truthy (i_total i));
    cbn; repeat split.
Qed.

Lemma recordPayment_inv (uid id : nat) (b : PaymentBody) (now : Js.Date)
    (db db' : Db) (invoice i' : Invoice) (code : nat) (msg : string) :
  Invoice_lookup id uid (invoices db) = Some invoice ->
  recordPayment uid id b now db = (db', SendInvoice code i' msg) ->
  i' = invoiceSchema_pre_save now
         (Invoice_countDocuments (i_user (apply_payment b now invoice))
            (invoices db))
         (apply_payment b now invoice).
Proof.
  intros Hl H. rewrite recordPayment_run, Hl, Invoice_save_run in H.
  destruct (Invoice_valid _); [| discriminate].
  cbv zeta in H. destruct (Invoice_write _ _ (invoices db)); [discriminate |].
  injection H as _ _ <- _. reflexivity.
Qed.

(** X10. A payment that leaves the invoice short of its total marks the
    payment status partial and touches nothing else of the settlement: the
    invoice status and the two paid dates stay as they were.  So a negative
    amount recorded on a paid invoice leaves an invoice whose status is
    still paid while its payment status is partial. *)
Theorem short_payment_keeps_invoice_status (uid id : nat) (b : PaymentBody)
    (now : Js.Date) (db db' : Db) (invoice i' : Invoice) (code : nat)
    (msg : string) :
  Invoice_lookup id uid (invoices db) = Some invoice ->
  recordPayment uid id b now db = (db', SendInvoice code i' msg) ->
  paidAmount invoice + pb_amount b < i_total invoice ->
  pd_status i' = pay_partial /\
  i_status i' = i_status invoice /\
  pd_paidDate i' = pd_paidDate invoice /\
  dates_paidDate i' = dates_paidDate invoice.
Proof.
  intros Hl H Hshort.
  rewrite (recordPayment_inv _ _ _ _ _ _ _ _ _ _ Hl H).
  pose proof (invoice_pre_save_keeps now
                (Invoice_countDocuments (i_user (apply_payment b now invoice))
                   (invoices db))
                (apply_payment b now invoice)) as K.
  cbv zeta in K. destruct K as (_ & _ & _ & -> & _ & -> & _ & -> & ->).
  unfold apply_payment.
  destruct (Qle_bool (i_total invoice) (paidAmount invoice + pb_amount b))
    eqn:Hq.
  - apply Qle_bool_iff in Hq. lra.
  - cbn. repeat split.
Qed.

Lemma short_payment_witness :
  pd_status Scenario2.invoice_refunded = pay_partial /\
  i_status Scenario2.invoice_refunded = inv_paid.
Proof.
  destruct (short_payment_keeps_invoice_status 1 500
              (mkPaymentBody (-230) None None None) Scenario.now
              Scenario2.db_paid (fst Scenario2.refunded)
              Scenario2.invoice_paid Scenario2.invoice_refunded 200
              "Payment recorded successfully") as (H1 & H2 & _).
  - vm_compute. reflexivity.
  - vm_compute. reflexivity.
  - vm_compute. reflexivity.
  - split; [exact H1 | exact H2].
Defined.

End PaymentsMore.

(** ** Edges of the amount in words *)

Section WordsEdges.
Import Doc Handler Model Orders Invoices Props Props2.
Local Open Scope Z_scope.
Import Words.

Lemma append_assoc (s t u : string) : (s +:+ t) +:+ u = s +:+ t +:+ u.
Proof.
  induction s as [| c s IH]; [reflexivity |].
  change (String c ((s +:+ t) +:+ u) = String c (s +:+ t +:+ u)).
  f_equal. exact IH.
Qed.

Lemma Qfloor_neg (x : Q) : (x < 0)%Q -> Qfloor x < 0.
Proof.
  intros Hx. pose proof (Qfloor_le x) as Hf.
  assert (inject_Z (Qfloor x) < inject_Z 0)%Q as Hlt
    by (change (inject_Z 0) with 0%Q; lra).
  rewrite <- Zlt_Qlt in Hlt. exact Hlt.
Qed.

Lemma Qfloor_between (x : Q) (z : Z) :
  (inject_Z z <= x)%Q -> (x < inject_Z (z + 1))%Q -> Qfloor x = z.
Proof.
  intros Hlo Hhi.
  pose proof (Qfloor_le x) as H1. pose proof (Qlt_floor x) as H2.
  assert (inject_Z (Qfloor x) < inject_Z (z + 1))%Q as A by lra.
  assert (inject_Z z < inject_Z (Qfloor x + 1))%Q as B by lra.
  rewrite <- Zlt_Qlt in A, B. lia.
Qed.

Lemma numToWords_negative (n : Z) : n < 0 -> numToWords n = "undefined".
Proof.
  intros Hn. rewrite numToWords_unfold. unfold numToWords_body, index.
  destruct (Z.ltb_spec n 20); [| lia].
  destruct (Z.ltb_spec n 0); [reflexivity | lia].
Qed.

(** X11. A negative amount has no words: the rupee part reads "undefined".
    The hook of the invoice skips a total of zero only, so an invoice saved
    with a negative total gets an amount in words that starts "undefined
    Rupees". *)
Theorem negative_total_in_words (date : Js.Date) (count : N) (i : Invoice) :
  (i_total i < 0)%Q ->
  exists rest,
    amountInWords (invoiceSchema_pre_save date count i) =
    Some ("undefined Rupees" +:+ rest).
Proof.
  intros Hneg.
  assert (Js.truthy (i_total i) = true) as Ht.
  { unfold Js.truthy. destruct (Qeq_bool (i_total i) 0) eqn:He;
      [| reflexivity].
    apply Qeq_bool_iff in He. lra. }
  assert (amountInWords (invoiceSchema_pre_save date count i) =
          Some (numberToWords (i_total i))) as ->.
  { unfold invoiceSchema_pre_save.
    destruct (Numbering.missing (invoiceNumber i));
      cbn [i_total set_invoiceNumber]; rewrite Ht; reflexivity. }
  unfold numberToWords. cbv zeta. unfold Js.floor.
  rewrite (numToWords_negative _ (Qfloor_neg _ Hneg)).
  destruct (0 <? _); eexists; cbn [String.append]; reflexivity.
Qed.

Lemma negative_total_in_words_witness :
  exists rest,
    amountInWords
      (invoiceSchema_pre_save Scenario.now 0
         (mkInvoice 1 1 None (-150 # 1) None pay_pending 0 None [] inv_draft
                    None)) =
    Some ("undefined Rupees" +:+ rest).
Proof.
  apply negative_total_in_words. reflexivity.
Defined.

(** X12. Paise are rounded but never carried: an amount whose fraction is
    at least 0.995 keeps its rupees and reads "One Hundred Paise". *)
Theorem paise_are_not_carried (amount : Q) :
  (199 # 200 <= amount - inject_Z (Qfloor amount))%Q ->
  numberToWords amount =
  numToWords (Qfloor amount) +:+ " Rupees and One Hundred Paise".
Proof.
  intros Hfrac. unfold numberToWords, Js.floor, Js.round. cbv zeta.
  pose proof (Qlt_floor amount) as Hhi.
  rewrite inject_Z_plus in Hhi. change (inject_Z 1) with 1%Q in Hhi.
  assert (Qfloor ((amount - inject_Z (Qfloor amount)) * 100 + (1 # 2)) = 100)
    as ->.
  { apply Qfloor_between.
    - change (inject_Z 100) with 100%Q. lra.
    - change (inject_Z (100 + 1)) with 101%Q. lra. }
  change (0 <? 100) with true. cbv iota.
  change (numToWords 100) with "One Hundred".
  rewrite append_assoc. reflexivity.
Qed.

Lemma paise_are_not_carried_witness :
  numberToWords (1999 # 1000) = "One Rupees and One Hundred Paise".
Proof.
  rewrite paise_are_not_carried; [reflexivity |]. vm_compute. discriminate.
Defined.

Lemma append_nonempty_r (s : string) (c : ascii) (t : string) :
  s +:+ String c t <> "".
Proof. destruct s; discriminate. Qed.

Lemma index_ones_nonempty (n : Z) : 0 < n < 20 -> index ones n <> "".
Proof.
  intros Hn.
  assert (forallb (fun k => negb (String.eqb (index ones (Z.of_nat k)) ""))
                  (seq 1 19) = true) as Hall by reflexivity.
  rewrite forallb_forall in Hall. specialize (Hall (Z.to_nat n)).
  rewrite Z2Nat.id in Hall by lia.
  intros He. rewrite He in Hall.
  assert (In (Z.to_nat n) (seq 1 19)) as Hin by (apply in_seq; lia).
  specialize (Hall Hin). discriminate.
Qed.

Lemma index_tens_nonempty (n : Z) : 2 <= n < 10 -> index tens n <> "".
Proof.
  intros Hn.
  assert (forallb (fun k => negb (String.eqb (index tens (Z.of_nat k)) ""))
                  (seq 2 8) = true) as Hall by reflexivity.
  rewrite forallb_forall in Hall. specialize (Hall (Z.to_nat n)).
  rewrite Z2Nat.id in Hall by lia.
  intros He. rewrite He in Hall.
  assert (In (Z.to_nat n) (seq 2 8)) as Hin by (apply in_seq; lia).
  specialize (Hall Hin). discriminate.
Qed.

Lemma append_empty_l (s t : string) : s +:+ t = "" -> s = "".
Proof. destruct s; [reflexivity | discriminate]. Qed.

(** X13. The rupee part has words for every positive whole number and none
    for zero, so an amount under one rupee reads " Rupees ..." with nothing
    before it. *)
Theorem zero_rupees_have_no_words :
  (forall n, 0 <= n -> (numToWords n = "" <-> n = 0)) /\
  (forall amount : Q,
      (0 <= amount)%Q -> (amount < 1)%Q ->
      exists rest, numberToWords amount = " Rupees" +:+ rest).
Proof.
  assert (forall n, 0 <= n -> (numToWords n = "" <-> n = 0)) as Hzero.
  { intros n Hn. split; [| intros ->; reflexivity].
    intros He. destruct (Z.eq_dec n 0) as [H0 | Hpos]; [exact H0 |].
    exfalso. rewrite numToWords_unfold in He. unfold numToWords_body in He.
    destruct (Z.ltb_spec n 20).
    { apply (index_ones_nonempty n); [lia | exact He]. }
    destruct (Z.ltb_spec n 100).
    { apply append_empty_l in He.
      apply (index_tens_nonempty (n / 10)); [| exact He].
      Z.to_euclidean_division_equations; lia. }
    destruct (Z.ltb_spec n 1000).
    { rewrite <- append_assoc in He. apply append_empty_l in He.
      exact (append_nonempty_r _ _ _ He). }
    destruct (Z.ltb_spec n 100000).
    { rewrite <- append_assoc in He. apply append_empty_l in He.
      exact (append_nonempty_r _ _ _ He). }
    destruct (Z.ltb_spec n 10000000).
    { rewrite <- append_assoc in He. apply append_empty_l in He.
      exact (append_nonempty_r _ _ _ He). }
    rewrite <- append_assoc in He. apply append_empty_l in He.
    exact (append_nonempty_r _ _ _ He). }
  split; [exact Hzero |].
  intros amount Hlo Hhi. unfold numberToWords, Js.floor. cbv zeta.
  assert (Qfloor amount = 0) as ->.
  { apply Qfloor_between.
    - change (inject_Z 0) with 0%Q. exact Hlo.
    - change (inject_Z (0 + 1)) with 1%Q. exact Hhi. }
  change (numToWords 0) with "".
  destruct (0 <? _); eexists; reflexivity.
Qed.

Lemma zero_rupees_witness :
  exists rest, numberToWords (1 # 2) = " Rupees" +:+ rest.
Proof.
  apply (proj2 zero_rupees_have_no_words); [vm_compute; discriminate |].
  reflexivity.
Defined.

End WordsEdges.

(** ** The update route's notification guard *)

Section UpdateNotification.
Import Doc Handler Model Orders Invoices Props Props2 Notifications.
Local Open Scope Q_scope.

Lemma pre_save_status (date : Js.Date) (count : N) (o : Order) :
  status (orderSchema_pre_save date count o) = status o.
Proof.
  unfold orderSchema_pre_save. destruct (Numbering.missing _); reflexivity.
Qed.

(** X14. The update route never sends its status notification: the guard
    compares the status of the request with the status of the order after
    the request has been copied onto it and saved, so for every update that
    goes through the two are equal and the guard is false. *)
Theorem updateOrder_never_notifies (uid id : nat) (p : OrderPatch)
    (now : Js.Date) (db db' : Db) (code : nat) (o' : Order) (msg : string) :
  updateOrder uid id p now db = (db', SendOrder code o' msg) ->
  updateOrder_notifies p o' = false.
Proof.
  rewrite updateOrder_run. intros H.
  destruct (Order_lookup id uid (orders db)) as [order |]; [| discriminate].
  rewrite Order_save_run in H.
  destruct (Order_valid _); [| discriminate]. cbv zeta in H.
  destruct (Order_write _ _ (orders db)); [discriminate |].
  injection H as _ _ <- _. unfold updateOrder_notifies.
  rewrite pre_save_status. unfold assign. cbn [status].
  destruct (up_status p) as [st |]; [| reflexivity].
  destruct st; reflexivity.
Qed.

Lemma updateOrder_never_notifies_witness :
  exists db' o',
    updateOrder 1 100 (mkOrderPatch (Some shipped) None None None)
      Scenario.now Scenario.db1 =
      (db', SendOrder 200 o' "Order updated successfully") /\
    status o' = shipped /\
    updateOrder_notifies (mkOrderPatch (Some shipped) None None None) o'
    = false.
Proof.
  eexists. eexists. split; [vm_compute; reflexivity |].
  split; [reflexivity |].
  eapply (updateOrder_never_notifies 1 100 _ Scenario.now Scenario.db1).
  vm_compute. reflexivity.
Defined.

End UpdateNotification.

(** ** The inventory route *)

Section InventoryRoute.
Import Doc Inventory.
Local Open Scope Q_scope.

Lemma max0_nonneg (x : Q) : 0 <= max0 x.
Proof.
  unfold max0. destruct (Qle_bool x 0) eqn:H; [lra |].
  assert (~ x <= 0) as Hn by (intros Hle; apply Qle_bool_iff in Hle; congruence).
  lra.
Qed.

(** X15. Taking stock away never fails and never goes below zero: for a
    product of the owner, the [subtract] operation answers 200 and stores
    the quantity less the amount when that is positive, and 0 otherwise. *)
Theorem inventory_subtract_clamps (uid id : nat) (n : Q) (ms : option Q)
    (coll : gmap nat ProductDoc) (d : ProductDoc) :
  findOne id uid coll = Some d ->
  exists d',
    updateInventory uid id (mkInventoryBody n (Some "subtract") ms) coll =
      (<[p_id (pd_product d) := d']> coll,
       SendProduct 200 d' "Inventory updated successfully") /\
    (inv_quantity (pd_product d) - n <= 0 ->
     inv_quantity (pd_product d') = 0) /\
    (0 < inv_quantity (pd_product d) - n ->
     inv_quantity (pd_product d') = inv_quantity (pd_product d) - n) /\
    minimumStock d' = match ms with Some s => s | None => minimumStock d end.
Proof.
  intros Hf. unfold updateInventory. rewrite Hf. cbv zeta.
  cbn [ib_operation ib_quantity ib_minimumStock].
  change (apply_operation "subtract" n d)
    with (set_quantity (max0 (inv_quantity (pd_product d) - n)) d).
  set (d1 := set_quantity (max0 (inv_quantity (pd_product d) - n)) d).
  set (d' := match ms with Some s => set_minimumStock s d1 | None => d1 end).
  assert (pd_product d' = pd_product d1) as Hp
    by (subst d'; destruct ms; reflexivity).
  exists d'. unfold save. rewrite Hp. cbn [d1 set_quantity pd_product
    inv_quantity set_inv_quantity p_id].
  pose proof (max0_nonneg (inv_quantity (pd_product d) - n)) as Hn.
  apply Qle_bool_iff in Hn. rewrite Hn.
  split; [reflexivity |]. unfold max0.
  destruct (Qle_bool (inv_quantity (pd_product d) - n) 0) eqn:Hq.
  - apply Qle_bool_iff in Hq. split; [reflexivity |].
    split; [intros; lra | subst d'; destruct ms; reflexivity].
  - assert (~ inv_quantity (pd_product d) - n <= 0) as Hx
      by (intros Hle; apply Qle_bool_iff in Hle; congruence).
    split; [intros; lra |].
    split; [reflexivity | subst d'; destruct ms; reflexivity].
Qed.

Lemma inventory_subtract_witness :
  exists d',
    updateInventory 1 1 (mkInventoryBody 25 (Some "subtract") None) shelf =
      (<[1%nat := d']> shelf,
       SendProduct 200 d' "Inventory updated successfully") /\
    inv_quantity (pd_product d') = 0.
Proof.
  destruct (inventory_subtract_clamps 1 1 25 None shelf
              (mkProductDoc Scenario.widget 1 10) eq_refl)
    as (d' & Hrun & Hzero & _).
  exists d'. split; [exact Hrun |]. apply Hzero. vm_compute. discriminate.
Defined.

(** X16. The inventory route never stores a negative quantity: whatever the
    request, a document it leaves in the collection is the one that was
    there or has a quantity of at least zero; and a [set] or an [add] that
    would go below zero is answered 500 with the collection unchanged. *)
Theorem inventory_update_guard (uid id : nat) (b : InventoryBody)
    (coll : gmap nat ProductDoc) :
  (forall j d', fst (updateInventory uid id b coll) !! j = Some d' ->
                coll !! j = Some d' \/ 0 <= inv_quantity (pd_product d')) /\
  (forall d,
      findOne id uid coll = Some d ->
      (ib_operation b = None \/ ib_operation b = Some "set") ->
      ib_quantity b < 0 ->
      updateInventory uid id b coll =
      (coll, SendFailure 500 "Failed to update inventory")) /\
  (forall d,
      findOne id uid coll = Some d ->
      ib_operation b = Some "add" ->
      inv_quantity (pd_product d) + ib_quantity b < 0 ->
      updateInventory uid id b coll =
      (coll, SendFailure 500 "Failed to update inventory")).
Proof.
  assert (forall x, x < 0 -> Qle_bool 0 x = false) as Hneg.
  { intros x Hx. destruct (Qle_bool 0 x) eqn:H; [| reflexivity].
    apply Qle_bool_iff in H. lra. }
  split; [| split].
  - intros j d' Hl. unfold updateInventory in Hl.
    destruct (findOne id uid coll) as [d |]; [| left; exact Hl].
    cbv zeta in Hl. unfold save in Hl.
    match type of Hl with
    | context [Qle_bool 0 (inv_quantity (pd_product ?x))] => set (d1 := x) in *
    end.
    destruct (Qle_bool 0 (inv_quantity (pd_product d1))) eqn:Hq;
      [| left; exact Hl].
    cbn [fst] in Hl. destruct (decide (p_id (pd_product d1) = j)) as [<- | Hne].
    + rewrite lookup_insert_eq in Hl. injection Hl as <-.
      right. apply Qle_bool_iff. exact Hq.
    + rewrite lookup_insert_ne in Hl by exact Hne. left. exact Hl.
  - intros d Hf Hop Hq. unfold updateInventory. rewrite Hf. cbv zeta.
    assert (apply_operation
              match ib_operation b with Some op => op | None => "set" end
              (ib_quantity b) d = set_quantity (ib_quantity b) d) as ->
      by (destruct Hop as [-> | ->]; reflexivity).
    unfold save.
    assert (forall x, pd_product (match ib_minimumStock b with
                                  | Some s => set_minimumStock s x
                                  | None => x end) = pd_product x) as ->
      by (intros x; destruct (ib_minimumStock b); reflexivity).
    cbn [set_quantity pd_product inv_quantity set_inv_quantity].
    rewrite (Hneg _ Hq). reflexivity.
  - intros d Hf Hop Hq. unfold updateInventory. rewrite Hf, Hop. cbv zeta.
    change (apply_operation "add" (ib_quantity b) d)
      with (set_quantity (inv_quantity (pd_product d) + ib_quantity b) d).
    unfold save.
    assert (forall x, pd_product (match ib_minimumStock b with
                                  | Some s => set_minimumStock s x
                                  | None => x end) = pd_product x) as ->
      by (intros x; destruct (ib_minimumStock b); reflexivity).
    cbn [set_quantity pd_product inv_quantity set_inv_quantity].
    rewrite (Hneg _ Hq). reflexivity.
Qed.

Lemma inventory_update_guard_witness :
  updateInventory 1 1 (mkInventoryBody (-25) (Some "add") None) shelf =
  (shelf, SendFailure 500 "Failed to update inventory").
Proof.
  refine (proj2 (proj2 (inventory_update_guard 1 1
            (mkInventoryBody (-25) (Some "add") None) shelf))
            (mkProductDoc Scenario.widget 1 10) eq_refl eq_refl _).
  vm_compute. reflexivity.
Defined.

End InventoryRoute.


(** ** The intents and templates of the automation service *)

Section AutomationFacts.
Import Automation Props3.
Local Open Scope Q_scope.

Lemma drop_prefix_sound (p s r : string) :
  drop_prefix p s = Some r -> s = p +:+ r.
Proof.
  revert s. induction p as [| a p IH]; intros s H.
  - injection H as <-. reflexivity.
  - destruct s as [| b s]; [discriminate |]. cbn [drop_prefix] in H.
    destruct (Ascii.eqb a b) eqn:E; [| discriminate].
    apply Ascii.eqb_eq in E. subst b.
    change (String a s = String a (p +:+ r)). f_equal. apply IH. exact H.
Qed.

Lemma drop_prefix_complete (p r : string) : drop_prefix p (p +:+ r) = Some r.
Proof.
  induction p as [| a p IH]; [destruct r; reflexivity |].
  change (drop_prefix (String a p) (String a (p +:+ r)) = Some r).
  cbn [drop_prefix]. rewrite Ascii.eqb_refl. exact IH.
Qed.

Lemma find_first_sound (p s b a : string) :
  find_first p s = Some (b, a) -> s = b +:+ p +:+ a.
Proof.
  revert b. induction s as [| c s IH]; intros b H.
  - cbn [find_first] in H. destruct (drop_prefix p "") eqn:E; [| discriminate].
    injection H as <- <-. apply drop_prefix_sound in E. exact E.
  - cbn [find_first] in H.
    destruct (drop_prefix p (String c s)) eqn:E.
    + injection H as <- <-. apply drop_prefix_sound in E. exact E.
    + destruct (find_first p s) as [[b' a'] |]; [| discriminate].
      injection H as <- <-.
      change (String c s = String c (b' +:+ p +:+ a')). f_equal.
      apply IH. reflexivity.
Qed.

Lemma includes_complete (p b a : string) : includes (b +:+ p +:+ a) p = true.
Proof.
  unfold includes. induction b as [| c b IH].
  - change ("" +:+ p +:+ a) with (p +:+ a).
    destruct (p +:+ a) eqn:E; cbn [find_first]; rewrite <- E;
      rewrite drop_prefix_complete; reflexivity.
  - change (String c b +:+ p +:+ a) with (String c (b +:+ p +:+ a)).
    cbn [find_first].
    destruct (drop_prefix p (String c (b +:+ p +:+ a))); [reflexivity |].
    destruct (find_first p (b +:+ p +:+ a)) as [[b' a'] |];
      [reflexivity | discriminate].
Qed.

(** A keyword that occurs in a part of the message occurs in the message. *)
Lemma includes_trans (s k p : string) :
  includes s k = true -> includes k p = true -> includes s p = true.
Proof.
  unfold includes at 1 2. intros Hs Hk.
  destruct (find_first k s) as [[b a] |] eqn:Es; [| discriminate].
  destruct (find_first p k) as [[b' a'] |] eqn:Ek; [| discriminate].
  apply find_first_sound in Es, Ek. subst s. rewrite Ek.
  rewrite !append_assoc. rewrite <- (append_assoc b b').
  apply includes_complete.
Qed.

Lemma some_included_In (keywords : list string) (m k : string) :
  In k keywords -> includes m k = true -> some_included keywords m = true.
Proof.
  intros Hin Hk. unfold some_included. apply existsb_exists.
  exists k. split; assumption.
Qed.

(** X17. The keyword [hi] shadows the others: a message in which the letters
    [hi] occur anywhere is read as a greeting (or as thanks), so a message
    that mentions the order keyword [shipment] is never read as a question
    about an order. *)
Theorem greeting_keyword_shadows_shipment (m : string) :
  (includes m "hi" = true ->
   detectIntent m = "greeting" \/ detectIntent m = "thanks") /\
  (includes m "shipment" = true ->
   detectIntent m <> "order_status" /\ detectIntent m <> "new_order").
Proof.
  assert (includes m "hi" = true ->
          detectIntent m = "greeting" \/ detectIntent m = "thanks") as Hhi.
  { intros H. unfold detectIntent.
    rewrite (some_included_In greetingKeywords m "hi");
      [| right; left; reflexivity | exact H].
    destruct (some_included thanksKeywords m); [right | left]; reflexivity. }
  split; [exact Hhi |]. intros H.
  assert (includes m "hi" = true) as H'
    by (apply (includes_trans m "shipment"); [exact H | vm_compute; reflexivity]).
  destruct (Hhi H') as [-> | ->]; split; discriminate.
Qed.

Lemma greeting_keyword_shadows_shipment_witness :
  includes "where is my shipment" "shipment" = true /\
  detectIntent "where is my shipment" <> "order_status" /\
  detectIntent "where is my shipment" <> "new_order".
Proof.
  split; [vm_compute; reflexivity |].
  apply (proj2 (greeting_keyword_shadows_shipment "where is my shipment")).
  vm_compute. reflexivity.
Defined.

Lemma pattern_head (d : Decimal.uint) :
  exists c rest,
    NilEmpty.string_of_uint d +:+ "}" = String c rest /\
    opens_numbered c = true.
Proof.
  destruct d; do 2 eexists; (split; [reflexivity | reflexivity]).
Qed.

Lemma opens_numbered_neq (c c' : ascii) :
  opens_numbered c = true -> negb (opens_numbered c') = true ->
  Ascii.eqb c c' = false.
Proof.
  intros H H'. destruct (Ascii.eqb c c') eqn:E; [| reflexivity].
  apply Ascii.eqb_eq in E. subst c'. rewrite H in H'. discriminate.
Qed.

Lemma find_first_numbered (t : string) (c : ascii) (rest : string) :
  no_numbered_placeholder t = true -> opens_numbered c = true ->
  find_first (String "{" (String c rest)) t = None.
Proof.
  intros Ht Hc. induction t as [| a t IH]; [reflexivity |].
  cbn [no_numbered_placeholder] in Ht. apply andb_true_iff in Ht.
  destruct Ht as [Ha Ht]. cbn [find_first].
  rewrite (IH Ht).
  assert (drop_prefix (String "{" (String c rest)) (String a t) = None) as ->;
    [| reflexivity].
  cbn [drop_prefix]. rewrite (Ascii.eqb_sym "{" a).
  destruct (Ascii.eqb a "{"); [| reflexivity].
  destruct t as [| c' t']; [reflexivity |].
  rewrite (opens_numbered_neq c c' Hc Ha). reflexivity.
Qed.

Lemma replace_args_unchanged (t : string) (args : list string) (index : N) :
  no_numbered_placeholder t = true -> replace_args index args t = t.
Proof.
  intros Ht. revert index. induction args as [| arg args IH]; intros index;
    [reflexivity |].
  cbn [replace_args].
  assert (replace t ("{" +:+ Js.toString index +:+ "}") arg = t) as ->;
    [| apply IH].
  unfold replace, Js.toString.
  destruct (pattern_head (N.to_uint index)) as (c & rest & Hp & Hc).
  change ("{" +:+ NilEmpty.string_of_uint (N.to_uint index) +:+ "}")
    with (String "{" (NilEmpty.string_of_uint (N.to_uint index) +:+ "}")).
  rewrite Hp, (find_first_numbered t c rest Ht Hc). reflexivity.
Qed.

Lemma templates_in_table (type : string) (templates : list string) :
  property type responseTemplates = Some templates ->
  (length templates = 2%nat \/ length templates = 3%nat) /\
  forallb no_numbered_placeholder templates = true.
Proof.
  unfold responseTemplates. cbn [property]. intros H.
  repeat match type of H with
         | (if ?b then _ else _) = _ =>
             destruct b;
             [injection H as <-; split; [auto | vm_compute; reflexivity] |]
         end.
  discriminate.
Qed.

Lemma draw_in_range (random : Q) (n : nat) :
  0 <= random -> random < 1 -> (0 < n)%nat ->
  (0 <= Js.floor (random * inject_Z (Z.of_nat n)) < Z.of_nat n)%Z.
Proof.
  intros Hlo Hhi Hn. unfold Js.floor.
  set (k := inject_Z (Z.of_nat n)).
  assert (0 < k) as Hk.
  { subst k. change 0 with (inject_Z 0). rewrite <- Zlt_Qlt. lia. }
  pose proof (Qfloor_le (random * k)) as H1.
  pose proof (Qlt_floor (random * k)) as H2.
  assert (0 <= random * k) as H3 by nra.
  assert (random * k < k) as H4 by nra.
  split.
  - assert (inject_Z (-1) < inject_Z (Qfloor (random * k))) as H5.
    { rewrite inject_Z_plus in H2. change (inject_Z 1) with 1 in H2.
      change (inject_Z (-1)) with (-1). lra. }
    rewrite <- Zlt_Qlt in H5. lia.
  - assert (inject_Z (Qfloor (random * k)) < inject_Z (Z.of_nat n)) as H5
      by (fold k; lra).
    rewrite <- Zlt_Qlt in H5. exact H5.
Qed.

(** X18. The placeholders of the templates are never filled in: for a kind
    of reply the service has templates for, the reply is one of the
    templates word for word, whatever arguments are passed, since the
    templates name their placeholders ([{businessName}]) and the code
    replaces numbered ones ([{0}], [{1}]). *)
Theorem generateResponse_ignores_arguments (random : Q) (type : string)
    (templates : list string) :
  property type responseTemplates = Some templates ->
  0 <= random -> random < 1 ->
  exists t, In t templates /\
            forall args, generateResponse random type args = Value (Str t).
Proof.
  intros Hp Hlo Hhi. destruct (templates_in_table type templates Hp) as [Hlen Hfree].
  assert (0 < length templates)%nat as Hpos by (destruct Hlen; lia).
  pose proof (draw_in_range random (length templates) Hlo Hhi Hpos) as Hi.
  unfold generateResponse. rewrite Hp. cbv zeta.
  set (i := Js.floor (random * inject_Z (Z.of_nat (length templates)))) in *.
  assert ((i <? 0)%Z = false) as -> by (apply Z.ltb_ge; lia).
  destruct (nth_error templates (Z.to_nat i)) as [t |] eqn:Hn.
  - exists t. split; [eapply nth_error_In; exact Hn |].
    intros args. rewrite replace_args_unchanged; [reflexivity |].
    rewrite forallb_forall in Hfree. apply Hfree.
    eapply nth_error_In; exact Hn.
  - apply nth_error_None in Hn. lia.
Qed.

Lemma generateResponse_ignores_arguments_witness :
  generateResponse (2 # 3) "greeting" ["Acme"; "Asha"] =
  generateResponse (2 # 3) "greeting" [].
Proof.
  assert (0 <= 2 # 3) as Hlo by (vm_compute; discriminate).
  assert (2 # 3 < 1) as Hhi by (vm_compute; reflexivity).
  destruct (generateResponse_ignores_arguments (2 # 3) "greeting" _ eq_refl
              Hlo Hhi) as (t & _ & H).
  rewrite !H. reflexivity.
Defined.

End AutomationFacts.

(** ** The replies of the message handler *)

Section AutomationReplies.
Import Automation Props3.
Local Open Scope Q_scope.

(** X19. A question about an order or about a product gets no suggested
    reply: the handler asks for the templates [order_status] and
    [product_inquiry], the object holds them as [orderStatus] and
    [productInquiry], so the reply is [null]; the suggested action is set
    and the message is not marked as automated.  This holds for every
    message with a text (or none), whoever the user and the customer are,
    present or not. *)
Theorem order_and_product_replies_are_null (toLowerCase : string -> string)
    (text : option string) (user customer : option (option string))
    (random random' : Q) :
  let m := toLowerCase (match text with Some s => s | None => "" end) in
  (detectIntent m = "order_status" ->
   processIncomingMessage toLowerCase (Some (text_field text)) user customer
     random random' =
   Value (mkResponse "order_status" (analyzeSentiment m) Null
            request_order_number false)) /\
  (detectIntent m = "product_inquiry" ->
   processIncomingMessage toLowerCase (Some (text_field text)) user customer
     random random' =
   Value (mkResponse "product_inquiry" (analyzeSentiment m) Null
            send_catalog false)).
Proof.
  intros m. split; intros H; unfold processIncomingMessage, process_try;
    destruct text as [s |]; cbn [text_field]; unfold process_text;
    fold m; rewrite H; reflexivity.
Qed.

Lemma order_and_product_replies_witness :
  detectIntent "where is my order" = "order_status" /\
  processIncomingMessage (fun s => s) (Some (SomeText "where is my order"))
    None None (1 # 2) 0 =
  Value (mkResponse "order_status" "neutral" Null request_order_number false).
Proof.
  split; [vm_compute; reflexivity |].
  refine (proj1 (order_and_product_replies_are_null (fun s => s)
                   (Some "where is my order") None None (1 # 2) 0) _).
  vm_compute. reflexivity.
Defined.

Lemma detectIntent_cases (m : string) :
  In (detectIntent m)
     [ "thanks"; "greeting"; "new_order"; "order_status"; "product_inquiry";
       "invoice_payment"; "goodbye"; "general_inquiry" ].
Proof.
  unfold detectIntent.
  repeat match goal with
         | |- In (if ?b then _ else _) _ => destruct b
         end; cbn [In]; auto 10.
Qed.

(** The [try] block on a text, when the greeting finds its user and its
    customer or the message is no greeting. *)
Lemma process_text_answers (toLowerCase : string -> string) (text : string)
    (user customer : option (option string)) (random : Q) :
  0 <= random -> random < 1 ->
  let m := toLowerCase text in
  (detectIntent m = "greeting" -> user <> None /\ customer <> None) ->
  exists resp,
    process_text toLowerCase text user customer random = Value resp /\
    intent resp = detectIntent m /\
    intent resp <> "unknown" /\
    sentiment resp = analyzeSentiment m /\
    (automated resp = true <->
     intent resp = "greeting" \/ intent resp = "thanks" \/
     intent resp = "goodbye") /\
    forall user' customer',
      (detectIntent m = "greeting" -> user' <> None /\ customer' <> None) ->
      process_text toLowerCase text user' customer' random = Value resp.
Proof.
  intros Hlo Hhi m Hpresent.
  assert (forall type templates,
             property type responseTemplates = Some templates ->
             exists t, forall args,
                 generateResponse random type args = Value (Str t)) as Hgen.
  { intros type templates Hp.
    destruct (generateResponse_ignores_arguments random type templates
                Hp Hlo Hhi) as (t & _ & Ht).
    exists t. exact Ht. }
  destruct (Hgen "greeting" _ eq_refl) as (tg & Hg).
  destruct (Hgen "thanks" _ eq_refl) as (tt & Ht).
  destruct (Hgen "goodbye" _ eq_refl) as (tb & Hb).
  destruct (Hgen "default" _ eq_refl) as (td & Hd).
  unfold process_text. fold m.
  pose proof (detectIntent_cases m) as Hc. cbn [In] in Hc.
  destruct Hc as [E | [E | [E | [E | [E | [E | [E | [E | []]]]]]]]];
    rewrite <- E in *; cbn [String.eqb Ascii.eqb Bool.eqb].
  2: { destruct (Hpresent eq_refl) as [Hu Hcu].
       destruct user as [bn |]; [| congruence].
       destruct customer as [cn |]; [| congruence].
       rewrite Hg. eexists. cbn [intent sentiment automated].
       repeat split; try reflexivity; try discriminate; auto.
       intros user' customer' Hp'. destruct (Hp' eq_refl) as [Hu' Hc'].
       destruct user' as [bn' |]; [| congruence].
       destruct customer' as [cn' |]; [| congruence].
       rewrite Hg. reflexivity. }
  all: rewrite ?Ht, ?Hb, ?Hd; eexists; cbn [intent sentiment automated];
    repeat split; try reflexivity; try discriminate; auto;
    try (intros [H | [H | H]]; discriminate H).
Qed.

(** X20. The handler never rejects: it answers from its [try] block or
    from its [catch] block.  From the [try] block, when the message is
    there with a text that is a string (or with none) and, for a greeting,
    the user and the customer are there: the intent is the detected one,
    the sentiment the analysed one, the message is marked as automated
    exactly for greetings, thanks and goodbyes, and the names of the
    business and of the customer do not change the answer.  From the
    [catch] block, with intent [unknown], sentiment [neutral], one of the
    default templates and no action, when the message is missing, when its
    text is no string, or when a greeting finds no user or no customer. *)
Theorem processIncomingMessage_answers (toLowerCase : string -> string)
    (message : option TextField) (user customer : option (option string))
    (random random' : Q) :
  0 <= random -> random < 1 -> 0 <= random' -> random' < 1 ->
  (forall text,
      message = Some (text_field text) ->
      let m := toLowerCase (match text with Some s => s | None => "" end) in
      (detectIntent m = "greeting" -> user <> None /\ customer <> None) ->
      exists resp,
        processIncomingMessage toLowerCase message user customer
          random random' = Value resp /\
        intent resp = detectIntent m /\
        intent resp <> "unknown" /\
        sentiment resp = analyzeSentiment m /\
        (automated resp = true <->
         intent resp = "greeting" \/ intent resp = "thanks" \/
         intent resp = "goodbye") /\
        forall businessName customerName,
          processIncomingMessage toLowerCase message (Some businessName)
            (Some customerName) random random' = Value resp) /\
  ((message = None \/ message = Some NotAString \/
    exists text,
      message = Some (text_field text) /\
      detectIntent
        (toLowerCase (match text with Some s => s | None => "" end))
      = "greeting" /\
      (user = None \/ customer = None)) ->
   exists t,
     In t ["I understand. Let me connect you with our team for better assistance.";
           "I see. An executive will respond to you shortly.";
           "Thanks for reaching out! We'll get back to you soon."] /\
     processIncomingMessage toLowerCase message user customer random random'
     = Value (mkResponse "unknown" "neutral" (Str t) Absent false)).
Proof.
  intros Hlo Hhi Hlo' Hhi'. split.
  - intros text -> m Hpresent.
    assert (process_try toLowerCase (Some (text_field text)) =
            process_text toLowerCase
              (match text with Some s => s | None => "" end)) as Htry
      by (destruct text; reflexivity).
    destruct (process_text_answers toLowerCase
                (match text with Some s => s | None => "" end)
                user customer random Hlo Hhi Hpresent)
      as (resp & Hrun & Hi & Hu & Hs & Ha & Hnames).
    exists resp. unfold processIncomingMessage. rewrite Htry, Hrun.
    repeat split; try assumption; try apply Ha.
    intros businessName customerName.
    rewrite (Hnames (Some businessName) (Some customerName));
      [reflexivity |]. intros _. split; discriminate.
  - intros Hcatch.
    destruct (generateResponse_ignores_arguments random' "default" _ eq_refl
                Hlo' Hhi') as (t & Hin & Ht).
    exists t. split; [exact Hin |].
    unfold processIncomingMessage.
    assert (process_try toLowerCase message user customer random = Threw)
      as ->; [| rewrite Ht; reflexivity].
    destruct Hcatch as [-> | [-> | (text & -> & Hg & Hmiss)]];
      [reflexivity | reflexivity |].
    unfold process_try.
    assert (forall s,
               s = match text with Some s => s | None => "" end ->
               process_text toLowerCase s user customer random = Threw) as H.
    { intros s ->. unfold process_text. rewrite Hg.
      cbn [String.eqb Ascii.eqb Bool.eqb].
      destruct Hmiss as [-> | ->]; [reflexivity |].
      destruct user; reflexivity. }
    destruct text as [s |]; cbn [text_field]; apply H; reflexivity.
Qed.

Lemma processIncomingMessage_answers_witness :
  (exists resp,
      processIncomingMessage (fun s => s) (Some (SomeText "hello"))
        (Some (Some "Acme")) (Some (Some "Asha")) (2 # 3) 0 = Value resp /\
      intent resp = "greeting" /\ automated resp = true) /\
  (exists t,
      processIncomingMessage (fun s => s) (Some (SomeText "hello"))
        (Some None) None (2 # 3) 0 =
      Value (mkResponse "unknown" "neutral" (Str t) Absent false)).
Proof.
  assert (0 <= 2 # 3) as Hlo by (vm_compute; discriminate).
  assert (2 # 3 < 1) as Hhi by (vm_compute; reflexivity).
  assert (0 <= 0) as Hlo' by (vm_compute; discriminate).
  assert (0 < 1) as Hhi' by (vm_compute; reflexivity).
  split.
  - destruct (proj1 (processIncomingMessage_answers (fun s => s)
                       (Some (SomeText "hello")) (Some (Some "Acme"))
                       (Some (Some "Asha")) (2 # 3) 0 Hlo Hhi Hlo' Hhi')
                (Some "hello") eq_refl)
      as (resp & Hrun & Hi & _ & _ & Ha & _).
    + intros _. split; discriminate.
    + exists resp. split; [exact Hrun |].
      assert (intent resp = "greeting") as Hint
        by (rewrite Hi; vm_compute; reflexivity).
      split; [exact Hint |]. apply Ha. left. exact Hint.
  - destruct (proj2 (processIncomingMessage_answers (fun s => s)
                       (Some (SomeText "hello")) (Some None) None
                       (2 # 3) 0 Hlo Hhi Hlo' Hhi'))
      as (t & _ & Hrun).
    + right. right. exists (Some "hello").
      split; [reflexivity |]. split; [vm_compute; reflexivity |].
      right. reflexivity.
    + exists t. exact Hrun.
Defined.

End AutomationReplies.

(** ** Invoices made from orders, and their ledger *)

Section InvoiceLedger.
Import Doc Handler Model Orders Invoices InvoiceRoutes Ledger.
Local Open Scope Q_scope.

Lemma createInvoice_run (uid id iid : nat) (now : Js.Date) (db : Db) :
  createInvoice uid id iid now db =
  match Order_lookup id uid (orders db) with
  | None => (db, SendError 404 "Order not found")
  | Some order =>
      match Invoice_save now true (new_invoice iid order uid) db with
      | (db', Val invoice) =>
          (db', SendInvoice 201 invoice "Invoice created successfully")
      | (db', Return r) => (db', r)
      | (db', Raise _) => (db', SendError 500 "Failed to create invoice")
      end
  end.
Proof.
  unfold createInvoice, try_catch, Order_findOne, createInvoiceFromOrder.
  rewrite !bind_run. cbn [get ret].
  destruct (Order_lookup _ _ _) as [order |]; [| reflexivity].
  rewrite bind_run.
  destruct (Invoice_save now _ _ db) as [db2 [invoice' | r | e]]; reflexivity.
Qed.

(** X23. The route that makes an invoice from an order never makes one:
    [createInvoiceFromOrder] builds the invoice without a number, the
    number is required, and validation comes before the hook that would
    supply it.  So for every order of the owner the route answers 500, for
    any other 404, and either way the store is left as it is. *)
Theorem createInvoice_never_creates (uid id iid : nat) (now : Js.Date)
    (db : Db) :
  (forall order user db0,
      createInvoiceFromOrder order user iid now db0 =
      (db0, Raise (ValidationError "invoiceNumber"))) /\
  (forall order,
      Order_lookup id uid (orders db) = Some order ->
      createInvoice uid id iid now db =
      (db, SendError 500 "Failed to create invoice")) /\
  (Order_lookup id uid (orders db) = None ->
   createInvoice uid id iid now db = (db, SendError 404 "Order not found")).
Proof.
  assert (forall order user db0,
             createInvoiceFromOrder order user iid now db0 =
             (db0, Raise (ValidationError "invoiceNumber"))) as Hsave
    by (intros; unfold createInvoiceFromOrder; rewrite Invoice_save_run;
        reflexivity).
  split; [exact Hsave |]. split.
  - intros order Hl. rewrite createInvoice_run, Hl.
    change (Invoice_save now true (new_invoice iid order uid) db)
      with (createInvoiceFromOrder order uid iid now db).
    rewrite Hsave. reflexivity.
  - intros Hl. rewrite createInvoice_run, Hl. reflexivity.
Qed.

Lemma createInvoice_never_creates_witness :
  createInvoice 1 100 500 Scenario.now Scenario.db1 =
  (Scenario.db1, SendError 500 "Failed to create invoice").
Proof.
  refine (proj1 (proj2 (createInvoice_never_creates 1 100 500 Scenario.now
                          Scenario.db1)) Scenario.order1 _).
  vm_compute. reflexivity.
Defined.

(** X24. Recording a payment keeps the ledger: when the paid amount of the
    invoice is the sum of its payments before the request, it is after it,
    whatever the amount and however the invoice is settled. *)
Theorem recordPayment_keeps_ledger (uid id : nat) (b : PaymentBody)
    (now : Js.Date) (db db' : Db) (invoice i' : Invoice) (code : nat)
    (msg : string) :
  Invoice_lookup id uid (invoices db) = Some invoice ->
  balanced invoice ->
  recordPayment uid id b now db = (db', SendInvoice code i' msg) ->
  balanced i' /\
  paid_sum i' == paid_sum invoice + pb_amount b.
Proof.
  intros Hl Hb Hrun.
  pose proof (recordPayment_inv uid id b now db db' invoice i' code msg
                Hl Hrun) as Hi.
  pose proof (invoice_pre_save_keeps now
                (Invoice_countDocuments (i_user (apply_payment b now invoice))
                   (invoices db))
                (apply_payment b now invoice)) as Hk.
  cbv zeta in Hk. rewrite <- Hi in Hk.
  destruct Hk as (_ & _ & _ & _ & Hp & _ & Hpay & _).
  assert (paidAmount (apply_payment b now invoice) =
          paidAmount invoice + pb_amount b) as Hpa
    by (unfold apply_payment; destruct (Qle_bool _ _); reflexivity).
  assert (payments (apply_payment b now invoice) =
          (payments invoice ++
           [mkPayment (pb_amount b) (pb_method b) (pb_reference b)
              (pb_notes b) now])%list) as Hps
    by (unfold apply_payment; destruct (Qle_bool _ _); reflexivity).
  assert (paid_sum i' == paid_sum invoice + pb_amount b) as Hsum.
  { unfold paid_sum. rewrite Hpay, Hps, fold_left_app. cbn [fold_left pay_amount].
    reflexivity. }
  split; [| exact Hsum].
  unfold balanced in *. rewrite Hsum, Hp, Hpa, Hb. reflexivity.
Qed.

Lemma recordPayment_keeps_ledger_witness :
  balanced Scenario2.invoice_refunded /\
  paid_sum Scenario2.invoice_refunded ==
  paid_sum Scenario2.invoice_paid + (-230).
Proof.
  refine (recordPayment_keeps_ledger 1 500
            (mkPaymentBody (-230) None None None) Scenario.now
            Scenario2.db_paid _ Scenario2.invoice_paid
            Scenario2.invoice_refunded 200 "Payment recorded successfully"
            _ _ _).
  - vm_compute. reflexivity.
  - vm_compute. reflexivity.
  - vm_compute. reflexivity.
Defined.

End InvoiceLedger.
